(** * FluidMix: the mixing calculation engine and the retry wrapper

    A shallow embedding of [calculateMixing] (the calculation engine) and of
    [callWithRetry], [extractGuideData] and [getAIRecommendations]
    (services/gemini.ts), with the properties the specification states
    about them.

    Numbers.  A JavaScript number is modelled by [num]: a real number, one
    of the two infinities, or NaN.  The special cases of every operation
    (division by zero, [0 * Infinity], the square root or logarithm of a
    negative number, NaN propagation through [Math.max] and [Math.min],
    the falsy values of [||], comparisons with NaN) follow ECMAScript.  On
    finite operands the arithmetic is exact: binary64 rounding, overflow
    and underflow are not modelled, and zero carries no sign (it behaves as
    [+0]).  An absent ([undefined]) numeric field behaves as NaN in every
    arithmetic operation, comparison and [||] of the engine, so NaN stands
    for it; [depth], which has a destructuring default, is an [option].

    Magnitudes.  Because overflow and underflow are outside the model, the
    properties that range over input records and depend on the finite
    arithmetic are stated for records of moderate magnitude (each numeric
    field zero or between 1e-9 and 1e9, [moderate_inputs]), on which the
    binary64 values of the engine stay in range; an equality between two
    computed values that rounding disturbs is stated to within one part in
    1e12 ([close_to]).  Identities between results (a field that is not
    read, an absent value read as zero) hold for every record. *)

From Stdlib Require Import Reals Lra Lia ZArith String List Bool.
Import ListNotations.

Open Scope R_scope.

(** ** JavaScript numbers *)

Inductive num : Type :=
| NaN
| PInf
| NInf
| Fin (r : R).

Declare Scope num_scope.
Delimit Scope num_scope with num.
Bind Scope num_scope with num.

(** The sign of a real, as a [comparison] with zero. *)
Definition Rsign (r : R) : comparison :=
  match total_order_T r 0 with
  | inleft (left _) => Lt
  | inleft (right _) => Eq
  | inright _ => Gt
  end.

(** The infinity of a given sign; the product [0 * Infinity] is NaN. *)
Definition signed_inf (c : comparison) : num :=
  match c with
  | Lt => NInf
  | Eq => NaN
  | Gt => PInf
  end.

Definition is_finite (a : num) : bool :=
  match a with
  | Fin _ => true
  | _ => false
  end.

Definition is_nan (a : num) : bool :=
  match a with
  | NaN => true
  | _ => false
  end.

(** ToBoolean on a number: [0] and NaN are falsy. *)
Definition truthy (a : num) : bool :=
  match a with
  | NaN => false
  | Fin r => if Req_dec_T r 0 then false else true
  | PInf | NInf => true
  end.

(** [a || b] *)
Definition or_else (a b : num) : num := if truthy a then a else b.

Definition num_add (a b : num) : num :=
  match a, b with
  | NaN, _ | _, NaN => NaN
  | Fin x, Fin y => Fin (x + y)
  | PInf, NInf | NInf, PInf => NaN
  | PInf, _ | _, PInf => PInf
  | NInf, _ | _, NInf => NInf
  end.

Definition num_mul (a b : num) : num :=
  match a, b with
  | NaN, _ | _, NaN => NaN
  | Fin x, Fin y => Fin (x * y)
  | Fin x, PInf | PInf, Fin x => signed_inf (Rsign x)
  | Fin x, NInf | NInf, Fin x => signed_inf (CompOpp (Rsign x))
  | PInf, PInf | NInf, NInf => PInf
  | PInf, NInf | NInf, PInf => NInf
  end.

Definition num_div (a b : num) : num :=
  match a, b with
  | NaN, _ | _, NaN => NaN
  | Fin x, Fin y => if Req_dec_T y 0 then signed_inf (Rsign x) else Fin (x / y)
  | Fin _, (PInf | NInf) => Fin 0
  | PInf, Fin y => if Rlt_dec y 0 then NInf else PInf
  | NInf, Fin y => if Rlt_dec y 0 then PInf else NInf
  | (PInf | NInf), (PInf | NInf) => NaN
  end.

(** [a < b], [a <= b], [a > b]: false as soon as an operand is NaN. *)
Definition num_ltb (a b : num) : bool :=
  match a, b with
  | Fin x, Fin y => if Rlt_dec x y then true else false
  | NInf, (Fin _ | PInf) => true
  | Fin _, PInf => true
  | _, _ => false
  end.

Definition num_leb (a b : num) : bool :=
  match a, b with
  | NaN, _ | _, NaN => false
  | Fin x, Fin y => if Rle_dec x y then true else false
  | NInf, _ => true
  | _, PInf => true
  | _, _ => false
  end.

Definition num_gtb (a b : num) : bool := num_ltb b a.

Notation "a + b" := (num_add a b) : num_scope.
Notation "a * b" := (num_mul a b) : num_scope.
Notation "a / b" := (num_div a b) : num_scope.
Notation "a || b" := (or_else a b) : num_scope.
Notation "a <=? b" := (num_leb a b) : num_scope.
Notation "a <? b" := (num_ltb a b) : num_scope.
Notation "a >? b" := (num_gtb a b) : num_scope.

(** ** The Math object *)

Definition Math_PI : num := Fin PI.

Definition Math_max (a b : num) : num :=
  match a, b with
  | NaN, _ | _, NaN => NaN
  | PInf, _ | _, PInf => PInf
  | NInf, x | x, NInf => x
  | Fin x, Fin y => Fin (Rmax x y)
  end.

Definition Math_min (a b : num) : num :=
  match a, b with
  | NaN, _ | _, NaN => NaN
  | NInf, _ | _, NInf => NInf
  | PInf, x | x, PInf => x
  | Fin x, Fin y => Fin (Rmin x y)
  end.

Definition Math_sqrt (a : num) : num :=
  match a with
  | NaN | NInf => NaN
  | PInf => PInf
  | Fin x => if Rlt_dec x 0 then NaN else Fin (sqrt x)
  end.

Definition Math_exp (a : num) : num :=
  match a with
  | NaN => NaN
  | PInf => PInf
  | NInf => Fin 0
  | Fin x => Fin (exp x)
  end.

Definition Math_log (a : num) : num :=
  match a with
  | NaN | NInf => NaN
  | PInf => PInf
  | Fin x =>
      match Rsign x with
      | Lt => NaN
      | Eq => NInf
      | Gt => Fin (ln x)
      end
  end.

(** Whether a real is an integer, and an odd one. *)
Definition is_int (r : R) : bool :=
  if Req_dec_T (IZR (Int_part r)) r then true else false.

Definition is_odd_int (r : R) : bool := is_int r && Z.odd (Int_part r).

(** [Math.pow(base, exponent)], case by case as Number::exponentiate. *)
Definition Math_pow (base exponent : num) : num :=
  match exponent with
  | NaN => NaN
  | Fin y =>
      match Rsign y with
      | Eq => Fin 1
      | sy =>
          match base with
          | NaN => NaN
          | PInf => match sy with Gt => PInf | _ => Fin 0 end
          | NInf =>
              match sy with
              | Gt => if is_odd_int y then NInf else PInf
              | _ => Fin 0
              end
          | Fin x =>
              match Rsign x with
              | Eq => match sy with Gt => Fin 0 | _ => PInf end
              | Gt => Fin (Rpower x y)
              | Lt =>
                  if is_int y
                  then Fin ((if Z.odd (Int_part y) then -1 else 1) * Rpower (- x) y)
                  else NaN
              end
          end
      end
  | PInf =>
      match base with
      | NaN => NaN
      | PInf | NInf => PInf
      | Fin x =>
          match Rsign (Rabs x - 1) with
          | Gt => PInf
          | Eq => NaN
          | Lt => Fin 0
          end
      end
  | NInf =>
      match base with
      | NaN => NaN
      | PInf | NInf => Fin 0
      | Fin x =>
          match Rsign (Rabs x - 1) with
          | Gt => Fin 0
          | Eq => NaN
          | Lt => PInf
          end
      end
  end.

(** ** The data model (types.ts) *)

(** Modelled from the spec: the enumerations of types.ts, which is not
    among the source files; the constructors are the members the engine and
    the application name. *)
Inductive ConduitType : Type := PIPE | CHANNEL.
Inductive ConduitShape : Type := CIRCULAR | RECTANGULAR.
Inductive MixerModel : Type := NONE | KENICS_KM | HEV | STM.
Inductive InjectionType : Type := SINGLE | TWIN.

(** Modelled from the spec: the input record of types.ts, with the fields
    the body of [calculateMixing] reads.  [pitchRatio], [waterTemperature]
    and [chemicalDose] are destructured by the engine and never used;
    [chemicalType] is a label. *)
Record MixingInputs : Type := mkInputs {
  conduitType : ConduitType;
  conduitShape : ConduitShape;
  mixerModel : MixerModel;
  numElements : num;
  flowRate : num;
  dimension : num;
  depth : option num;
  availableLength : num;
  viscosity : num;
  density : num;
  chemicalFlow : num;
  chemicalDensity : num;
  chemicalViscosity : num;
  dilutionWaterFlow : num;
  targetCoV : num;
  targetMixingTime : num;
  injectionType : InjectionType
}.

(** Modelled from the spec: the result record of types.ts, with the fields
    of the object literal [calculateMixing] returns. *)
Record CalculationResults : Type := mkResults {
  velocity : num;
  reynoldsNumber : num;
  momentumRatio : num;
  momentumRegime : string;
  mixerCoV : num;
  viscosityRatio : num;
  injectedViscosity : num;
  injectedDensity : num;
  totalInjectionFlow : num;
  isCompliant : bool;
  isTimeCompliant : bool;
  mixingDistanceNeeded : num;
  mixingTimeNeeded : num;
  headloss : num;
  headlossMeters : num;
  gValue : num;
  limeSaturationLimit : num;
  dissolvedAtTarget : num;
  timeTo95Dissolution : num;
  distanceTo95Dissolution : num;
  suggestedOrificeDiameter : num;
  manufacturerNotes : string;
  hydraulicDiameter : num;
  wettedArea : num
}.

Definition ConduitType_eqb (a b : ConduitType) : bool :=
  match a, b with
  | PIPE, PIPE | CHANNEL, CHANNEL => true
  | _, _ => false
  end.

Definition ConduitShape_eqb (a b : ConduitShape) : bool :=
  match a, b with
  | CIRCULAR, CIRCULAR | RECTANGULAR, RECTANGULAR => true
  | _, _ => false
  end.

Definition InjectionType_eqb (a b : InjectionType) : bool :=
  match a, b with
  | SINGLE, SINGLE | TWIN, TWIN => true
  | _, _ => false
  end.

(** ** calculateMixing *)

(** The constants and locals of the body of [calculateMixing], one
    definition per [const] or [let], in the order of the source. *)
Module Body.
Section Locals.
Local Open Scope num_scope.
Variable inputs : MixingInputs.

Definition g : num := Fin 9.81.
Definition waterDensity : num := Fin 1000.
Definition waterViscosity : num := Fin 0.001.

(** The destructuring default [depth = 0.6]. *)
Definition depth0 : num :=
  match depth inputs with
  | Some v => v
  | None => Fin 0.6
  end.

Definition d : num := Math_max (dimension inputs || Fin 0.001) (Fin 0.001).
Definition h : num := Math_max (depth0 || Fin 0.001) (Fin 0.001).
Definition Q_m3h : num := Math_max (flowRate inputs || Fin 1) (Fin 1).

Definition totalInjLh : num :=
  (chemicalFlow inputs || Fin 0) + (dilutionWaterFlow inputs || Fin 0).
Definition totalInjM3s : num := totalInjLh / Fin 3600000.

Definition injDensity : num :=
  (((chemicalFlow inputs || Fin 0) * (chemicalDensity inputs || Fin 1000))
   + ((dilutionWaterFlow inputs || Fin 0) * waterDensity))
  / (totalInjLh || Fin 1).

Definition injVisc : num :=
  Math_exp
    (((chemicalFlow inputs || Fin 0)
      * Math_log (chemicalViscosity inputs || Fin 1e-6)
      + (dilutionWaterFlow inputs || Fin 0)
        * Math_log (waterViscosity || Fin 1e-6))
     / (totalInjLh || Fin 1)).

(** The two assignments of the conduit branches: [(area, Dh)]. *)
Definition geometry : num * num :=
  if ConduitType_eqb (conduitType inputs) PIPE then
    if ConduitShape_eqb (conduitShape inputs) CIRCULAR then
      (Math_PI * Math_pow (d / Fin 2) (Fin 2), d)
    else
      (d * h, (Fin 2 * d * h) / (d + h))
  else
    let area := d * h in
    (area, (Fin 4 * area) / (d + Fin 2 * h)).

Definition area : num := fst geometry.
Definition Dh : num := snd geometry.

Definition velocity : num := (Q_m3h / Fin 3600) / (area || Fin 1e-6).
Definition Re : num :=
  (density inputs * velocity * Dh) / (viscosity inputs || Fin 1e-6).
Definition alpha : num := (Q_m3h * Fin 1000) / (totalInjLh || Fin 1).

Definition LD : num := (availableLength inputs || Fin 1) / Dh.

(** The [switch] over the mixer model: [(mixerCoV, FD, Lm)] as the
    selected case leaves them; the [default] case is the remaining member,
    NONE. *)
Definition mixer : num * num * num :=
  match mixerModel inputs with
  | KENICS_KM =>
      ((if InjectionType_eqb (injectionType inputs) SINGLE
        then Fin 0.96 else Fin 0.38)
       * Math_pow Re (Fin (-0.1)) * Math_pow (numElements inputs) (Fin (-1.9)),
       Fin 1.8,
       numElements inputs * Fin 1.5 * Dh)
  | HEV =>
      (Fin 31.5 * Math_pow Re (Fin (-0.2))
       * Math_pow (numElements inputs) (Fin (-1.7)),
       Fin 0.6,
       numElements inputs * Dh)
  | STM =>
      (Fin 0.29 * Math_pow Re (Fin (-0.2))
       * Math_pow (numElements inputs) (Fin (-0.6)),
       Fin 4.15,
       numElements inputs * Fin 0.8 * Dh)
  | NONE =>
      let FD := Fin 0.02 in
      (Fin 2 * Math_sqrt alpha * Math_exp (Fin (-0.75) * Math_sqrt FD * LD),
       FD,
       availableLength inputs)
  end.

Definition mixerCoV0 : num := fst (fst mixer).
Definition FD : num := snd (fst mixer).
Definition Lm : num := snd mixer.

Definition mixerCoV : num :=
  Math_min (Fin 1.0) (Math_max (Fin 0.0001) mixerCoV0).
Definition headlossM : num :=
  (FD * Lm * Math_pow velocity (Fin 2)) / (Fin 2 * g * Dh).
Definition headlossKpa : num := (headlossM * density inputs * g) / Fin 1000.
Definition gValue : num :=
  Math_sqrt
    ((headlossKpa * Fin 1000 * (Q_m3h / Fin 3600))
     / (viscosity inputs * area * Lm || Fin 1e-9)).

Definition decay : num :=
  if ConduitType_eqb (conduitType inputs) PIPE
  then Fin 0.75 * Math_sqrt (Fin 0.02)
  else Fin 0.6.
Definition tCoV : num := targetCoV inputs || Fin 0.05.
Definition mixingDistanceNeeded : num :=
  if mixerCoV <=? tCoV then Lm
  else Lm + (Math_log (mixerCoV / tCoV) / (decay || Fin 0.1)) * Dh.

Definition uInj : num :=
  (totalInjM3s
   / (if InjectionType_eqb (injectionType inputs) TWIN then Fin 2 else Fin 1))
  / (Math_PI * Math_pow (Fin 0.0125) (Fin 2)).
Definition momentumRatio : num :=
  Math_sqrt (injDensity / density inputs)
  * (uInj * Fin 0.025 / (velocity * Dh || Fin 1e-6)).

Definition manufacturerNotes : string := "Standard BHR quill recommendations.".
End Locals.
End Body.

(** The ternary that labels the momentum regime. *)
Definition regime_of (momentumRatio : num) : string :=
  if (momentumRatio <? Fin 0.16)%num then "Low"%string
  else if (momentumRatio >? Fin 0.24)%num then "High"%string
  else "Intermediate"%string.

Definition calculateMixing (inputs : MixingInputs) : CalculationResults :=
  {| velocity := Body.velocity inputs;
     reynoldsNumber := Body.Re inputs;
     momentumRatio := Body.momentumRatio inputs;
     momentumRegime := regime_of (Body.momentumRatio inputs);
     mixerCoV := Body.mixerCoV inputs;
     viscosityRatio := (Body.injVisc inputs / viscosity inputs)%num;
     injectedViscosity := Body.injVisc inputs;
     injectedDensity := Body.injDensity inputs;
     totalInjectionFlow := Body.totalInjLh inputs;
     isCompliant := (Body.mixerCoV inputs <=? Body.tCoV inputs)%num;
     isTimeCompliant :=
       (Body.mixingDistanceNeeded inputs / Body.velocity inputs
        <=? targetMixingTime inputs)%num;
     mixingDistanceNeeded := Body.mixingDistanceNeeded inputs;
     mixingTimeNeeded :=
       (Body.mixingDistanceNeeded inputs / Body.velocity inputs)%num;
     headloss := Body.headlossKpa inputs;
     headlossMeters := Body.headlossM inputs;
     gValue := Body.gValue inputs;
     limeSaturationLimit := Fin 1500;
     dissolvedAtTarget := Fin 100;
     timeTo95Dissolution := Fin 5;
     distanceTo95Dissolution := Fin 5;
     suggestedOrificeDiameter := Fin 15;
     manufacturerNotes := Body.manufacturerNotes;
     hydraulicDiameter := Body.Dh inputs;
     wettedArea := Body.area inputs |}.

(** ** Valid input records *)

Definition nonneg (a : num) : Prop := exists r, a = Fin r /\ 0 <= r.
Definition positive (a : num) : Prop := exists r, a = Fin r /\ 0 < r.

(** A record is valid when every numeric field is a finite, non-negative
    number (flows, lengths, densities, viscosities, targets and the
    element count are physical magnitudes); [depth] may be absent. *)
Definition valid_inputs (i : MixingInputs) : Prop :=
  nonneg (numElements i) /\ nonneg (flowRate i) /\ nonneg (dimension i)
  /\ match depth i with Some v => nonneg v | None => True end
  /\ nonneg (availableLength i) /\ nonneg (viscosity i) /\ nonneg (density i)
  /\ nonneg (chemicalFlow i) /\ nonneg (chemicalDensity i)
  /\ nonneg (chemicalViscosity i) /\ nonneg (dilutionWaterFlow i)
  /\ nonneg (targetCoV i) /\ nonneg (targetMixingTime i).

(** [x] is a finite number within [tol] of [v]. *)
Definition approx_to (x : num) (v tol : R) : Prop :=
  exists r, x = Fin r /\ Rabs (r - v) <= tol.

(** The numeric fields of a result are all finite. *)
Definition all_finite (res : CalculationResults) : bool :=
  forallb is_finite
    [velocity res; reynoldsNumber res; momentumRatio res; mixerCoV res;
     viscosityRatio res; injectedViscosity res; injectedDensity res;
     totalInjectionFlow res; mixingDistanceNeeded res; mixingTimeNeeded res;
     headloss res; headlossMeters res; gValue res; limeSaturationLimit res;
     dissolvedAtTarget res; timeTo95Dissolution res;
     distanceTo95Dissolution res; suggestedOrificeDiameter res;
     hydraulicDiameter res; wettedArea res].

(** ** Input records of the scenarios *)

(** The end-to-end scenario (the initial state of the application); the
    element count is not part of the scenario. *)
Definition scenario (n : num) : MixingInputs :=
  {| conduitType := PIPE; conduitShape := CIRCULAR; mixerModel := NONE;
     numElements := n;
     flowRate := Fin 1500; dimension := Fin 0.8; depth := Some (Fin 0.6);
     availableLength := Fin 10; viscosity := Fin 0.001; density := Fin 1000;
     chemicalFlow := Fin 10; chemicalDensity := Fin 1450;
     chemicalViscosity := Fin 0.015; dilutionWaterFlow := Fin 200;
     targetCoV := Fin 0.05; targetMixingTime := Fin 10;
     injectionType := SINGLE |}.

Definition set_availableLength (i : MixingInputs) (L : num) : MixingInputs :=
  {| conduitType := conduitType i; conduitShape := conduitShape i;
     mixerModel := mixerModel i; numElements := numElements i;
     flowRate := flowRate i; dimension := dimension i; depth := depth i;
     availableLength := L; viscosity := viscosity i; density := density i;
     chemicalFlow := chemicalFlow i; chemicalDensity := chemicalDensity i;
     chemicalViscosity := chemicalViscosity i;
     dilutionWaterFlow := dilutionWaterFlow i; targetCoV := targetCoV i;
     targetMixingTime := targetMixingTime i;
     injectionType := injectionType i |}.

(** The degenerate scenario: the end-to-end record with the flow rate, the
    dimension and the two injection flows set to zero. *)
Definition degenerate (n : num) : MixingInputs :=
  {| conduitType := PIPE; conduitShape := CIRCULAR; mixerModel := NONE;
     numElements := n;
     flowRate := Fin 0; dimension := Fin 0; depth := Some (Fin 0.6);
     availableLength := Fin 10; viscosity := Fin 0.001; density := Fin 1000;
     chemicalFlow := Fin 0; chemicalDensity := Fin 1450;
     chemicalViscosity := Fin 0.015; dilutionWaterFlow := Fin 0;
     targetCoV := Fin 0.05; targetMixingTime := Fin 10;
     injectionType := SINGLE |}.

(** The end-to-end record with a carrier viscosity of zero. *)
Definition zero_viscosity : MixingInputs :=
  {| conduitType := PIPE; conduitShape := CIRCULAR; mixerModel := NONE;
     numElements := Fin 4;
     flowRate := Fin 1500; dimension := Fin 0.8; depth := Some (Fin 0.6);
     availableLength := Fin 10; viscosity := Fin 0; density := Fin 1000;
     chemicalFlow := Fin 10; chemicalDensity := Fin 1450;
     chemicalViscosity := Fin 0.015; dilutionWaterFlow := Fin 200;
     targetCoV := Fin 0.05; targetMixingTime := Fin 10;
     injectionType := SINGLE |}.

(** The end-to-end record with a negative chemical flow and no dilution
    water. *)
Definition negative_flow : MixingInputs :=
  {| conduitType := PIPE; conduitShape := CIRCULAR; mixerModel := NONE;
     numElements := Fin 4;
     flowRate := Fin 1500; dimension := Fin 0.8; depth := Some (Fin 0.6);
     availableLength := Fin 10; viscosity := Fin 0.001; density := Fin 1000;
     chemicalFlow := Fin (-10); chemicalDensity := Fin 1450;
     chemicalViscosity := Fin 0.015; dilutionWaterFlow := Fin 0;
     targetCoV := Fin 0.05; targetMixingTime := Fin 10;
     injectionType := SINGLE |}.

(** A narrow pipe with a dilution ratio of one: a flow rate of 1 m3/h,
    a diameter of 10 mm and an injection of 1000 L/h. *)
Definition narrow_pipe (L : num) : MixingInputs :=
  {| conduitType := PIPE; conduitShape := CIRCULAR; mixerModel := NONE;
     numElements := Fin 4;
     flowRate := Fin 1; dimension := Fin 0.01; depth := Some (Fin 0.6);
     availableLength := L; viscosity := Fin 0.001; density := Fin 1000;
     chemicalFlow := Fin 1000; chemicalDensity := Fin 1450;
     chemicalViscosity := Fin 0.015; dilutionWaterFlow := Fin 0;
     targetCoV := Fin 0.05; targetMixingTime := Fin 10;
     injectionType := SINGLE |}.

(** The end-to-end record with a chemical density of zero and no dilution
    water. *)
Definition zero_chemicalDensity : MixingInputs :=
  {| conduitType := PIPE; conduitShape := CIRCULAR; mixerModel := NONE;
     numElements := Fin 4;
     flowRate := Fin 1500; dimension := Fin 0.8; depth := Some (Fin 0.6);
     availableLength := Fin 10; viscosity := Fin 0.001; density := Fin 1000;
     chemicalFlow := Fin 10; chemicalDensity := Fin 0;
     chemicalViscosity := Fin 0.015; dilutionWaterFlow := Fin 0;
     targetCoV := Fin 0.05; targetMixingTime := Fin 10;
     injectionType := SINGLE |}.

(** ** The formulas of the specification *)

(** A dimension floored to at least 1 mm: an absent or invalid value counts
    as zero before the floor. *)
Definition floor_mm (x : num) : num :=
  match x with
  | NaN | NInf => Fin 0.001
  | PInf => PInf
  | Fin r => Fin (Rmax r 0.001)
  end.

Definition sq (x : num) : num := (x * x)%num.

(** The geometry table of the specification: [(area, hydraulic diameter)]
    from the floored dimension [d] and depth [h]. *)
Definition spec_geometry (t : ConduitType) (s : ConduitShape) (d h : num)
  : num * num :=
  match t, s with
  | PIPE, CIRCULAR => (Fin PI * sq (d / Fin 2), d)%num
  | PIPE, RECTANGULAR => (d * h, Fin 2 * d * h / (d + h))%num
  | CHANNEL, _ => (d * h, Fin 4 * (d * h) / (d + Fin 2 * h))%num
  end.

(** The total injection flow as a denominator: replaced by 1 when zero. *)
Definition one_if_zero (total : num) : num :=
  match total with
  | Fin r => if Req_dec_T r 0 then Fin 1 else total
  | _ => total
  end.

(** Blended density: the mass-flow-weighted average. *)
Definition spec_injectedDensity (i : MixingInputs) : num :=
  ((chemicalFlow i * chemicalDensity i + dilutionWaterFlow i * Fin 1000)
   / one_if_zero (chemicalFlow i + dilutionWaterFlow i))%num.

(** Blended viscosity: the exponential of the flow-weighted average of the
    natural logarithms. *)
Definition spec_injectedViscosity (i : MixingInputs) : num :=
  Math_exp
    ((chemicalFlow i * Math_log (chemicalViscosity i)
      + dilutionWaterFlow i * Math_log (Fin 0.001))
     / one_if_zero (chemicalFlow i + dilutionWaterFlow i))%num.

(** ** services/gemini.ts *)

(** A thrown value, as far as [callWithRetry] looks at it: the optional
    [message] and [status].  A thrown value with neither ([undefined], a
    bare object) is the record with both fields absent. *)
Record JsError : Type := mkError {
  message : option string;
  status : option Z
}.

Definition undefined : JsError := {| message := None; status := None |}.

(** [hay.includes(needle)] *)
Fixpoint includes (needle hay : string) {struct hay} : bool :=
  if String.prefix needle hay then true
  else
    match hay with
    | EmptyString => false
    | String _ rest => includes needle rest
    end.

(** [error?.message?.includes('429') || error?.status === 429] *)
Definition isRateLimit (error : JsError) : bool :=
  match message error with
  | Some m => includes "429" m
  | None => false
  end
  || match status error with
     | Some s => (s =? 429)%Z
     | None => false
     end.

(** How one awaited call of [fn] settles. *)
Inductive outcome (T : Type) : Type :=
| Resolved (v : T)
| Rejected (e : JsError).
Arguments Resolved {T} v.
Arguments Rejected {T} e.

(** What a run does, in order: the calls of [fn], each with how it settled,
    and the timers awaited, in milliseconds. *)
Inductive event (T : Type) : Type :=
| Call (o : outcome T)
| Sleep (ms : Z).
Arguments Call {T} o.
Arguments Sleep {T} ms.

Section Retry.
Context {T W : Type}.

(** [fn] runs against the outside world [W], which it may change. *)
Variable fn : W -> outcome T * W.

(** The [for] loop of [callWithRetry] at index [i], with
    [remaining = maxRetries - i] iterations to go; leaving the loop
    throws [lastError]. *)
Fixpoint retry_loop (maxRetries remaining i : nat) (lastError : JsError)
  (w : W) : outcome T * W * list (event T) :=
  match remaining with
  | O => (Rejected lastError, w, [])
  | S k =>
      let (r, w1) := fn w in
      match r with
      | Resolved v => (Resolved v, w1, [Call r])
      | Rejected error =>
          if (Z.of_nat i <? Z.of_nat maxRetries - 1)%Z && isRateLimit error
          then
            let '(res, w2, log) := retry_loop maxRetries k (S i) error w1 in
            (res, w2, Call r :: Sleep (2 ^ Z.of_nat i * 1000) :: log)
          else (Rejected error, w1, [Call r])
      end
  end.

Definition callWithRetry (maxRetries : nat) (w : W)
  : outcome T * W * list (event T) :=
  retry_loop maxRetries maxRetries 0 undefined w.
End Retry.

Record GenerateContentResponse : Type := mkResponse {
  text : option string
}.

(** [text || dflt]: an absent or empty text is falsy. *)
Definition text_or (t : option string) (dflt : string) : string :=
  match t with
  | Some EmptyString | None => dflt
  | Some s => s
  end.

Section Gemini.
Variables W Request : Type.

(** [ai.models.generateContent], and the two requests the module builds
    (model name, contents and prompt). *)
Variable generateContent :
  Request -> W -> outcome GenerateContentResponse * W.
Variable guide_request : string -> Request.
Variable audit_request : MixingInputs -> CalculationResults -> Request.

Definition extractGuideData (pdfBase64 : string) (w : W)
  : string * W * list (event GenerateContentResponse) :=
  match callWithRetry (generateContent (guide_request pdfBase64)) 3 w with
  | (Resolved response, w1, log) =>
      (text_or (text response) "Guide synced.", w1, log)
  | (Rejected _, w1, log) => ("Extraction failed."%string, w1, log)
  end.

Definition getAIRecommendations (inputs : MixingInputs)
  (results : CalculationResults) (w : W)
  : string * W * list (event GenerateContentResponse) :=
  match callWithRetry (generateContent (audit_request inputs results)) 3 w with
  | (Resolved response, w1, log) =>
      (text_or (text response) "No audit available.", w1, log)
  | (Rejected _, w1, log) => ("Audit generation failed."%string, w1, log)
  end.
End Gemini.

(** The delays of a run, in order, and the number of calls. *)
Fixpoint sleeps {T : Type} (log : list (event T)) : list Z :=
  match log with
  | [] => []
  | Sleep ms :: rest => ms :: sleeps rest
  | Call _ :: rest => sleeps rest
  end.

Fixpoint calls {T : Type} (log : list (event T)) : nat :=
  match log with
  | [] => 0
  | Call _ :: rest => S (calls rest)
  | Sleep _ :: rest => calls rest
  end.


(** Whether a call was rejected with a rate-limit error. *)
Definition rate_limited {T : Type} (o : outcome T) : bool :=
  match o with
  | Resolved _ => false
  | Rejected e => isRateLimit e
  end.


(** A positive finite number or [+Infinity]. *)
Definition pos_or_inf (a : num) : Prop := a = PInf \/ positive a.

(** A finite number in the closed interval [0.0001, 1.0]. *)
Definition in_CoV_range (a : num) : Prop :=
  exists c, a = Fin c /\ 0.0001 <= c <= 1.

(** The degenerate scenario with the same four fields absent instead of
    zero. *)
Definition degenerate_absent (n : num) : MixingInputs :=
  {| conduitType := PIPE; conduitShape := CIRCULAR; mixerModel := NONE;
     numElements := n;
     flowRate := NaN; dimension := NaN; depth := Some (Fin 0.6);
     availableLength := Fin 10; viscosity := Fin 0.001; density := Fin 1000;
     chemicalFlow := NaN; chemicalDensity := Fin 1450;
     chemicalViscosity := Fin 0.015; dilutionWaterFlow := NaN;
     targetCoV := Fin 0.05; targetMixingTime := Fin 10;
     injectionType := SINGLE |}.

(** ** Fixed-point bounds for the exponential *)

(** Numbers with fifteen decimals: [m] stands for [m / fx_scale]. *)
Definition fx_scale : Z := (10 ^ 15)%Z.

(** The square, rounded down. *)
Definition fx_sq (m : Z) : Z := (m * m / fx_scale)%Z.

(** A lower bound of [exp (p / q)], from [(1 + x / 2^k) ^ (2^k) <= exp x]:
    the base rounded down, then squared [k] times, rounding down. *)
Definition exp_lb (p q : Z) (k : nat) : Z :=
  Nat.iter k fx_sq (fx_scale + fx_scale * p / (q * 2 ^ Z.of_nat k))%Z.


(** ** The application state (App.tsx) *)

(** One call [handleInputChange(field, value)]: the field written and the
    value given to it.  [U_other] stands for the fields of the input record
    that the engine does not read (chemicalType, chemicalDose, pitchRatio,
    waterTemperature). *)
Inductive field_update : Type :=
| U_conduitType (value : ConduitType)
| U_conduitShape (value : ConduitShape)
| U_mixerModel (value : MixerModel)
| U_numElements (value : num)
| U_flowRate (value : num)
| U_dimension (value : num)
| U_depth (value : option num)
| U_availableLength (value : num)
| U_viscosity (value : num)
| U_density (value : num)
| U_chemicalFlow (value : num)
| U_chemicalDensity (value : num)
| U_chemicalViscosity (value : num)
| U_dilutionWaterFlow (value : num)
| U_targetCoV (value : num)
| U_targetMixingTime (value : num)
| U_injectionType (value : InjectionType)
| U_other.

(** The spread [{ ...prev, [field]: value }]. *)
Definition assign (u : field_update) (prev : MixingInputs) : MixingInputs :=
  match u with
  | U_conduitType value =>
      {| conduitType := value; conduitShape := conduitShape prev;
         mixerModel := mixerModel prev; numElements := numElements prev;
         flowRate := flowRate prev; dimension := dimension prev;
         depth := depth prev; availableLength := availableLength prev;
         viscosity := viscosity prev; density := density prev;
         chemicalFlow := chemicalFlow prev;
         chemicalDensity := chemicalDensity prev;
         chemicalViscosity := chemicalViscosity prev;
         dilutionWaterFlow := dilutionWaterFlow prev;
         targetCoV := targetCoV prev;
         targetMixingTime := targetMixingTime prev;
         injectionType := injectionType prev |}
  | U_conduitShape value =>
      {| conduitType := conduitType prev; conduitShape := value;
         mixerModel := mixerModel prev; numElements := numElements prev;
         flowRate := flowRate prev; dimension := dimension prev;
         depth := depth prev; availableLength := availableLength prev;
         viscosity := viscosity prev; density := density prev;
         chemicalFlow := chemicalFlow prev;
         chemicalDensity := chemicalDensity prev;
         chemicalViscosity := chemicalViscosity prev;
         dilutionWaterFlow := dilutionWaterFlow prev;
         targetCoV := targetCoV prev;
         targetMixingTime := targetMixingTime prev;
         injectionType := injectionType prev |}
  | U_mixerModel value =>
      {| conduitType := conduitType prev; conduitShape := conduitShape prev;
         mixerModel := value; numElements := numElements prev;
         flowRate := flowRate prev; dimension := dimension prev;
         depth := depth prev; availableLength := availableLength prev;
         viscosity := viscosity prev; density := density prev;
         chemicalFlow := chemicalFlow prev;
         chemicalDensity := chemicalDensity prev;
         chemicalViscosity := chemicalViscosity prev;
         dilutionWaterFlow := dilutionWaterFlow prev;
         targetCoV := targetCoV prev;
         targetMixingTime := targetMixingTime prev;
         injectionType := injectionType prev |}
  | U_numElements value =>
      {| conduitType := conduitType prev; conduitShape := conduitShape prev;
         mixerModel := mixerModel prev; numElements := value;
         flowRate := flowRate prev; dimension := dimension prev;
         depth := depth prev; availableLength := availableLength prev;
         viscosity := viscosity prev; density := density prev;
         chemicalFlow := chemicalFlow prev;
         chemicalDensity := chemicalDensity prev;
         chemicalViscosity := chemicalViscosity prev;
         dilutionWaterFlow := dilutionWaterFlow prev;
         targetCoV := targetCoV prev;
         targetMixingTime := targetMixingTime prev;
         injectionType := injectionType prev |}
  | U_flowRate value =>
      {| conduitType := conduitType prev; conduitShape := conduitShape prev;
         mixerModel := mixerModel prev; numElements := numElements prev;
         flowRate := value; dimension := dimension prev; depth := depth prev;
         availableLength := availableLength prev;
         viscosity := viscosity prev; density := density prev;
         chemicalFlow := chemicalFlow prev;
         chemicalDensity := chemicalDensity prev;
         chemicalViscosity := chemicalViscosity prev;
         dilutionWaterFlow := dilutionWaterFlow prev;
         targetCoV := targetCoV prev;
         targetMixingTime := targetMixingTime prev;
         injectionType := injectionType prev |}
  | U_dimension value =>
      {| conduitType := conduitType prev; conduitShape := conduitShape prev;
         mixerModel := mixerModel prev; numElements := numElements prev;
         flowRate := flowRate prev; dimension := value; depth := depth prev;
         availableLength := availableLength prev;
         viscosity := viscosity prev; density := density prev;
         chemicalFlow := chemicalFlow prev;
         chemicalDensity := chemicalDensity prev;
         chemicalViscosity := chemicalViscosity prev;
         dilutionWaterFlow := dilutionWaterFlow prev;
         targetCoV := targetCoV prev;
         targetMixingTime := targetMixingTime prev;
         injectionType := injectionType prev |}
  | U_depth value =>
      {| conduitType := conduitType prev; conduitShape := conduitShape prev;
         mixerModel := mixerModel prev; numElements := numElements prev;
         flowRate := flowRate prev; dimension := dimension prev;
         depth := value; availableLength := availableLength prev;
         viscosity := viscosity prev; density := density prev;
         chemicalFlow := chemicalFlow prev;
         chemicalDensity := chemicalDensity prev;
         chemicalViscosity := chemicalViscosity prev;
         dilutionWaterFlow := dilutionWaterFlow prev;
         targetCoV := targetCoV prev;
         targetMixingTime := targetMixingTime prev;
         injectionType := injectionType prev |}
  | U_availableLength value =>
      {| conduitType := conduitType prev; conduitShape := conduitShape prev;
         mixerModel := mixerModel prev; numElements := numElements prev;
         flowRate := flowRate prev; dimension := dimension prev;
         depth := depth prev; availableLength := value;
         viscosity := viscosity prev; density := density prev;
         chemicalFlow := chemicalFlow prev;
         chemicalDensity := chemicalDensity prev;
         chemicalViscosity := chemicalViscosity prev;
         dilutionWaterFlow := dilutionWaterFlow prev;
         targetCoV := targetCoV prev;
         targetMixingTime := targetMixingTime prev;
         injectionType := injectionType prev |}
  | U_viscosity value =>
      {| conduitType := conduitType prev; conduitShape := conduitShape prev;
         mixerModel := mixerModel prev; numElements := numElements prev;
         flowRate := flowRate prev; dimension := dimension prev;
         depth := depth prev; availableLength := availableLength prev;
         viscosity := value; density := density prev;
         chemicalFlow := chemicalFlow prev;
         chemicalDensity := chemicalDensity prev;
         chemicalViscosity := chemicalViscosity prev;
         dilutionWaterFlow := dilutionWaterFlow prev;
         targetCoV := targetCoV prev;
         targetMixingTime := targetMixingTime prev;
         injectionType := injectionType prev |}
  | U_density value =>
      {| conduitType := conduitType prev; conduitShape := conduitShape prev;
         mixerModel := mixerModel prev; numElements := numElements prev;
         flowRate := flowRate prev; dimension := dimension prev;
         depth := depth prev; availableLength := availableLength prev;
         viscosity := viscosity prev; density := value;
         chemicalFlow := chemicalFlow prev;
         chemicalDensity := chemicalDensity prev;
         chemicalViscosity := chemicalViscosity prev;
         dilutionWaterFlow := dilutionWaterFlow prev;
         targetCoV := targetCoV prev;
         targetMixingTime := targetMixingTime prev;
         injectionType := injectionType prev |}
  | U_chemicalFlow value =>
      {| conduitType := conduitType prev; conduitShape := conduitShape prev;
         mixerModel := mixerModel prev; numElements := numElements prev;
         flowRate := flowRate prev; dimension := dimension prev;
         depth := depth prev; availableLength := availableLength prev;
         viscosity := viscosity prev; density := density prev;
         chemicalFlow := value; chemicalDensity := chemicalDensity prev;
         chemicalViscosity := chemicalViscosity prev;
         dilutionWaterFlow := dilutionWaterFlow prev;
         targetCoV := targetCoV prev;
         targetMixingTime := targetMixingTime prev;
         injectionType := injectionType prev |}
  | U_chemicalDensity value =>
      {| conduitType := conduitType prev; conduitShape := conduitShape prev;
         mixerModel := mixerModel prev; numElements := numElements prev;
         flowRate := flowRate prev; dimension := dimension prev;
         depth := depth prev; availableLength := availableLength prev;
         viscosity := viscosity prev; density := density prev;
         chemicalFlow := chemicalFlow prev; chemicalDensity := value;
         chemicalViscosity := chemicalViscosity prev;
         dilutionWaterFlow := dilutionWaterFlow prev;
         targetCoV := targetCoV prev;
         targetMixingTime := targetMixingTime prev;
         injectionType := injectionType prev |}
  | U_chemicalViscosity value =>
      {| conduitType := conduitType prev; conduitShape := conduitShape prev;
         mixerModel := mixerModel prev; numElements := numElements prev;
         flowRate := flowRate prev; dimension := dimension prev;
         depth := depth prev; availableLength := availableLength prev;
         viscosity := viscosity prev; density := density prev;
         chemicalFlow := chemicalFlow prev;
         chemicalDensity := chemicalDensity prev; chemicalViscosity := value;
         dilutionWaterFlow := dilutionWaterFlow prev;
         targetCoV := targetCoV prev;
         targetMixingTime := targetMixingTime prev;
         injectionType := injectionType prev |}
  | U_dilutionWaterFlow value =>
      {| conduitType := conduitType prev; conduitShape := conduitShape prev;
         mixerModel := mixerModel prev; numElements := numElements prev;
         flowRate := flowRate prev; dimension := dimension prev;
         depth := depth prev; availableLength := availableLength prev;
         viscosity := viscosity prev; density := density prev;
         chemicalFlow := chemicalFlow prev;
         chemicalDensity := chemicalDensity prev;
         chemicalViscosity := chemicalViscosity prev;
         dilutionWaterFlow := value; targetCoV := targetCoV prev;
         targetMixingTime := targetMixingTime prev;
         injectionType := injectionType prev |}
  | U_targetCoV value =>
      {| conduitType := conduitType prev; conduitShape := conduitShape prev;
         mixerModel := mixerModel prev; numElements := numElements prev;
         flowRate := flowRate prev; dimension := dimension prev;
         depth := depth prev; availableLength := availableLength prev;
         viscosity := viscosity prev; density := density prev;
         chemicalFlow := chemicalFlow prev;
         chemicalDensity := chemicalDensity prev;
         chemicalViscosity := chemicalViscosity prev;
         dilutionWaterFlow := dilutionWaterFlow prev; targetCoV := value;
         targetMixingTime := targetMixingTime prev;
         injectionType := injectionType prev |}
  | U_targetMixingTime value =>
      {| conduitType := conduitType prev; conduitShape := conduitShape prev;
         mixerModel := mixerModel prev; numElements := numElements prev;
         flowRate := flowRate prev; dimension := dimension prev;
         depth := depth prev; availableLength := availableLength prev;
         viscosity := viscosity prev; density := density prev;
         chemicalFlow := chemicalFlow prev;
         chemicalDensity := chemicalDensity prev;
         chemicalViscosity := chemicalViscosity prev;
         dilutionWaterFlow := dilutionWaterFlow prev;
         targetCoV := targetCoV prev; targetMixingTime := value;
         injectionType := injectionType prev |}
  | U_injectionType value =>
      {| conduitType := conduitType prev; conduitShape := conduitShape prev;
         mixerModel := mixerModel prev; numElements := numElements prev;
         flowRate := flowRate prev; dimension := dimension prev;
         depth := depth prev; availableLength := availableLength prev;
         viscosity := viscosity prev; density := density prev;
         chemicalFlow := chemicalFlow prev;
         chemicalDensity := chemicalDensity prev;
         chemicalViscosity := chemicalViscosity prev;
         dilutionWaterFlow := dilutionWaterFlow prev;
         targetCoV := targetCoV prev;
         targetMixingTime := targetMixingTime prev; injectionType := value |}
  | U_other => prev
  end.

(** [handleInputChange]: the updater given to [setInputs].  Writing the
    conduit type also resets the mixer model and the conduit shape. *)
Definition handleInputChange (u : field_update) (prev : MixingInputs)
  : MixingInputs :=
  let next := assign u prev in
  match u with
  | U_conduitType value =>
      assign
        (U_conduitShape
           (if ConduitType_eqb value PIPE then CIRCULAR else RECTANGULAR))
        (assign (U_mixerModel NONE) next)
  | _ => next
  end.

(** The initial state of the application. *)
Definition initial_inputs : MixingInputs := scenario (Fin 4).

(** The calls of [handleInputChange] that the rendered controls make: the
    two conduit buttons, the mixer select, and the four [InputGroup]s
    (flow rate, dimension, depth, elements), which pass on a parsed number
    only when it is not NaN. *)
Definition from_controls (u : field_update) : bool :=
  match u with
  | U_conduitType _ | U_mixerModel _ => true
  | U_flowRate v | U_dimension v | U_numElements v => negb (is_nan v)
  | U_depth (Some v) => negb (is_nan v)
  | _ => false
  end.

(** The state after a sequence of calls, the first of the list first. *)
Definition run_updates (us : list field_update) (s : MixingInputs)
  : MixingInputs :=
  fold_left (fun st u => handleInputChange u st) us s.

(** The fields no control writes keep their initial value, the shape
    follows the conduit type, and the four typed fields are numbers. *)
Definition controls_invariant (s : MixingInputs) : Prop :=
  conduitShape s
  = (if ConduitType_eqb (conduitType s) PIPE then CIRCULAR else RECTANGULAR)
  /\ is_nan (flowRate s) = false /\ is_nan (dimension s) = false
  /\ is_nan (numElements s) = false
  /\ (exists v, depth s = Some v /\ is_nan v = false)
  /\ availableLength s = Fin 10 /\ viscosity s = Fin 0.001
  /\ density s = Fin 1000 /\ chemicalFlow s = Fin 10
  /\ chemicalDensity s = Fin 1450 /\ chemicalViscosity s = Fin 0.015
  /\ dilutionWaterFlow s = Fin 200 /\ targetCoV s = Fin 0.05
  /\ targetMixingTime s = Fin 10 /\ injectionType s = SINGLE.

(** One point of the chart. *)
Record ChartPoint : Type := mkPoint {
  distance : string;
  cov : num
}.

Section Chart.
(** [x.toFixed(1)], the label of a point. *)
Variable toFixed1 : num -> string.

(** The body of the [chartData] memo, at index [i]. *)
Definition chartPoint (results : CalculationResults) (i : nat) : ChartPoint :=
  let dist :=
    ((Fin (INR i) / Fin 20) * (mixingDistanceNeeded results * Fin 1.5))%num in
  let Dh := (hydraulicDiameter results || Fin 1)%num in
  let cov := (Fin 1.0 * Math_exp (Fin (-0.1) * (dist / Dh)))%num in
  {| distance := toFixed1 dist; cov := Math_max (mixerCoV results) cov |}.

(** [Array.from({ length: 21 }, (_, i) => ...)] *)
Definition chartData (results : CalculationResults) : list ChartPoint :=
  map (chartPoint results) (seq 0 21).
End Chart.

(** ** Runs of the retry loop *)

(** The world after [k] calls of [fn], and how the call of index [k]
    settles. *)
Fixpoint world_after {T W : Type} (fn : W -> outcome T * W) (w : W) (k : nat)
  : W :=
  match k with
  | O => w
  | S k' => world_after fn (snd (fn w)) k'
  end.

Definition nth_outcome {T W : Type} (fn : W -> outcome T * W) (w : W)
  (k : nat) : outcome T :=
  fst (fn (world_after fn w k)).

(** The outcomes of the calls of a run, in order. *)
Fixpoint call_outcomes {T : Type} (log : list (event T)) : list (outcome T) :=
  match log with
  | [] => []
  | Call o :: rest => o :: call_outcomes rest
  | Sleep _ :: rest => call_outcomes rest
  end.

(** The delay awaited after the failed attempt of index [k], in
    milliseconds. *)
Definition backoff (k : nat) : Z := (2 ^ Z.of_nat k * 1000)%Z.

(** The perimeter the hydraulic diameter refers to: the circle, the four
    sides of a duct, the bottom and two sides of an open channel. *)
Definition wetted_perimeter (t : ConduitType) (s : ConduitShape) (d h : R)
  : R :=
  match t, s with
  | PIPE, CIRCULAR => PI * d
  | PIPE, RECTANGULAR => 2 * (d + h)
  | CHANNEL, _ => d + 2 * h
  end.

(** ** MarkdownDisplay (App.tsx) *)

(** A JavaScript string: its UTF-16 code units. *)
Definition jsstring : Type := list N.

(** White space and line terminators: what [trim] strips and the regular
    expression class [\s] matches. *)
Definition is_space (c : N) : bool :=
  existsb (N.eqb c)
    [9; 10; 11; 12; 13; 32; 160; 5760; 8232; 8233; 8239; 8287; 12288; 65279]%N
  || ((8192 <=? c) && (c <=? 8202))%N.

Definition newline : N := 10%N.
Definition hash : N := 35%N.
Definition star : N := 42%N.
Definition dash : N := 45%N.

(** [s.split(sep)] for a separator of one code unit. *)
Fixpoint split (sep : N) (s : jsstring) : list jsstring :=
  match s with
  | [] => [[]]
  | c :: rest =>
      if (c =? sep)%N then [] :: split sep rest
      else
        match split sep rest with
        | line :: lines => (c :: line) :: lines
        | [] => [[c]]
        end
  end.

Fixpoint drop_while (p : N -> bool) (s : jsstring) : jsstring :=
  match s with
  | [] => []
  | c :: rest => if p c then drop_while p rest else s
  end.

(** [s.trim()] *)
Definition trim (s : jsstring) : jsstring :=
  rev (drop_while is_space (rev (drop_while is_space s))).

(** [s.startsWith(c)] for one code unit. *)
Definition startsWith (c : N) (s : jsstring) : bool :=
  match s with
  | x :: _ => (x =? c)%N
  | [] => false
  end.

(** [s.replace(/^#+\s*/, '')] *)
Definition strip_heading (s : jsstring) : jsstring :=
  if startsWith hash s
  then drop_while is_space (drop_while (N.eqb hash) s)
  else s.

(** [s.replace(/^[-*]\s*/, '')] *)
Definition strip_bullet (s : jsstring) : jsstring :=
  match s with
  | c :: rest =>
      if (c =? dash)%N || (c =? star)%N then drop_while is_space rest else s
  | [] => s
  end.

(** The element a line is rendered as, with the text it shows: the empty
    spacer, the heading, the bullet with its chevron, or the paragraph. *)
Inductive block : Type :=
| Spacer
| Heading (shown : jsstring)
| Bullet (shown : jsstring)
| Paragraph (shown : jsstring).

(** The callback of the [map] over the lines. *)
Definition render_line (line : jsstring) : block :=
  let trimmed := trim line in
  match trimmed with
  | [] => Spacer
  | _ =>
      if startsWith hash trimmed then Heading (strip_heading trimmed)
      else if startsWith dash trimmed || startsWith star trimmed
      then Bullet (strip_bullet trimmed)
      else Paragraph trimmed
  end.

(** The children of the component, in order. *)
Definition MarkdownDisplay (content : jsstring) : list block :=
  map render_line (split newline content).

(** The text a block shows. *)
Definition shown_text (b : block) : jsstring :=
  match b with
  | Spacer => []
  | Heading s | Bullet s | Paragraph s => s
  end.

(** A string with no white space at either end. *)
Definition trimmed_string (s : jsstring) : Prop :=
  match s with
  | [] => True
  | c :: _ => is_space c = false /\ is_space (last s c) = false
  end.

(** ** Records of moderate magnitude *)

(** The engine computes in binary64; this development computes finite
    values in real arithmetic.  A number is moderate when it is zero or a
    finite number between 1e-9 and 1e9: on a record of moderate numbers
    the products and quotients of the engine stay far inside the range of
    binary64 (only the exponential of natural mixing may reach zero, and
    a power of a zero Reynolds number or element count is infinite, as in
    the model). *)
Definition moderate (a : num) : Prop :=
  exists x, a = Fin x /\ (x = 0 \/ 1e-9 <= x <= 1e9).

(** The fields the hydraulics and the mixing correlations read. *)
Definition moderate_hydraulics (i : MixingInputs) : Prop :=
  moderate (numElements i) /\ moderate (flowRate i) /\ moderate (dimension i)
  /\ match depth i with Some v => moderate v | None => True end
  /\ moderate (availableLength i) /\ moderate (viscosity i)
  /\ moderate (density i)
  /\ moderate (chemicalFlow i) /\ moderate (dilutionWaterFlow i).

(** Every numeric field. *)
Definition moderate_inputs (i : MixingInputs) : Prop :=
  moderate_hydraulics i
  /\ moderate (chemicalDensity i) /\ moderate (chemicalViscosity i)
  /\ moderate (targetCoV i) /\ moderate (targetMixingTime i).

(** The record with the fields that the hydraulics do not read set to
    zero. *)
Definition hydraulic_part (i : MixingInputs) : MixingInputs :=
  {| conduitType := conduitType i; conduitShape := conduitShape i;
     mixerModel := mixerModel i; numElements := numElements i;
     flowRate := flowRate i; dimension := dimension i; depth := depth i;
     availableLength := availableLength i; viscosity := viscosity i;
     density := density i;
     chemicalFlow := chemicalFlow i; chemicalDensity := Fin 0;
     chemicalViscosity := Fin 0;
     dilutionWaterFlow := dilutionWaterFlow i; targetCoV := Fin 0;
     targetMixingTime := Fin 0;
     injectionType := injectionType i |}.

(** [x] is [y] to within one part in 1e12. *)
Definition close_to (x y : R) : Prop := Rabs (x - y) <= 1e-12 * Rabs y.

(** The initial state with the carrier density absent, and with a carrier
    density of zero. *)
Definition absent_density : MixingInputs := assign (U_density NaN) initial_inputs.
Definition zero_density : MixingInputs := assign (U_density (Fin 0)) initial_inputs.


(** * Properties *)

(** ** Evaluating the number operations *)

Lemma Rsign_pos (r : R) : 0 < r -> Rsign r = Gt.
Proof.
  intros H. unfold Rsign.
  destruct (total_order_T r 0) as [[Hlt | Heq] | Hgt]; trivial; lra.
Qed.

Lemma Rsign_neg (r : R) : r < 0 -> Rsign r = Lt.
Proof.
  intros H. unfold Rsign.
  destruct (total_order_T r 0) as [[Hlt | Heq] | Hgt]; trivial; lra.
Qed.

Lemma Rsign_zero : Rsign 0 = Eq.
Proof.
  unfold Rsign.
  destruct (total_order_T 0 0) as [[Hlt | Heq] | Hgt]; trivial; lra.
Qed.

Lemma Rsign_Eq_inv (r : R) : Rsign r = Eq -> r = 0.
Proof.
  unfold Rsign.
  destruct (total_order_T r 0) as [[Hlt | Heq] | Hgt]; trivial; discriminate.
Qed.

Lemma truthy_Fin (r : R) : r <> 0 -> truthy (Fin r) = true.
Proof.
  intros H. simpl. destruct (Req_dec_T r 0); [contradiction | reflexivity].
Qed.

Lemma truthy_zero : truthy (Fin 0) = false.
Proof.
  simpl. destruct (Req_dec_T 0 0); [reflexivity | contradiction].
Qed.

Lemma or_else_Fin (r : R) (b : num) : r <> 0 -> (Fin r || b)%num = Fin r.
Proof.
  intros H. unfold or_else. now rewrite truthy_Fin.
Qed.

Lemma or_else_zero (b : num) : (Fin 0 || b)%num = b.
Proof.
  unfold or_else. now rewrite truthy_zero.
Qed.

Lemma or_else_NaN (b : num) : (NaN || b)%num = b.
Proof. reflexivity. Qed.

(** [a || b] is never zero and never NaN when [b] is neither. *)
Lemma or_else_truthy (a b : num) : truthy b = true -> truthy (a || b)%num = true.
Proof.
  intros Hb. unfold or_else. destruct (truthy a) eqn:Ha; assumption.
Qed.

Lemma num_div_Fin (x y : R) : y <> 0 -> (Fin x / Fin y)%num = Fin (x / y).
Proof.
  intros H. simpl. destruct (Req_dec_T y 0); [contradiction | reflexivity].
Qed.

Lemma num_div_zero_pos (x : R) : 0 < x -> (Fin x / Fin 0)%num = PInf.
Proof.
  intros H. simpl. destruct (Req_dec_T 0 0); [| contradiction].
  now rewrite Rsign_pos.
Qed.

Lemma Math_sqrt_Fin (x : R) : 0 <= x -> Math_sqrt (Fin x) = Fin (sqrt x).
Proof.
  intros H. simpl. destruct (Rlt_dec x 0); [lra | reflexivity].
Qed.

Lemma Math_sqrt_neg (x : R) : x < 0 -> Math_sqrt (Fin x) = NaN.
Proof.
  intros H. simpl. destruct (Rlt_dec x 0); [reflexivity | lra].
Qed.

Lemma Math_log_Fin (x : R) : 0 < x -> Math_log (Fin x) = Fin (ln x).
Proof.
  intros H. simpl. now rewrite Rsign_pos.
Qed.

Lemma Math_pow_Fin (x y : R) :
  0 < x -> y <> 0 -> Math_pow (Fin x) (Fin y) = Fin (Rpower x y).
Proof.
  intros Hx Hy. simpl. rewrite (Rsign_pos x Hx).
  destruct (Rsign y) eqn:E; trivial.
  apply Rsign_Eq_inv in E. contradiction.
Qed.

Lemma Math_pow_zero_neg (y : R) : y < 0 -> Math_pow (Fin 0) (Fin y) = PInf.
Proof.
  intros Hy. simpl. now rewrite (Rsign_neg y Hy), Rsign_zero.
Qed.

Lemma Rpower_2 (x : R) : 0 < x -> Rpower x 2 = x * x.
Proof.
  intros Hx. replace 2 with (1 + 1) by ring.
  now rewrite Rpower_plus, Rpower_1.
Qed.

Lemma num_leb_Fin (x y : R) : (Fin x <=? Fin y)%num = true <-> x <= y.
Proof.
  simpl. destruct (Rle_dec x y); split; trivial; try discriminate; contradiction.
Qed.

Lemma num_leb_Fin_false (x y : R) : (Fin x <=? Fin y)%num = false <-> y < x.
Proof.
  simpl. destruct (Rle_dec x y); split; trivial; try discriminate; lra.
Qed.

Lemma num_ltb_Fin (x y : R) : (Fin x <? Fin y)%num = true <-> x < y.
Proof.
  simpl. destruct (Rlt_dec x y); split; trivial; try discriminate; contradiction.
Qed.

Lemma num_ltb_Fin_false (x y : R) : (Fin x <? Fin y)%num = false <-> y <= x.
Proof.
  simpl. destruct (Rlt_dec x y); split; trivial; try discriminate; lra.
Qed.

(** ** Signs of finite numbers *)

Lemma positive_nonneg (a : num) : positive a -> nonneg a.
Proof. intros (r & -> & H). exists r. split; [reflexivity | lra]. Qed.

Lemma positive_Fin (r : R) : 0 < r -> positive (Fin r).
Proof. intros H. now exists r. Qed.

Lemma nonneg_Fin (r : R) : 0 <= r -> nonneg (Fin r).
Proof. intros H. now exists r. Qed.

Lemma positive_mul (a b : num) : positive a -> positive b -> positive (a * b)%num.
Proof.
  intros (x & -> & Hx) (y & -> & Hy). exists (x * y). split; [reflexivity | nra].
Qed.

Lemma nonneg_mul (a b : num) : nonneg a -> nonneg b -> nonneg (a * b)%num.
Proof.
  intros (x & -> & Hx) (y & -> & Hy). exists (x * y). split; [reflexivity | nra].
Qed.

Lemma positive_add (a b : num) : positive a -> nonneg b -> positive (a + b)%num.
Proof.
  intros (x & -> & Hx) (y & -> & Hy). exists (x + y). split; [reflexivity | lra].
Qed.

Lemma nonneg_add (a b : num) : nonneg a -> nonneg b -> nonneg (a + b)%num.
Proof.
  intros (x & -> & Hx) (y & -> & Hy). exists (x + y). split; [reflexivity | lra].
Qed.

Lemma positive_div (a b : num) : positive a -> positive b -> positive (a / b)%num.
Proof.
  intros (x & -> & Hx) (y & -> & Hy). exists (x / y).
  split; [apply num_div_Fin; lra | now apply Rdiv_lt_0_compat].
Qed.

Lemma nonneg_div (a b : num) : nonneg a -> positive b -> nonneg (a / b)%num.
Proof.
  intros (x & -> & Hx) (y & -> & Hy). exists (x / y).
  split; [apply num_div_Fin; lra |].
  apply Rmult_le_pos; [lra |]. left. now apply Rinv_0_lt_compat.
Qed.

(** [a || b] with a non-negative [a] and a positive default is positive. *)
Lemma positive_or_else (a b : num) : nonneg a -> positive b -> positive (a || b)%num.
Proof.
  intros (x & -> & Hx) Hb. destruct (Req_dec_T x 0) as [-> | Hnz].
  - now rewrite or_else_zero.
  - rewrite or_else_Fin by assumption. exists x. split; [reflexivity | lra].
Qed.

Lemma nonneg_or_else (a b : num) : nonneg a -> nonneg b -> nonneg (a || b)%num.
Proof.
  intros (x & -> & Hx) Hb. destruct (Req_dec_T x 0) as [-> | Hnz].
  - now rewrite or_else_zero.
  - rewrite or_else_Fin by assumption. exists x. split; [reflexivity | lra].
Qed.

Lemma positive_max_r (a b : num) : nonneg a -> positive b -> positive (Math_max a b).
Proof.
  intros (x & -> & Hx) (y & -> & Hy). exists (Rmax x y).
  split; [reflexivity |]. pose proof (Rmax_r x y). lra.
Qed.

Lemma positive_max_l (a b : num) : positive a -> positive b -> positive (Math_max a b).
Proof.
  intros Ha. apply positive_max_r. now apply positive_nonneg.
Qed.

Lemma nonneg_sqrt (a : num) : nonneg a -> nonneg (Math_sqrt a).
Proof.
  intros (x & -> & Hx). exists (sqrt x).
  split; [now apply Math_sqrt_Fin | apply sqrt_pos].
Qed.

Lemma positive_sqrt (a : num) : positive a -> positive (Math_sqrt a).
Proof.
  intros (x & -> & Hx). exists (sqrt x).
  split; [apply Math_sqrt_Fin; lra | now apply sqrt_lt_R0].
Qed.

Lemma positive_exp (a : num) : is_finite a = true -> positive (Math_exp a).
Proof.
  destruct a; try discriminate. intros _. exists (exp r).
  split; [reflexivity | apply exp_pos].
Qed.

Lemma positive_pow (a : num) (y : R) :
  positive a -> y <> 0 -> positive (Math_pow a (Fin y)).
Proof.
  intros (x & -> & Hx) Hy. exists (Rpower x y).
  split; [now apply Math_pow_Fin | apply exp_pos].
Qed.

Lemma positive_finite (a : num) : positive a -> is_finite a = true.
Proof. now intros (x & -> & _). Qed.

Lemma nonneg_finite (a : num) : nonneg a -> is_finite a = true.
Proof. now intros (x & -> & _). Qed.

(** ** Geometry *)

Lemma floor_mm_guard (x : num) :
  Math_max (x || Fin 0.001)%num (Fin 0.001) = floor_mm x.
Proof.
  assert (Hmm : Rmax 0.001 0.001 = 0.001) by (apply Rmax_left; lra).
  destruct x as [| | | r]; try reflexivity.
  - simpl. now rewrite Hmm.
  - destruct (Req_dec_T r 0) as [-> | Hnz].
    + rewrite or_else_zero. simpl. f_equal.
      rewrite Hmm. rewrite Rmax_right by lra. reflexivity.
    + now rewrite or_else_Fin.
Qed.

Lemma d_floor (i : MixingInputs) : Body.d i = floor_mm (dimension i).
Proof. apply floor_mm_guard. Qed.

Lemma h_floor (i : MixingInputs) : Body.h i = floor_mm (Body.depth0 i).
Proof. apply floor_mm_guard. Qed.

Lemma floor_mm_pos_or_inf (x : num) : pos_or_inf (floor_mm x).
Proof.
  destruct x as [| | | r]; simpl.
  - right. apply positive_Fin. lra.
  - now left.
  - right. apply positive_Fin. lra.
  - right. apply positive_Fin. pose proof (Rmax_r r 0.001). lra.
Qed.

Lemma floor_mm_nonneg (x : num) : nonneg x -> positive (floor_mm x).
Proof.
  intros (r & -> & Hr). apply positive_Fin. pose proof (Rmax_r r 0.001). lra.
Qed.

Lemma Math_pow_2_sq (a : num) : pos_or_inf a -> Math_pow a (Fin 2) = sq a.
Proof.
  intros [-> | (x & -> & Hx)].
  - simpl. now rewrite Rsign_pos by lra.
  - rewrite Math_pow_Fin by lra. unfold sq. simpl. now rewrite Rpower_2.
Qed.

Lemma pos_or_inf_half (a : num) : pos_or_inf a -> pos_or_inf (a / Fin 2)%num.
Proof.
  intros [-> | Ha].
  - left. simpl. destruct (Rlt_dec 2 0); [lra | reflexivity].
  - right. apply positive_div; [assumption | apply positive_Fin; lra].
Qed.

Lemma ConduitType_eqb_eq (a b : ConduitType) :
  ConduitType_eqb a b = true <-> a = b.
Proof. destruct a, b; simpl; split; congruence. Qed.

Lemma ConduitShape_eqb_eq (a b : ConduitShape) :
  ConduitShape_eqb a b = true <-> a = b.
Proof. destruct a, b; simpl; split; congruence. Qed.

Lemma geometry_spec (i : MixingInputs) :
  (Body.area i, Body.Dh i)
  = spec_geometry (conduitType i) (conduitShape i)
      (floor_mm (dimension i)) (floor_mm (Body.depth0 i)).
Proof.
  rewrite <- d_floor, <- h_floor.
  unfold Body.area, Body.Dh, Body.geometry, spec_geometry.
  destruct (conduitType i), (conduitShape i); cbn [ConduitType_eqb
    ConduitShape_eqb fst snd]; try reflexivity.
  rewrite Math_pow_2_sq; [reflexivity |].
  apply pos_or_inf_half. rewrite d_floor. apply floor_mm_pos_or_inf.
Qed.

(** C8. For every input record, the wetted area and the hydraulic diameter
    are those of the geometry table, computed from the dimension and the
    depth (0.6 when absent) each floored to 0.001 m: for PIPE and CIRCULAR,
    pi (d/2)^2 and d; for PIPE and a non-circular shape, d h and
    2 d h / (d + h); for CHANNEL, d h and 4 d h / (d + 2 h). *)
Theorem geometry_table (i : MixingInputs) :
  (wettedArea (calculateMixing i), hydraulicDiameter (calculateMixing i))
  = spec_geometry (conduitType i) (conduitShape i)
      (floor_mm (dimension i))
      (floor_mm (match depth i with Some v => v | None => Fin 0.6 end)).
Proof. apply geometry_spec. Qed.

(** The table in real arithmetic, for a finite dimension and depth. *)
Lemma geometry_finite (i : MixingInputs) (x y : R) :
  dimension i = Fin x -> depth i = Some (Fin y) ->
  let d := Rmax x 0.001 in
  let h := Rmax y 0.001 in
  (wettedArea (calculateMixing i), hydraulicDiameter (calculateMixing i))
  = match conduitType i, conduitShape i with
    | PIPE, CIRCULAR => (Fin (PI * (d / 2) ^ 2), Fin d)
    | PIPE, RECTANGULAR => (Fin (d * h), Fin (2 * d * h / (d + h)))
    | CHANNEL, _ => (Fin (d * h), Fin (4 * (d * h) / (d + 2 * h)))
    end.
Proof.
  intros Hx Hy d h. cbn [wettedArea hydraulicDiameter calculateMixing].
  rewrite geometry_spec. unfold Body.depth0. rewrite Hx, Hy.
  assert (Hd : 0.001 <= d) by apply Rmax_r.
  assert (Hh : 0.001 <= h) by apply Rmax_r.
  unfold spec_geometry, sq, floor_mm. fold d h.
  destruct (conduitType i), (conduitShape i);
    cbn [num_mul num_add];
    rewrite ?num_div_Fin by lra; cbn [num_mul]; repeat f_equal; field.
Qed.

(** ** The engine on valid records *)

(** A field of a valid record is non-negative. *)
Ltac valid_field :=
  match goal with
  | H : valid_inputs _ |- _ => solve [apply H]
  end.

Section ValidRun.
Variable i : MixingInputs.
Hypothesis Hvalid : valid_inputs i.

Lemma valid_d : positive (Body.d i).
Proof. rewrite d_floor. apply floor_mm_nonneg. valid_field. Qed.

Lemma valid_h : positive (Body.h i).
Proof.
  rewrite h_floor. apply floor_mm_nonneg. unfold Body.depth0.
  assert (Hdepth : match depth i with Some v => nonneg v | None => True end)
    by valid_field.
  destruct (depth i); [assumption | apply nonneg_Fin; lra].
Qed.

Lemma valid_Q : positive (Body.Q_m3h i).
Proof.
  apply positive_max_l; [| apply positive_Fin; lra].
  apply positive_or_else; [valid_field | apply positive_Fin; lra].
Qed.

Lemma valid_totalInjLh : nonneg (Body.totalInjLh i).
Proof.
  apply nonneg_add; apply nonneg_or_else;
    valid_field || (apply nonneg_Fin; lra).
Qed.

Lemma valid_geometry : positive (Body.area i) /\ positive (Body.Dh i).
Proof.
  pose proof valid_d as Hd. pose proof valid_h as Hh.
  assert (H2 : forall c, 0 < c -> positive (Fin c)) by apply positive_Fin.
  unfold Body.area, Body.Dh, Body.geometry.
  destruct (ConduitType_eqb (conduitType i) PIPE);
    [destruct (ConduitShape_eqb (conduitShape i) CIRCULAR) |];
    cbn [fst snd]; split;
    repeat first
      [ assumption
      | apply positive_mul
      | apply positive_div
      | apply positive_add
      | apply positive_nonneg
      | apply positive_pow; [| lra]
      | apply positive_Fin; (lra || apply PI_RGT_0) ].
Qed.

Lemma valid_area : positive (Body.area i).
Proof. apply valid_geometry. Qed.

Lemma valid_Dh : positive (Body.Dh i).
Proof. apply valid_geometry. Qed.

Lemma valid_velocity : positive (Body.velocity i).
Proof.
  apply positive_div.
  - apply positive_div; [apply valid_Q | apply positive_Fin; lra].
  - apply positive_or_else;
      [apply positive_nonneg, valid_area | apply positive_Fin; lra].
Qed.

Lemma valid_Re : nonneg (Body.Re i).
Proof.
  apply nonneg_div.
  - repeat apply nonneg_mul; try valid_field;
      apply positive_nonneg; [apply valid_velocity | apply valid_Dh].
  - apply positive_or_else; [valid_field | apply positive_Fin; lra].
Qed.

Lemma valid_alpha : positive (Body.alpha i).
Proof.
  apply positive_div.
  - apply positive_mul; [apply valid_Q | apply positive_Fin; lra].
  - apply positive_or_else; [apply valid_totalInjLh | apply positive_Fin; lra].
Qed.

Lemma valid_LD : positive (Body.LD i).
Proof.
  apply positive_div; [| apply valid_Dh].
  apply positive_or_else; [valid_field | apply positive_Fin; lra].
Qed.
End ValidRun.

(** ** The clamp of the coefficient of variation *)

Lemma clamp_NaN : Math_min (Fin 1.0) (Math_max (Fin 0.0001) NaN) = NaN.
Proof. reflexivity. Qed.

Lemma clamp_Fin (x : R) :
  Math_min (Fin 1.0) (Math_max (Fin 0.0001) (Fin x))
  = Fin (Rmin 1 (Rmax 0.0001 x)).
Proof. simpl. f_equal. f_equal. lra. Qed.

Lemma clamp_range (x : num) :
  x <> NaN -> in_CoV_range (Math_min (Fin 1.0) (Math_max (Fin 0.0001) x)).
Proof.
  intros Hx. destruct x as [| | | r]; [contradiction | | |]; simpl.
  - exists 1. split; [f_equal; lra | lra].
  - exists (Rmin 1.0 0.0001). split; [reflexivity |].
    rewrite Rmin_right by lra. lra.
  - exists (Rmin 1.0 (Rmax 0.0001 r)). split; [reflexivity |].
    pose proof (Rmax_l 0.0001 r). pose proof (Rmin_l 1.0 (Rmax 0.0001 r)).
    split; [| lra].
    apply Rmin_glb; lra.
Qed.

(** Whatever the record, the clamped value is NaN (when the correlation
    is) or lies in [0.0001, 1.0]. *)
Lemma mixerCoV_NaN_or_range (i : MixingInputs) :
  (Body.mixerCoV0 i = NaN /\ mixerCoV (calculateMixing i) = NaN)
  \/ in_CoV_range (mixerCoV (calculateMixing i)).
Proof.
  cbn [mixerCoV calculateMixing]. unfold Body.mixerCoV.
  destruct (Body.mixerCoV0 i) eqn:E;
    [left; now split | right; apply clamp_range; discriminate ..].
Qed.

Lemma pos_or_inf_not_NaN (a : num) : pos_or_inf a -> a <> NaN.
Proof. intros [-> | (x & -> & _)]; discriminate. Qed.

Lemma pos_or_inf_mul (a b : num) :
  pos_or_inf a -> pos_or_inf b -> pos_or_inf (a * b)%num.
Proof.
  intros [-> | (x & -> & Hx)] [-> | (y & -> & Hy)]; simpl.
  - now left.
  - left. now rewrite Rsign_pos.
  - left. now rewrite Rsign_pos.
  - right. apply positive_Fin. nra.
Qed.

Lemma pos_or_inf_positive (a : num) : positive a -> pos_or_inf a.
Proof. now right. Qed.

(** A negative power of a non-negative number. *)
Lemma pos_or_inf_pow_neg (a : num) (y : R) :
  nonneg a -> y < 0 -> pos_or_inf (Math_pow a (Fin y)).
Proof.
  intros (x & -> & Hx) Hy. destruct (Req_dec_T x 0) as [-> | Hnz].
  - left. now apply Math_pow_zero_neg.
  - right. apply positive_pow; [apply positive_Fin | ]; lra.
Qed.

Section ValidMixer.
Variable i : MixingInputs.
Hypothesis Hvalid : valid_inputs i.

Lemma valid_mixerCoV0 : pos_or_inf (Body.mixerCoV0 i).
Proof.
  pose proof (valid_Re i Hvalid) as HRe.
  assert (Hn : nonneg (numElements i)) by valid_field.
  unfold Body.mixerCoV0, Body.mixer.
  destruct (mixerModel i); cbn [fst snd].
  - apply pos_or_inf_positive. apply positive_mul.
    + apply positive_mul; [apply positive_Fin; lra |].
      apply positive_sqrt, valid_alpha, Hvalid.
    + apply positive_exp.
      (* the exponent is finite: a product of three finite numbers *)
      destruct (valid_LD i Hvalid) as (l & -> & _).
      rewrite Math_sqrt_Fin by lra. reflexivity.
  - repeat apply pos_or_inf_mul; try (apply pos_or_inf_pow_neg; [assumption | lra]).
    destruct (InjectionType_eqb (injectionType i) SINGLE);
      apply pos_or_inf_positive, positive_Fin; lra.
  - repeat apply pos_or_inf_mul; try (apply pos_or_inf_pow_neg; [assumption | lra]).
    apply pos_or_inf_positive, positive_Fin; lra.
  - repeat apply pos_or_inf_mul; try (apply pos_or_inf_pow_neg; [assumption | lra]).
    apply pos_or_inf_positive, positive_Fin; lra.
Qed.

Lemma valid_FD : positive (Body.FD i).
Proof.
  unfold Body.FD, Body.mixer.
  destruct (mixerModel i); cbn [fst snd]; apply positive_Fin; lra.
Qed.

Lemma valid_Lm : nonneg (Body.Lm i).
Proof.
  assert (Hn : nonneg (numElements i)) by valid_field.
  pose proof (positive_nonneg _ (valid_Dh i Hvalid)) as HDh.
  unfold Body.Lm, Body.mixer.
  destruct (mixerModel i); cbn [fst snd];
    [valid_field | repeat apply nonneg_mul; try assumption; apply nonneg_Fin; lra ..].
Qed.

Lemma valid_headlossM : nonneg (Body.headlossM i).
Proof.
  apply nonneg_div.
  - apply nonneg_mul.
    + apply nonneg_mul; [apply positive_nonneg, valid_FD | apply valid_Lm].
    + apply positive_nonneg, positive_pow; [now apply valid_velocity | lra].
  - repeat apply positive_mul; try (apply positive_Fin; lra).
    now apply valid_Dh.
Qed.
End ValidMixer.

(** ** Records of moderate magnitude *)

Lemma moderate_nonneg (a : num) : moderate a -> nonneg a.
Proof. intros (x & -> & [-> | H]); apply nonneg_Fin; lra. Qed.

(** The hydraulics do not read the chemical density, the chemical
    viscosity or the two targets. *)
Lemma hydraulic_part_reads (i : MixingInputs) :
  Body.mixerCoV (hydraulic_part i) = Body.mixerCoV i
  /\ Body.headlossM (hydraulic_part i) = Body.headlossM i
  /\ Body.velocity (hydraulic_part i) = Body.velocity i.
Proof. repeat split. Qed.

Lemma moderate_hydraulics_valid (i : MixingInputs) :
  moderate_hydraulics i -> valid_inputs (hydraulic_part i).
Proof.
  intros (Hn & Hq & Hd & Hh & HL & Hmu & Hrho & Hcf & Hdw).
  unfold valid_inputs, hydraulic_part; cbn.
  repeat split; try (now apply moderate_nonneg); try (apply nonneg_Fin; lra).
  destruct (depth i); [now apply moderate_nonneg | exact I].
Qed.

Lemma moderate_inputs_valid (i : MixingInputs) :
  moderate_inputs i -> valid_inputs i.
Proof.
  intros ((Hn & Hq & Hd & Hh & HL & Hmu & Hrho & Hcf & Hdw)
          & Hcd & Hcv & Htc & Htt).
  unfold valid_inputs.
  repeat split; try (now apply moderate_nonneg).
  destruct (depth i); [now apply moderate_nonneg | exact I].
Qed.

(** A field of a concrete record is moderate. *)
Ltac moderate_field :=
  eexists; split; [reflexivity | first [right; lra | left; lra]].

Lemma moderate_mixerCoV (i : MixingInputs) :
  moderate_hydraulics i -> in_CoV_range (Body.mixerCoV i).
Proof.
  intros Hm. destruct (hydraulic_part_reads i) as (<- & _).
  unfold Body.mixerCoV.
  apply clamp_range, pos_or_inf_not_NaN, valid_mixerCoV0.
  now apply moderate_hydraulics_valid.
Qed.

Lemma set_availableLength_moderate (i : MixingInputs) (L : R) :
  moderate_hydraulics i -> 1e-9 <= L <= 1e9 ->
  moderate_hydraulics (set_availableLength i (Fin L)).
Proof.
  intros (Hn & Hq & Hd & Hh & HL & Hrest) HLb.
  unfold moderate_hydraulics, set_availableLength; cbn.
  repeat split; try assumption; try apply Hrest.
  exists L. split; [reflexivity | now right].
Qed.

(** C2, as the code has it.  For every input record whose numeric fields
    read by the mixing correlations (element count, flow rate, dimension,
    depth, available length, carrier viscosity and density, chemical and
    dilution water flow) are each zero or a finite number between 1e-9 and
    1e9 (the depth may be absent), whichever the mixer model and the
    element count, the returned mixerCoV is a finite number in the closed
    interval [0.0001, 1.0]. *)
Theorem mixerCoV_clamped (i : MixingInputs) :
  moderate_hydraulics i -> in_CoV_range (mixerCoV (calculateMixing i)).
Proof.
  intros Hm. cbn [mixerCoV calculateMixing]. now apply moderate_mixerCoV.
Qed.

(** C6. For every valid input record (the numeric fields that the
    hydraulics read are each zero or a finite number between 1e-9 and 1e9;
    the depth may be absent), the returned headlossMeters is a finite
    number greater than or equal to zero and the returned velocity is a
    finite number greater than zero. *)
Theorem headloss_nonneg_velocity_positive (i : MixingInputs) :
  moderate_hydraulics i ->
  nonneg (headlossMeters (calculateMixing i))
  /\ positive (velocity (calculateMixing i)).
Proof.
  intros Hm. cbn [headlossMeters velocity calculateMixing].
  destruct (hydraulic_part_reads i) as (_ & <- & <-).
  pose proof (moderate_hydraulics_valid i Hm) as Hvalid.
  split; [now apply valid_headlossM | now apply valid_velocity].
Qed.

Lemma scenario_valid (n : R) : 0 <= n -> valid_inputs (scenario (Fin n)).
Proof.
  intros Hn. unfold valid_inputs, scenario; cbn.
  repeat split; try (eexists; split; [reflexivity | lra]).
Qed.

Lemma mixerCoV_clamped_witness :
  moderate_hydraulics (scenario (Fin 4))
  /\ in_CoV_range (mixerCoV (calculateMixing (scenario (Fin 4)))).
Proof.
  assert (H : moderate_hydraulics (scenario (Fin 4))).
  { unfold moderate_hydraulics, scenario; cbn. repeat split; moderate_field. }
  split; [exact H | apply (mixerCoV_clamped (scenario (Fin 4))); exact H].
Defined.

Lemma headloss_nonneg_velocity_positive_witness :
  moderate_hydraulics (scenario (Fin 4))
  /\ nonneg (headlossMeters (calculateMixing (scenario (Fin 4))))
  /\ positive (velocity (calculateMixing (scenario (Fin 4)))).
Proof.
  assert (H : moderate_hydraulics (scenario (Fin 4))).
  { unfold moderate_hydraulics, scenario; cbn. repeat split; moderate_field. }
  split; [exact H |].
  apply (headloss_nonneg_velocity_positive (scenario (Fin 4))); exact H.
Defined.

(** ** Evaluating the engine on a concrete record *)

(** One step of evaluation of a number expression whose operands are
    finite; the side conditions are linear facts about the literals. *)
Ltac js_step :=
  first
    [ rewrite or_else_zero
    | rewrite or_else_Fin by lra
    | rewrite num_div_Fin by lra
    | rewrite Math_sqrt_Fin by lra
    | rewrite Math_log_Fin by lra
    | rewrite Math_pow_Fin by lra
    | rewrite Rmax_left by lra
    | rewrite Rmax_right by lra
    | rewrite Rmin_left by lra
    | rewrite Rmin_right by lra
    | progress cbn [num_mul num_add Math_max Math_min Math_exp fst snd
                    ConduitType_eqb ConduitShape_eqb InjectionType_eqb] ].

Ltac js_eval := repeat js_step.

Lemma negative_flow_alpha :
  Body.alpha negative_flow = Fin (1500 * 1000 / (-10 + 0)).
Proof.
  unfold Body.alpha, Body.Q_m3h, Body.totalInjLh, negative_flow.
  cbn [flowRate chemicalFlow dilutionWaterFlow]. js_eval. reflexivity.
Qed.

Lemma negative_flow_mixerCoV : mixerCoV (calculateMixing negative_flow) = NaN.
Proof.
  cbn [mixerCoV calculateMixing].
  unfold Body.mixerCoV, Body.mixerCoV0, Body.mixer.
  cbn [mixerModel negative_flow fst snd].
  rewrite negative_flow_alpha, Math_sqrt_neg by lra. reflexivity.
Qed.

(** C2, as stated, fails: with a chemical flow of -10 L/h and no dilution
    water the dilution ratio is negative, its square root is NaN, and
    [Math.min] and [Math.max] pass NaN on: the returned mixerCoV is NaN,
    outside [0.0001, 1.0]. *)
Lemma mixerCoV_negative_flow_not_in_range :
  mixerCoV (calculateMixing negative_flow) = NaN
  /\ ~ in_CoV_range (mixerCoV (calculateMixing negative_flow)).
Proof.
  split; [apply negative_flow_mixerCoV |].
  rewrite negative_flow_mixerCoV. intros (c & Hc & _). discriminate.
Qed.

(** ** Finite results *)

Lemma finite_mul (a b : num) :
  is_finite a = true -> is_finite b = true -> is_finite (a * b)%num = true.
Proof. destruct a, b; try discriminate; reflexivity. Qed.

Lemma finite_add (a b : num) :
  is_finite a = true -> is_finite b = true -> is_finite (a + b)%num = true.
Proof. destruct a, b; try discriminate; reflexivity. Qed.

Lemma finite_div (a b : num) :
  is_finite a = true -> positive b -> is_finite (a / b)%num = true.
Proof.
  destruct a; try discriminate. intros _ (y & -> & Hy).
  now rewrite num_div_Fin by lra.
Qed.

Lemma finite_log (a : num) : positive a -> is_finite (Math_log a) = true.
Proof. intros (x & -> & Hx). now rewrite Math_log_Fin. Qed.

Section ValidFinite.
Variable i : MixingInputs.
Hypothesis Hvalid : valid_inputs i.
Hypothesis Hviscosity : positive (viscosity i).
Hypothesis Hdensity : positive (density i).

Lemma valid_injDensity : nonneg (Body.injDensity i).
Proof.
  apply nonneg_div.
  - apply nonneg_add; apply nonneg_mul;
      repeat first [ valid_field | apply nonneg_or_else | apply nonneg_Fin; lra ].
  - apply positive_or_else;
      [now apply valid_totalInjLh | apply positive_Fin; lra].
Qed.

Lemma valid_injVisc : positive (Body.injVisc i).
Proof.
  apply positive_exp, finite_div.
  - apply finite_add; apply finite_mul;
      try (apply nonneg_finite, nonneg_or_else;
           [valid_field | apply nonneg_Fin; lra]);
      apply finite_log, positive_or_else;
      first [ valid_field | apply positive_Fin; lra
            | apply nonneg_Fin; unfold Body.waterViscosity; lra ].
  - apply positive_or_else;
      [now apply valid_totalInjLh | apply positive_Fin; lra].
Qed.

Lemma valid_mixerCoV : in_CoV_range (Body.mixerCoV i).
Proof.
  apply clamp_range, pos_or_inf_not_NaN. now apply valid_mixerCoV0.
Qed.

Lemma valid_tCoV : positive (Body.tCoV i).
Proof.
  apply positive_or_else; [valid_field | apply positive_Fin; lra].
Qed.

Lemma valid_decay : positive (Body.decay i || Fin 0.1)%num.
Proof.
  apply positive_or_else; [| apply positive_Fin; lra].
  unfold Body.decay. destruct (ConduitType_eqb (conduitType i) PIPE).
  - rewrite Math_sqrt_Fin by lra. apply nonneg_Fin.
    pose proof (sqrt_pos 0.02). nra.
  - apply nonneg_Fin. lra.
Qed.

Lemma valid_mixingDistanceNeeded :
  is_finite (Body.mixingDistanceNeeded i) = true.
Proof.
  pose proof (nonneg_finite _ (valid_Lm i Hvalid)) as HLm.
  unfold Body.mixingDistanceNeeded.
  destruct (Body.mixerCoV i <=? Body.tCoV i)%num; [assumption |].
  apply finite_add; [assumption |].
  apply finite_mul; [| apply positive_finite; now apply valid_Dh].
  apply finite_div; [| apply valid_decay].
  apply finite_log, positive_div; [| apply valid_tCoV].
  destruct valid_mixerCoV as (c & -> & Hc). apply positive_Fin. lra.
Qed.

Lemma valid_headlossKpa : nonneg (Body.headlossKpa i).
Proof.
  apply nonneg_div; [| apply positive_Fin; lra].
  repeat apply nonneg_mul;
    [now apply valid_headlossM | valid_field | apply nonneg_Fin; lra].
Qed.

Lemma valid_gValue : nonneg (Body.gValue i).
Proof.
  apply nonneg_sqrt, nonneg_div.
  - repeat apply nonneg_mul;
      [apply valid_headlossKpa | apply nonneg_Fin; lra |].
    apply nonneg_div; [| apply positive_Fin; lra].
    apply positive_nonneg. now apply valid_Q.
  - apply positive_or_else; [| apply positive_Fin; lra].
    repeat apply nonneg_mul;
      [valid_field | apply positive_nonneg; now apply valid_area
      | now apply valid_Lm].
Qed.

Lemma valid_uInj : nonneg (Body.uInj i).
Proof.
  apply nonneg_div.
  - apply nonneg_div.
    + apply nonneg_div; [now apply valid_totalInjLh | apply positive_Fin; lra].
    + destruct (InjectionType_eqb (injectionType i) TWIN);
        apply positive_Fin; lra.
  - apply positive_mul; [apply positive_Fin, PI_RGT_0 |].
    apply positive_pow; [apply positive_Fin |]; lra.
Qed.

Lemma valid_momentumRatio : nonneg (Body.momentumRatio i).
Proof.
  apply nonneg_mul.
  - apply nonneg_sqrt, nonneg_div; [apply valid_injDensity | assumption].
  - apply nonneg_div.
    + apply nonneg_mul; [apply valid_uInj | apply nonneg_Fin; lra].
    + apply positive_or_else; [| apply positive_Fin; lra].
      apply positive_nonneg, positive_mul;
        [now apply valid_velocity | now apply valid_Dh].
Qed.

(** On a valid record with a positive carrier viscosity and density, every
    numeric field of the result is finite. *)
Lemma valid_all_finite : all_finite (calculateMixing i) = true.
Proof.
  unfold all_finite.
  cbn [forallb calculateMixing velocity reynoldsNumber momentumRatio mixerCoV
       viscosityRatio injectedViscosity injectedDensity totalInjectionFlow
       mixingDistanceNeeded mixingTimeNeeded headloss headlossMeters gValue
       limeSaturationLimit dissolvedAtTarget timeTo95Dissolution
       distanceTo95Dissolution suggestedOrificeDiameter hydraulicDiameter
       wettedArea is_finite].
  rewrite (positive_finite _ (valid_velocity i Hvalid)).
  rewrite (nonneg_finite _ (valid_Re i Hvalid)).
  rewrite (nonneg_finite _ valid_momentumRatio).
  destruct valid_mixerCoV as (c & -> & _).
  rewrite (finite_div _ _ (positive_finite _ valid_injVisc) Hviscosity).
  rewrite (positive_finite _ valid_injVisc).
  rewrite (nonneg_finite _ valid_injDensity).
  rewrite (nonneg_finite _ (valid_totalInjLh i Hvalid)).
  rewrite valid_mixingDistanceNeeded.
  rewrite (finite_div _ _ valid_mixingDistanceNeeded (valid_velocity i Hvalid)).
  rewrite (nonneg_finite _ valid_headlossKpa).
  rewrite (nonneg_finite _ (valid_headlossM i Hvalid)).
  rewrite (nonneg_finite _ valid_gValue).
  rewrite (positive_finite _ (valid_Dh i Hvalid)).
  rewrite (positive_finite _ (valid_area i Hvalid)).
  reflexivity.
Qed.
End ValidFinite.

Lemma degenerate_any_count (n : num) :
  calculateMixing (degenerate n) = calculateMixing (degenerate (Fin 0)).
Proof. reflexivity. Qed.

Lemma degenerate_absent_as_zero (n : num) :
  calculateMixing (degenerate_absent n) = calculateMixing (degenerate n).
Proof.
  unfold calculateMixing, Body.momentumRatio, Body.uInj,
    Body.mixingDistanceNeeded, Body.tCoV, Body.decay, Body.gValue,
    Body.headlossKpa, Body.headlossM, Body.mixerCoV, Body.mixerCoV0, Body.FD,
    Body.Lm, Body.mixer, Body.LD, Body.alpha, Body.Re, Body.velocity,
    Body.area, Body.Dh, Body.geometry, Body.injVisc, Body.injDensity,
    Body.totalInjM3s, Body.totalInjLh, Body.Q_m3h, Body.h, Body.d,
    Body.depth0.
  cbn [degenerate degenerate_absent conduitType conduitShape mixerModel
       numElements flowRate dimension depth availableLength viscosity density
       chemicalFlow chemicalDensity chemicalViscosity dilutionWaterFlow
       targetCoV targetMixingTime injectionType].
  rewrite !or_else_NaN, !or_else_zero. reflexivity.
Qed.

(** An absent value and a zero fall through a [||] guard alike. *)
Lemma absent_guard (b : num) : (NaN || b)%num = (Fin 0 || b)%num.
Proof. now rewrite or_else_NaN, or_else_zero. Qed.

(** The engine as one expression over the fields of the record. *)
Ltac unfold_engine :=
  unfold calculateMixing, Body.momentumRatio, Body.uInj,
    Body.mixingDistanceNeeded, Body.tCoV, Body.decay, Body.gValue,
    Body.headlossKpa, Body.headlossM, Body.mixerCoV, Body.mixerCoV0, Body.FD,
    Body.Lm, Body.mixer, Body.LD, Body.alpha, Body.Re, Body.velocity,
    Body.area, Body.Dh, Body.geometry, Body.injVisc, Body.injDensity,
    Body.totalInjM3s, Body.totalInjLh, Body.Q_m3h, Body.h, Body.d,
    Body.depth0;
  cbn [assign conduitType conduitShape mixerModel
       numElements flowRate dimension depth availableLength viscosity density
       chemicalFlow chemicalDensity chemicalViscosity dilutionWaterFlow
       targetCoV targetMixingTime injectionType].

(** C5, as the code has it.  For every input record, an absent or invalid
    value (NaN) of a field that the engine reads through a [||] guard --
    the flow rate, the dimension, the chemical and the dilution water
    flow, the chemical density, the chemical viscosity, the target CoV,
    and the depth when it is NaN -- gives exactly the result of a zero in
    that field, and a depth that is not given at all gives the result of
    a depth of 0.6 m; and the degenerate record (flow rate, dimension and
    the two injection flows zero, the other fields as in the end-to-end
    scenario) yields a complete result whose numeric fields are all
    finite, the same with the four fields absent instead of zero.  The
    engine is a total function: it has no error path. *)
Theorem guarded_fields_absent_as_zero (i : MixingInputs) :
  calculateMixing (assign (U_flowRate NaN) i)
  = calculateMixing (assign (U_flowRate (Fin 0)) i)
  /\ calculateMixing (assign (U_dimension NaN) i)
     = calculateMixing (assign (U_dimension (Fin 0)) i)
  /\ calculateMixing (assign (U_depth (Some NaN)) i)
     = calculateMixing (assign (U_depth (Some (Fin 0))) i)
  /\ calculateMixing (assign (U_depth None) i)
     = calculateMixing (assign (U_depth (Some (Fin 0.6))) i)
  /\ calculateMixing (assign (U_chemicalFlow NaN) i)
     = calculateMixing (assign (U_chemicalFlow (Fin 0)) i)
  /\ calculateMixing (assign (U_dilutionWaterFlow NaN) i)
     = calculateMixing (assign (U_dilutionWaterFlow (Fin 0)) i)
  /\ calculateMixing (assign (U_chemicalDensity NaN) i)
     = calculateMixing (assign (U_chemicalDensity (Fin 0)) i)
  /\ calculateMixing (assign (U_chemicalViscosity NaN) i)
     = calculateMixing (assign (U_chemicalViscosity (Fin 0)) i)
  /\ calculateMixing (assign (U_targetCoV NaN) i)
     = calculateMixing (assign (U_targetCoV (Fin 0)) i)
  /\ forall n,
       calculateMixing (degenerate_absent n) = calculateMixing (degenerate n)
       /\ all_finite (calculateMixing (degenerate n)) = true.
Proof.
  repeat match goal with |- _ /\ _ => split end.
  - unfold_engine. now rewrite (absent_guard (Fin 1)).
  - unfold_engine. now rewrite (absent_guard (Fin 0.001)).
  - unfold_engine. now rewrite (absent_guard (Fin 0.001)).
  - reflexivity.
  - unfold_engine. now rewrite (absent_guard (Fin 0)).
  - unfold_engine. now rewrite (absent_guard (Fin 0)).
  - unfold_engine. now rewrite (absent_guard (Fin 1000)).
  - unfold_engine. now rewrite (absent_guard (Fin 1e-6)).
  - unfold_engine. now rewrite (absent_guard (Fin 0.05)).
  - intros n. split; [apply degenerate_absent_as_zero |].
    rewrite degenerate_any_count.
    assert (H : forall c, 0 <= c -> nonneg (Fin c)) by apply nonneg_Fin.
    apply valid_all_finite.
    + unfold valid_inputs, degenerate; cbn. repeat split; apply H; lra.
    + apply positive_Fin. lra.
    + apply positive_Fin. lra.
Qed.

(** ** Divisors *)

(** The divisors written with a [||] guard are never zero (and never NaN),
    whatever the record. *)
Lemma guarded_divisors_nonzero (i : MixingInputs) :
  truthy (Body.area i || Fin 1e-6)%num = true
  /\ truthy (viscosity i || Fin 1e-6)%num = true
  /\ truthy (Body.totalInjLh i || Fin 1)%num = true
  /\ truthy (viscosity i * Body.area i * Body.Lm i || Fin 1e-9)%num = true
  /\ truthy (Body.decay i || Fin 0.1)%num = true
  /\ truthy (Body.velocity i * Body.Dh i || Fin 1e-6)%num = true
  /\ truthy (Body.tCoV i) = true.
Proof.
  repeat split; apply or_else_truthy, truthy_Fin; lra.
Qed.

Lemma zero_viscosity_injVisc :
  Body.injVisc zero_viscosity
  = Fin (exp ((10 * ln 0.015 + 200 * ln 0.001) / (10 + 200))).
Proof.
  unfold Body.injVisc, Body.totalInjLh, Body.waterViscosity, zero_viscosity.
  cbn [chemicalFlow chemicalViscosity dilutionWaterFlow].
  js_eval. reflexivity.
Qed.

(** C3, at a carrier viscosity of zero.  The Reynolds number divides by
    the guarded [viscosity || 1e-6], which is 1e-6; the viscosity ratio
    divides by the viscosity itself, which is exactly zero, and the
    returned viscosityRatio is +Infinity. *)
Theorem viscosityRatio_divides_by_zero :
  viscosity zero_viscosity = Fin 0
  /\ (viscosity zero_viscosity || Fin 1e-6)%num = Fin 1e-6
  /\ viscosityRatio (calculateMixing zero_viscosity)
     = (injectedViscosity (calculateMixing zero_viscosity) / Fin 0)%num
  /\ viscosityRatio (calculateMixing zero_viscosity) = PInf
  /\ is_finite (viscosityRatio (calculateMixing zero_viscosity)) = false.
Proof.
  assert (E : viscosityRatio (calculateMixing zero_viscosity) = PInf).
  { cbn [viscosityRatio calculateMixing]. rewrite zero_viscosity_injVisc.
    apply num_div_zero_pos, exp_pos. }
  repeat split.
  - cbn [viscosity zero_viscosity]. apply or_else_zero.
  - assumption.
  - now rewrite E.
Qed.

(** ** The momentum regime *)

Lemma regime_of_low (m : R) : m < 0.16 -> regime_of (Fin m) = "Low"%string.
Proof.
  intros H. unfold regime_of.
  now rewrite (proj2 (num_ltb_Fin m 0.16) H).
Qed.

Lemma regime_of_high (m : R) : 0.24 < m -> regime_of (Fin m) = "High"%string.
Proof.
  intros H. unfold regime_of, num_gtb.
  rewrite (proj2 (num_ltb_Fin_false m 0.16)) by lra.
  now rewrite (proj2 (num_ltb_Fin 0.24 m) H).
Qed.

Lemma regime_of_intermediate (m : R) :
  0.16 <= m <= 0.24 -> regime_of (Fin m) = "Intermediate"%string.
Proof.
  intros H. unfold regime_of, num_gtb.
  rewrite (proj2 (num_ltb_Fin_false m 0.16)) by lra.
  now rewrite (proj2 (num_ltb_Fin_false 0.24 m)) by lra.
Qed.

(** C7. The regime label of a result is a function of its momentum ratio
    alone, with the thresholds 0.16 and 0.24: a ratio strictly below 0.16
    is 'Low', strictly above 0.24 is 'High', and anything else is
    'Intermediate'; in particular 0.16 and 0.24 themselves are
    'Intermediate'. *)
Theorem momentumRegime_thresholds (i : MixingInputs) :
  let res := calculateMixing i in
  momentumRegime res = regime_of (momentumRatio res)
  /\ (forall m, momentumRatio res = Fin m -> m < 0.16 ->
        momentumRegime res = "Low"%string)
  /\ (forall m, momentumRatio res = Fin m -> 0.24 < m ->
        momentumRegime res = "High"%string)
  /\ (forall m, momentumRatio res = Fin m -> 0.16 <= m <= 0.24 ->
        momentumRegime res = "Intermediate"%string)
  /\ (momentumRatio res = NInf -> momentumRegime res = "Low"%string)
  /\ (momentumRatio res = PInf -> momentumRegime res = "High"%string)
  /\ (momentumRatio res = NaN -> momentumRegime res = "Intermediate"%string)
  /\ regime_of (Fin 0.16) = "Intermediate"%string
  /\ regime_of (Fin 0.24) = "Intermediate"%string.
Proof.
  cbn zeta. cbn [momentumRegime momentumRatio calculateMixing].
  split; [reflexivity |].
  repeat split; try (intros m -> H); try (intros ->);
    try reflexivity;
    first [ now apply regime_of_low | now apply regime_of_high
          | apply regime_of_intermediate; lra ].
Qed.

(** ** The injection blend *)

Lemma or_else_self (a b : num) : truthy a = true -> (a || b)%num = a.
Proof. intros H. unfold or_else. now rewrite H. Qed.

Lemma or_else_flow (x : R) : (Fin x || Fin 0)%num = Fin x.
Proof.
  destruct (Req_dec_T x 0) as [-> | Hnz];
    [apply or_else_zero | now apply or_else_Fin].
Qed.

Lemma or_else_one_if_zero (x : R) : (Fin x || Fin 1)%num = one_if_zero (Fin x).
Proof.
  unfold or_else, one_if_zero, truthy. now destruct (Req_dec_T x 0).
Qed.

(** C9, as the code has it.  For every input record whose chemical and
    dilution-water flows are finite numbers and whose chemical density and
    chemical viscosity are non-zero numbers, the injected density is
    (chemicalFlow chemicalDensity + dilutionWaterFlow 1000) over the total
    injection flow, and the injected viscosity is the exponential of the
    flow-weighted average of the natural logarithms of the chemical
    viscosity and of 0.001, the total injection flow being replaced by 1 as
    a denominator when it is zero. *)
Theorem injection_blend (i : MixingInputs) (cf dw : R) :
  chemicalFlow i = Fin cf ->
  dilutionWaterFlow i = Fin dw ->
  truthy (chemicalDensity i) = true ->
  truthy (chemicalViscosity i) = true ->
  injectedDensity (calculateMixing i) = spec_injectedDensity i
  /\ injectedViscosity (calculateMixing i) = spec_injectedViscosity i.
Proof.
  intros Hcf Hdw Hcd Hcv.
  cbn [injectedDensity injectedViscosity calculateMixing].
  unfold Body.injDensity, Body.injVisc, Body.totalInjLh, Body.waterDensity,
    Body.waterViscosity, spec_injectedDensity, spec_injectedViscosity.
  rewrite Hcf, Hdw, !or_else_flow, (or_else_self _ _ Hcd),
    (or_else_self _ _ Hcv).
  cbn [num_add]. rewrite or_else_one_if_zero.
  rewrite (or_else_Fin 0.001) by lra. split; reflexivity.
Qed.

Lemma injection_blend_witness :
  injectedDensity (calculateMixing (scenario (Fin 4)))
  = spec_injectedDensity (scenario (Fin 4))
  /\ injectedViscosity (calculateMixing (scenario (Fin 4)))
     = spec_injectedViscosity (scenario (Fin 4)).
Proof.
  apply (injection_blend (scenario (Fin 4)) 10 200).
  - reflexivity.
  - reflexivity.
  - apply truthy_Fin. lra.
  - apply truthy_Fin. lra.
Defined.

(** C9, as stated, fails: a chemical density of zero is read as 1000.  With
    a chemical flow of 10 L/h, no dilution water and a chemical density of
    zero, the formula of the claim gives 0 and the engine returns 1000. *)
Lemma injectedDensity_zero_chemicalDensity :
  injectedDensity (calculateMixing zero_chemicalDensity) = Fin 1000
  /\ spec_injectedDensity zero_chemicalDensity = Fin 0
  /\ injectedDensity (calculateMixing zero_chemicalDensity)
     <> spec_injectedDensity zero_chemicalDensity.
Proof.
  assert (E1 : injectedDensity (calculateMixing zero_chemicalDensity) = Fin 1000).
  { cbn [injectedDensity calculateMixing].
    unfold Body.injDensity, Body.totalInjLh, Body.waterDensity,
      zero_chemicalDensity.
    cbn [chemicalFlow chemicalDensity dilutionWaterFlow].
    js_eval. f_equal. field. }
  assert (E2 : spec_injectedDensity zero_chemicalDensity = Fin 0).
  { unfold spec_injectedDensity, one_if_zero, zero_chemicalDensity.
    cbn [chemicalFlow chemicalDensity dilutionWaterFlow num_add num_mul].
    destruct (Req_dec_T (10 + 0) 0) as [H | H]; [lra |].
    rewrite num_div_Fin by lra. f_equal. field. }
  repeat split; try assumption.
  rewrite E1, E2. intros H. injection H as H. lra.
Qed.

(** ** Natural mixing and the available length *)

Lemma Dh_cases (i : MixingInputs) :
  Body.Dh i = NaN \/ pos_or_inf (Body.Dh i).
Proof.
  pose proof (floor_mm_pos_or_inf (dimension i)) as Hd.
  pose proof (floor_mm_pos_or_inf (Body.depth0 i)) as Hh.
  rewrite <- d_floor in Hd. rewrite <- h_floor in Hh.
  unfold Body.Dh, Body.geometry.
  destruct (ConduitType_eqb (conduitType i) PIPE);
    [destruct (ConduitShape_eqb (conduitShape i) CIRCULAR) |]; cbn [fst snd].
  - now right.
  - destruct Hd as [-> | (x & -> & Hx)], Hh as [-> | (y & -> & Hy)];
      repeat first [ rewrite Rsign_pos by nra
                   | progress cbn [signed_inf num_mul num_add num_div] ];
      try (now left).
    destruct (Req_dec_T _ 0) as [E | _]; [nra |].
    right. right. apply positive_Fin, Rdiv_lt_0_compat; nra.
  - destruct Hd as [-> | (x & -> & Hx)], Hh as [-> | (y & -> & Hy)];
      repeat first [ rewrite Rsign_pos by nra
                   | progress cbn [signed_inf num_mul num_add num_div] ];
      try (now left).
    destruct (Req_dec_T _ 0) as [E | _]; [nra |].
    right. right. apply positive_Fin, Rdiv_lt_0_compat; nra.
Qed.

Lemma sqrt_cases (a : num) :
  Math_sqrt a = NaN \/ Math_sqrt a = PInf \/ nonneg (Math_sqrt a).
Proof.
  destruct a as [| | | x]; simpl; auto.
  destruct (Rlt_dec x 0); auto.
  right. right. apply nonneg_Fin, sqrt_pos.
Qed.

Lemma decay_rate_negative : -0.75 * sqrt 0.02 < 0.
Proof.
  assert (0 < sqrt 0.02) by (apply sqrt_lt_R0; lra). lra.
Qed.

(** The natural-mixing correlation as a function of the available
    length. *)
Lemma natural_mixerCoV0 (i : MixingInputs) (L : num) :
  mixerModel i = NONE ->
  Body.mixerCoV0 (set_availableLength i L)
  = (Fin 2 * Math_sqrt (Body.alpha i)
     * Math_exp (Fin (-0.75 * sqrt 0.02) * ((L || Fin 1) / Body.Dh i)))%num.
Proof.
  intros H. unfold Body.mixerCoV0, Body.mixer.
  cbn [mixerModel set_availableLength]. rewrite H. cbn [fst snd].
  rewrite Math_sqrt_Fin by lra. reflexivity.
Qed.

Lemma clamp_mono (x y : R) :
  x <= y -> Rmin 1 (Rmax 0.0001 x) <= Rmin 1 (Rmax 0.0001 y).
Proof.
  intros H. apply Rle_min_compat_l. now apply Rle_max_compat_l.
Qed.

Lemma num_leb_refl (a : num) : a = NaN \/ (a <=? a)%num = true.
Proof.
  destruct a as [| | | x]; auto. right. apply num_leb_Fin. lra.
Qed.

Lemma twice_sqrt_cases (a : num) :
  (Fin 2 * Math_sqrt a)%num = NaN
  \/ (Fin 2 * Math_sqrt a)%num = PInf
  \/ nonneg (Fin 2 * Math_sqrt a)%num.
Proof.
  destruct (sqrt_cases a) as [-> | [-> | H]]; auto.
  - right. left. simpl. now rewrite Rsign_pos by lra.
  - right. right. apply nonneg_mul; [apply nonneg_Fin; lra | assumption].
Qed.

Lemma natural_mixerCoV_monotone (i : MixingInputs) (L1 L2 : R) :
  mixerModel i = NONE ->
  L1 < L2 -> L1 <> 0 -> L2 <> 0 ->
  (Body.mixerCoV (set_availableLength i (Fin L1)) = NaN
   /\ Body.mixerCoV (set_availableLength i (Fin L2)) = NaN)
  \/ (Body.mixerCoV (set_availableLength i (Fin L2))
      <=? Body.mixerCoV (set_availableLength i (Fin L1)))%num = true.
Proof.
  intros HN Hlt H1 H2. unfold Body.mixerCoV.
  rewrite !natural_mixerCoV0 by assumption.
  rewrite !or_else_Fin by assumption.
  pose proof decay_rate_negative as Hk.
  set (k := -0.75 * sqrt 0.02) in *.
  set (A := (Fin 2 * Math_sqrt (Body.alpha i))%num).
  destruct (Dh_cases i) as [-> | [-> | (dh & -> & Hdh)]].
  - (* the hydraulic diameter is NaN *)
    left. cbn [num_div num_mul Math_exp]. destruct A; now split.
  - (* the hydraulic diameter is infinite: the length drops out *)
    cbn [num_div].
    match goal with
    | |- (?a = NaN /\ _) \/ _ => destruct (num_leb_refl a) as [E | E]
    end; [left; now split | now right].
  - (* a finite hydraulic diameter *)
    rewrite !num_div_Fin by lra. cbn [num_mul Math_exp].
    assert (He : exp (k * (L2 / dh)) <= exp (k * (L1 / dh))).
    { left. apply exp_increasing.
      assert (L1 / dh < L2 / dh).
      { unfold Rdiv. apply Rmult_lt_compat_r; [now apply Rinv_0_lt_compat | lra]. }
      nra. }
    destruct (twice_sqrt_cases (Body.alpha i)) as [E | [E | (s & E & Hs)]];
      fold A in E; rewrite E.
    + left. now split.
    + right. cbn [num_mul]. rewrite !Rsign_pos by apply exp_pos.
      cbn [signed_inf Math_max Math_min]. apply num_leb_Fin. lra.
    + right. cbn [num_mul]. rewrite !clamp_Fin. apply num_leb_Fin.
      apply clamp_mono. apply Rmult_le_compat_l; [lra | assumption].
Qed.

(** C4, as the code has it.  For every input record with mixer model NONE
    whose numeric fields read by the correlation are each zero or a finite
    number between 1e-9 and 1e9, and every pair of available lengths
    1e-9 <= L1 < L2 <= 1e9, all other fields fixed, the mixerCoV returned
    for L2 is less than or equal to the one returned for L1. *)
Theorem availableLength_monotone (i : MixingInputs) (L1 L2 : R) :
  moderate_hydraulics i -> mixerModel i = NONE ->
  1e-9 <= L1 -> L1 < L2 -> L2 <= 1e9 ->
  (mixerCoV (calculateMixing (set_availableLength i (Fin L2)))
   <=? mixerCoV (calculateMixing (set_availableLength i (Fin L1))))%num
  = true.
Proof.
  intros Hm HN H1 Hlt H2. cbn [mixerCoV calculateMixing].
  destruct (natural_mixerCoV_monotone i L1 L2 HN Hlt) as [[E _] | H];
    [lra | lra | | exact H].
  assert (HL1 : 1e-9 <= L1 <= 1e9) by lra.
  destruct (moderate_mixerCoV _ (set_availableLength_moderate i L1 Hm HL1))
    as (c & Ec & _).
  rewrite E in Ec. discriminate.
Qed.

(** ** Bounds for the exponential *)

Lemma exp_pow (x : R) (n : nat) : exp x ^ n = exp (INR n * x).
Proof.
  induction n as [| n IH].
  - simpl. now rewrite Rmult_0_l, exp_0.
  - rewrite S_INR. simpl pow. rewrite IH, <- exp_plus. f_equal. ring.
Qed.

Lemma fx_scale_pos : 0 < IZR fx_scale.
Proof. apply IZR_lt. reflexivity. Qed.

Lemma fx_sq_nonneg (m : Z) : (0 <= fx_sq m)%Z.
Proof.
  unfold fx_sq. apply Z.div_pos; [nia | reflexivity].
Qed.

Lemma fx_sq_sound (m : Z) (y : R) :
  (0 <= m)%Z -> IZR m / IZR fx_scale <= y ->
  IZR (fx_sq m) / IZR fx_scale <= y * y.
Proof.
  intros Hm Hy. pose proof fx_scale_pos as HS.
  assert (H0 : 0 <= IZR m / IZR fx_scale).
  { apply Rmult_le_pos; [now apply IZR_le | left; now apply Rinv_0_lt_compat]. }
  apply Rle_trans with (IZR m / IZR fx_scale * (IZR m / IZR fx_scale)); [| nra].
  assert (Hdiv : IZR (fx_sq m) * IZR fx_scale <= IZR m * IZR m).
  { rewrite <- !mult_IZR. apply IZR_le. unfold fx_sq.
    rewrite Z.mul_comm. apply Z.mul_div_le. reflexivity. }
  apply Rmult_le_reg_r with (IZR fx_scale * IZR fx_scale); [nra |].
  replace (IZR m / IZR fx_scale * (IZR m / IZR fx_scale)
           * (IZR fx_scale * IZR fx_scale)) with (IZR m * IZR m)
    by (field; lra).
  replace (IZR (fx_sq m) / IZR fx_scale * (IZR fx_scale * IZR fx_scale))
    with (IZR (fx_sq m) * IZR fx_scale) by (field; lra).
  exact Hdiv.
Qed.

Lemma fx_iter_sound (k : nat) (m : Z) (y : R) :
  (0 <= m)%Z -> IZR m / IZR fx_scale <= y ->
  (0 <= Nat.iter k fx_sq m)%Z
  /\ IZR (Nat.iter k fx_sq m) / IZR fx_scale <= y ^ (2 ^ k).
Proof.
  intros Hm Hy. induction k as [| k [IH0 IH]].
  - simpl. split; [assumption | lra].
  - cbn [Nat.iter]. split; [apply fx_sq_nonneg |].
    replace (2 ^ S k)%nat with (2 ^ k + 2 ^ k)%nat by (simpl; lia).
    rewrite pow_add. now apply fx_sq_sound.
Qed.

Lemma exp_lb_sound (p q : Z) (k : nat) :
  (0 < q)%Z ->
  (0 <= fx_scale + fx_scale * p / (q * 2 ^ Z.of_nat k))%Z ->
  IZR (exp_lb p q k) / IZR fx_scale <= exp (IZR p / IZR q).
Proof.
  intros Hq Hm. pose proof fx_scale_pos as HS.
  set (m := (fx_scale + fx_scale * p / (q * 2 ^ Z.of_nat k))%Z) in *.
  set (x := IZR p / IZR q / INR (2 ^ k)).
  assert (Hq' : 0 < IZR q) by now apply IZR_lt.
  assert (H2k : 0 < INR (2 ^ k)).
  { apply lt_0_INR. apply Nat.neq_0_lt_0, Nat.pow_nonzero. discriminate. }
  assert (Hden : (0 < q * 2 ^ Z.of_nat k)%Z).
  { apply Z.mul_pos_pos; [assumption | apply Z.pow_pos_nonneg; lia]. }
  assert (Hden' : IZR (q * 2 ^ Z.of_nat k) = IZR q * INR (2 ^ k)).
  { rewrite mult_IZR. f_equal. rewrite <- pow_IZR, pow_INR. reflexivity. }
  assert (Hbase : IZR m / IZR fx_scale <= 1 + x).
  { unfold m. rewrite plus_IZR.
    assert (Hfl : IZR (fx_scale * p / (q * 2 ^ Z.of_nat k))
                  * IZR (q * 2 ^ Z.of_nat k) <= IZR fx_scale * IZR p).
    { rewrite <- !mult_IZR. apply IZR_le. rewrite Z.mul_comm.
      now apply Z.mul_div_le. }
    rewrite Hden' in Hfl.
    set (f := IZR (fx_scale * p / (q * 2 ^ Z.of_nat k))) in *.
    apply Rmult_le_reg_r with (IZR fx_scale * (IZR q * INR (2 ^ k)));
      [apply Rmult_lt_0_compat; [lra | now apply Rmult_lt_0_compat] |].
    unfold x.
    replace ((IZR fx_scale + f) / IZR fx_scale
             * (IZR fx_scale * (IZR q * INR (2 ^ k))))
      with (IZR fx_scale * (IZR q * INR (2 ^ k)) + f * (IZR q * INR (2 ^ k)))
      by (field; lra).
    replace ((1 + IZR p / IZR q / INR (2 ^ k))
             * (IZR fx_scale * (IZR q * INR (2 ^ k))))
      with (IZR fx_scale * (IZR q * INR (2 ^ k)) + IZR fx_scale * IZR p)
      by (field; lra).
    lra. }
  destruct (fx_iter_sound k m (1 + x) Hm Hbase) as [_ Hit].
  apply Rle_trans with (1 := Hit).
  apply Rle_trans with (exp x ^ (2 ^ k)).
  - apply pow_incr. split; [| apply exp_ineq1_le].
    apply Rle_trans with (2 := Hbase).
    apply Rmult_le_pos; [now apply IZR_le | left; now apply Rinv_0_lt_compat].
  - rewrite exp_pow. right. f_equal. unfold x. field. lra.
Qed.

(** [exp_lower p q k H] adds [H : N / 10^15 <= exp (p / q)], with the
    numeral [N] computed. *)
Ltac exp_lower p q k H :=
  pose proof (exp_lb_sound p q k eq_refl ltac:(vm_compute; discriminate)) as H;
  let N := eval vm_compute in (exp_lb p q k) in
  change (exp_lb p q k) with N in H;
  let S := eval vm_compute in fx_scale in
  change fx_scale with S in H.

Lemma sqrt_lower (a x : R) : 0 <= a -> a * a <= x -> a <= sqrt x.
Proof.
  intros Ha H. rewrite <- (sqrt_square a Ha). now apply sqrt_le_1_alt.
Qed.

Lemma sqrt_upper (a x : R) : 0 <= a -> x <= a * a -> sqrt x <= a.
Proof.
  intros Ha H. rewrite <- (sqrt_square a Ha). now apply sqrt_le_1_alt.
Qed.

Lemma sqrt_002_bounds : 0.14142135 <= sqrt 0.02 <= 0.14142136.
Proof. split; [apply sqrt_lower | apply sqrt_upper]; lra. Qed.

Lemma availableLength_monotone_witness :
  (mixerCoV (calculateMixing (set_availableLength (narrow_pipe (Fin 0)) (Fin 1)))
   <=? mixerCoV
         (calculateMixing (set_availableLength (narrow_pipe (Fin 0)) (Fin 0.5))))%num
  = true.
Proof.
  apply (availableLength_monotone (narrow_pipe (Fin 0)) 0.5 1).
  - unfold moderate_hydraulics, narrow_pipe; cbn. repeat split; moderate_field.
  - reflexivity.
  - lra.
  - lra.
  - lra.
Defined.

(** The narrow pipe: the clamped correlation for an effective length [l]
    (the available length, or 1 when it is zero). *)
Lemma narrow_pipe_mixerCoV (L l : R) :
  (Fin L || Fin 1)%num = Fin l ->
  mixerCoV (calculateMixing (narrow_pipe (Fin L)))
  = Fin (Rmin 1 (Rmax 0.0001 (2 * exp (-0.75 * sqrt 0.02 * (l / 0.01))))).
Proof.
  intros HL. cbn [mixerCoV calculateMixing].
  unfold Body.mixerCoV, Body.mixerCoV0, Body.mixer, Body.LD, Body.alpha,
    Body.Dh, Body.geometry, Body.Q_m3h, Body.totalInjLh, Body.d.
  cbn [narrow_pipe conduitType conduitShape mixerModel flowRate dimension
       availableLength chemicalFlow dilutionWaterFlow].
  rewrite HL. js_eval.
  replace (1 * 1000 / (1000 + 0)) with 1 by field.
  rewrite sqrt_1. replace 1.0 with 1 by lra. do 3 f_equal. ring.
Qed.

Lemma clamp_strict (a b : R) :
  a < b -> a < 1 -> 0.0001 < b ->
  Rmin 1 (Rmax 0.0001 a) < Rmin 1 (Rmax 0.0001 b).
Proof.
  intros Hab Ha Hb. rewrite (Rmax_right 0.0001 b) by lra.
  destruct (Rle_dec 0.0001 a) as [H | H].
  - rewrite (Rmax_right 0.0001 a) by assumption.
    rewrite (Rmin_right 1 a) by lra.
    apply Rmin_glb_lt; lra.
  - rewrite (Rmax_left 0.0001 a) by lra.
    rewrite (Rmin_right 1 0.0001) by lra.
    apply Rmin_glb_lt; lra.
Qed.

Lemma narrow_pipe_increase :
  Rmin 1 (Rmax 0.0001 (2 * exp (-0.75 * sqrt 0.02 * (1 / 0.01))))
  < Rmin 1 (Rmax 0.0001 (2 * exp (-0.75 * sqrt 0.02 * (0.5 / 0.01)))).
Proof.
  pose proof sqrt_002_bounds as [Hs1 Hs2].
  set (s := sqrt 0.02) in *.
  assert (HA : exp (-0.75 * s * (1 / 0.01)) < 0.4).
  { apply Rle_lt_trans with (exp (Ropp 2)).
    - left. apply exp_increasing. lra.
    - rewrite exp_Ropp. pose proof (exp_ineq1_le 2) as H2.
      apply Rmult_lt_reg_r with (exp 2); [apply exp_pos |].
      rewrite Rinv_l by (apply Rgt_not_eq, exp_pos). lra. }
  assert (HB : 0.004 < exp (-0.75 * s * (0.5 / 0.01))).
  { exp_lower (-5304)%Z 1000%Z 20%nat H.
    apply Rlt_le_trans with (exp (IZR (-5304) / IZR 1000)); [lra |].
    left. apply exp_increasing. lra. }
  assert (HAB : exp (-0.75 * s * (1 / 0.01)) < exp (-0.75 * s * (0.5 / 0.01))).
  { apply exp_increasing. lra. }
  apply clamp_strict; lra.
Qed.

(** C4, as stated, fails.  An available length of zero is read as 1 m: in
    the narrow pipe the mixerCoV is larger for an available length of 0.5 m
    than for an available length of 0 m.  With a negative injection flow
    the mixerCoV is NaN for every length, and NaN is not less than or equal
    to NaN. *)
Lemma availableLength_zero_not_monotone :
  mixerModel (narrow_pipe (Fin 0)) = NONE
  /\ 0 < 0.5
  /\ (mixerCoV (calculateMixing (set_availableLength (narrow_pipe (Fin 0)) (Fin 0.5)))
      <=? mixerCoV
            (calculateMixing (set_availableLength (narrow_pipe (Fin 0)) (Fin 0))))%num
     = false
  /\ (mixerCoV (calculateMixing (set_availableLength negative_flow (Fin 10)))
      <=? mixerCoV (calculateMixing (set_availableLength negative_flow (Fin 5))))%num
     = false.
Proof.
  split; [reflexivity |]. split; [lra |]. split.
  - change (set_availableLength (narrow_pipe (Fin 0)) (Fin 0.5))
      with (narrow_pipe (Fin 0.5)).
    change (set_availableLength (narrow_pipe (Fin 0)) (Fin 0))
      with (narrow_pipe (Fin 0)).
    rewrite (narrow_pipe_mixerCoV 0.5 0.5) by (apply or_else_Fin; lra).
    rewrite (narrow_pipe_mixerCoV 0 1) by apply or_else_zero.
    apply num_leb_Fin_false, narrow_pipe_increase.
  - cbn [mixerCoV calculateMixing]. unfold Body.mixerCoV.
    rewrite !natural_mixerCoV0 by reflexivity.
    rewrite negative_flow_alpha, Math_sqrt_neg by lra. reflexivity.
Qed.

(** ** The retry wrapper *)





(** ** The end-to-end scenario *)

Lemma PI_bounds : 3.1415926 < PI < 3.1415927.
Proof.
  pose proof (PI_2_3_7_ineq 3) as [Hlo Hhi].
  unfold sum_f_R0, tg_alt, PI_2_3_7_tg, Ratan_seq in Hlo, Hhi.
  cbn [Nat.mul Nat.add] in Hlo, Hhi.
  rewrite ?S_INR, ?INR_0 in Hlo, Hhi.
  cbn [pow INR] in Hlo, Hhi.
  split; lra.
Qed.

Section Scenario.
Variable n : num.

Lemma scn_d : Body.d (scenario n) = Fin 0.8.
Proof. unfold Body.d. cbn [dimension scenario]. js_eval. reflexivity. Qed.

Lemma scn_Q : Body.Q_m3h (scenario n) = Fin 1500.
Proof. unfold Body.Q_m3h. cbn [flowRate scenario]. js_eval. reflexivity. Qed.

Lemma scn_totalInjLh : Body.totalInjLh (scenario n) = Fin 210.
Proof.
  unfold Body.totalInjLh. cbn [chemicalFlow dilutionWaterFlow scenario].
  js_eval. f_equal. lra.
Qed.

Lemma scn_injDensity : Body.injDensity (scenario n) = Fin (214500 / 210).
Proof.
  unfold Body.injDensity, Body.waterDensity. rewrite scn_totalInjLh.
  cbn [chemicalFlow chemicalDensity dilutionWaterFlow scenario].
  js_eval. f_equal. lra.
Qed.

Lemma scn_injVisc :
  Body.injVisc (scenario n)
  = Fin (exp ((10 * ln 0.015 + 200 * ln 0.001) / 210)).
Proof.
  unfold Body.injVisc, Body.waterViscosity. rewrite scn_totalInjLh.
  cbn [chemicalFlow chemicalViscosity dilutionWaterFlow scenario].
  js_eval. reflexivity.
Qed.

Lemma scn_area : Body.area (scenario n) = Fin (PI * 0.16).
Proof.
  unfold Body.area, Body.geometry, Math_PI. rewrite scn_d.
  cbn [conduitType conduitShape scenario]. js_eval.
  rewrite Rpower_2 by lra. f_equal. lra.
Qed.

Lemma scn_Dh : Body.Dh (scenario n) = Fin 0.8.
Proof.
  unfold Body.Dh, Body.geometry. rewrite scn_d.
  cbn [conduitType conduitShape scenario]. js_eval. reflexivity.
Qed.

Lemma scn_velocity :
  Body.velocity (scenario n) = Fin (1500 / 3600 / (PI * 0.16)).
Proof.
  pose proof PI_RGT_0.
  unfold Body.velocity. rewrite scn_Q, scn_area. js_eval. reflexivity.
Qed.

Lemma scn_Re :
  Body.Re (scenario n)
  = Fin (1000 * (1500 / 3600 / (PI * 0.16)) * 0.8 / 0.001).
Proof.
  unfold Body.Re. rewrite scn_velocity, scn_Dh.
  cbn [density viscosity scenario]. js_eval. reflexivity.
Qed.

Lemma scn_alpha : Body.alpha (scenario n) = Fin (1500 * 1000 / 210).
Proof.
  unfold Body.alpha. rewrite scn_Q, scn_totalInjLh. js_eval. reflexivity.
Qed.

Lemma scn_LD : Body.LD (scenario n) = Fin (10 / 0.8).
Proof.
  unfold Body.LD. rewrite scn_Dh. cbn [availableLength scenario].
  js_eval. reflexivity.
Qed.

Lemma scn_mixerCoV0 :
  Body.mixerCoV0 (scenario n)
  = Fin (2 * sqrt (1500 * 1000 / 210) * exp (-0.75 * sqrt 0.02 * (10 / 0.8))).
Proof.
  unfold Body.mixerCoV0, Body.mixer. cbn [mixerModel scenario fst snd].
  rewrite scn_alpha, scn_LD. js_eval. reflexivity.
Qed.

Lemma scn_FD : Body.FD (scenario n) = Fin 0.02.
Proof. reflexivity. Qed.

Lemma scn_Lm : Body.Lm (scenario n) = Fin 10.
Proof. reflexivity. Qed.
Lemma scn_raw_CoV :
  1 <= 2 * sqrt (1500 * 1000 / 210) * exp (-0.75 * sqrt 0.02 * (10 / 0.8)).
Proof.
  pose proof sqrt_002_bounds as [Hs1 Hs2].
  assert (Ha : 84 <= sqrt (1500 * 1000 / 210)) by (apply sqrt_lower; lra).
  assert (He : 0.26 <= exp (-0.75 * sqrt 0.02 * (10 / 0.8))).
  { exp_lower (-133)%Z 100%Z 16%nat H.
    apply Rle_trans with (exp (IZR (-133) / IZR 100)); [lra |].
    left. apply exp_increasing. lra. }
  nra.
Qed.

Lemma scn_mixerCoV : Body.mixerCoV (scenario n) = Fin 1.
Proof.
  unfold Body.mixerCoV. rewrite scn_mixerCoV0, clamp_Fin.
  pose proof scn_raw_CoV as H.
  rewrite Rmax_right by lra. rewrite Rmin_left by lra. reflexivity.
Qed.

Lemma scn_headlossM :
  Body.headlossM (scenario n)
  = Fin (0.02 * 10 * (1500 / 3600 / (PI * 0.16) * (1500 / 3600 / (PI * 0.16)))
         / (2 * 9.81 * 0.8)).
Proof.
  pose proof PI_RGT_0 as Hpi.
  assert (Hv : 0 < 1500 / 3600 / (PI * 0.16)).
  { apply Rdiv_lt_0_compat; lra. }
  unfold Body.headlossM, Body.g.
  rewrite scn_FD, scn_Lm, scn_velocity, scn_Dh.
  rewrite Math_pow_Fin by lra. rewrite Rpower_2 by assumption.
  js_eval. reflexivity.
Qed.

Lemma scn_headlossKpa :
  Body.headlossKpa (scenario n)
  = Fin (0.02 * 10 * (1500 / 3600 / (PI * 0.16) * (1500 / 3600 / (PI * 0.16)))
         / (2 * 9.81 * 0.8) * 1000 * 9.81 / 1000).
Proof.
  unfold Body.headlossKpa, Body.g. rewrite scn_headlossM.
  cbn [density scenario]. js_eval. reflexivity.
Qed.

Lemma scn_tCoV : Body.tCoV (scenario n) = Fin 0.05.
Proof. unfold Body.tCoV. cbn [targetCoV scenario]. js_eval. reflexivity. Qed.

Lemma scn_mixingDistanceNeeded :
  Body.mixingDistanceNeeded (scenario n)
  = Fin (10 + ln (1 / 0.05) / (0.75 * sqrt 0.02) * 0.8).
Proof.
  pose proof sqrt_002_bounds as [Hs1 Hs2].
  unfold Body.mixingDistanceNeeded, Body.decay.
  rewrite scn_mixerCoV, scn_tCoV, scn_Lm, scn_Dh.
  rewrite (proj2 (num_leb_Fin_false 1 0.05)) by lra.
  cbn [conduitType scenario]. js_eval. reflexivity.
Qed.

Lemma scn_uInj :
  Body.uInj (scenario n) = Fin (210 / 3600000 / 1 / (PI * (0.0125 * 0.0125))).
Proof.
  pose proof PI_RGT_0 as Hpi.
  unfold Body.uInj, Body.totalInjM3s, Math_PI. rewrite scn_totalInjLh.
  cbn [injectionType scenario]. js_eval.
  rewrite Rpower_2 by lra. js_eval. reflexivity.
Qed.

Lemma scn_momentumRatio :
  Body.momentumRatio (scenario n)
  = Fin (sqrt (214500 / 210 / 1000)
         * (210 / 3600000 / 1 / (PI * (0.0125 * 0.0125)) * 0.025
            / (1500 / 3600 / (PI * 0.16) * 0.8))).
Proof.
  pose proof PI_RGT_0 as Hpi.
  assert (Hv : 0 < 1500 / 3600 / (PI * 0.16)).
  { apply Rdiv_lt_0_compat; lra. }
  unfold Body.momentumRatio.
  rewrite scn_injDensity, scn_uInj, scn_velocity, scn_Dh.
  cbn [density scenario]. js_eval. reflexivity.
Qed.
End Scenario.

(** C5, as stated, fails for a field that is read without a guard: an
    absent carrier density is not treated as zero.  On the initial state
    with a density of zero the Reynolds number is 0; with the density
    absent it is NaN, and the numeric fields of the result are not all
    finite. *)
Lemma absent_density_not_as_zero :
  reynoldsNumber (calculateMixing zero_density) = Fin 0
  /\ reynoldsNumber (calculateMixing absent_density) = NaN
  /\ all_finite (calculateMixing absent_density) = false.
Proof.
  pose proof PI_RGT_0 as Hpi.
  assert (ERe : forall x,
            Body.Re (assign (U_density x) initial_inputs)
            = (x * Fin (1500 / 3600 / (PI * 0.16)) * Fin 0.8 / Fin 0.001)%num).
  { intros x. unfold Body.Re.
    change (Body.velocity (assign (U_density x) initial_inputs))
      with (Body.velocity (scenario (Fin 4))).
    change (Body.Dh (assign (U_density x) initial_inputs))
      with (Body.Dh (scenario (Fin 4))).
    rewrite scn_velocity, scn_Dh.
    cbn [density viscosity assign initial_inputs scenario].
    now rewrite or_else_Fin by lra. }
  assert (Eabs : reynoldsNumber (calculateMixing absent_density) = NaN).
  { cbn [reynoldsNumber calculateMixing]. unfold absent_density.
    rewrite ERe. reflexivity. }
  split; [| split; [exact Eabs |]].
  - cbn [reynoldsNumber calculateMixing]. unfold zero_density.
    rewrite ERe. cbn [num_mul]. rewrite num_div_Fin by lra.
    f_equal. field. lra.
  - apply not_true_is_false. intros H. unfold all_finite in H.
    rewrite forallb_forall in H.
    specialize (H _ (or_intror (or_introl eq_refl))).
    rewrite Eabs in H. discriminate.
Qed.

(** *** The values of the scenario *)

Lemma approx_to_intro (x : num) (r v tol : R) :
  x = Fin r -> v - tol <= r <= v + tol -> approx_to x v tol.
Proof.
  intros -> H. exists r. split; [reflexivity |]. apply Rabs_le. lra.
Qed.

Lemma approx_to_elim (r v tol : R) :
  approx_to (Fin r) v tol -> v - tol <= r <= v + tol.
Proof.
  intros (r' & E & H). injection E as <-.
  unfold Rabs in H. destruct (Rcase_abs (r - v)); lra.
Qed.

Lemma div_lower (a x y : R) : 0 < y -> a * y <= x -> a <= x / y.
Proof.
  intros Hy H. apply Rmult_le_reg_r with y; [assumption |].
  unfold Rdiv. rewrite Rmult_assoc, Rinv_l by lra. lra.
Qed.

Lemma div_upper (b x y : R) : 0 < y -> x <= b * y -> x / y <= b.
Proof.
  intros Hy H. apply Rmult_le_reg_r with y; [assumption |].
  unfold Rdiv. rewrite Rmult_assoc, Rinv_l by lra. lra.
Qed.

Lemma scn_velocity_bounds :
  0.8289319 <= 1500 / 3600 / (PI * 0.16) <= 0.8289321.
Proof.
  pose proof PI_bounds as [H1 H2].
  split; [apply div_lower | apply div_upper]; lra.
Qed.

Lemma ln_lower (a y : R) (p q : Z) (N : Z) :
  0 < y -> a = IZR p / IZR q ->
  IZR N / IZR (10 ^ 15) <= exp (IZR (- p) / IZR q) ->
  / y <= IZR N / IZR (10 ^ 15) ->
  a <= ln y.
Proof.
  intros Hy -> Hexp Hinv.
  destruct (Rle_dec (IZR p / IZR q) (ln y)) as [H | H]; [assumption | exfalso].
  apply Rnot_le_lt in H. apply exp_increasing in H.
  rewrite exp_ln in H by assumption.
  replace (IZR (- p) / IZR q) with (- (IZR p / IZR q)) in Hexp
    by (rewrite opp_IZR; unfold Rdiv; ring).
  rewrite exp_Ropp in Hexp.
  assert (Hlt : / exp (IZR p / IZR q) < / y).
  { apply Rinv_lt_contravar; [| assumption].
    apply Rmult_lt_0_compat; [assumption | apply exp_pos]. }
  lra.
Qed.

Lemma ln_upper (b y : R) (p q : Z) (N : Z) :
  0 < y -> b = IZR p / IZR q ->
  IZR N / IZR (10 ^ 15) <= exp (IZR p / IZR q) ->
  y <= IZR N / IZR (10 ^ 15) ->
  ln y <= b.
Proof.
  intros Hy -> Hexp Hle.
  destruct (Rle_dec (ln y) (IZR p / IZR q)) as [H | H]; [assumption | exfalso].
  apply Rnot_le_lt in H. apply exp_increasing in H.
  rewrite exp_ln in H by assumption. lra.
Qed.

Lemma ln_20_bounds : 2.9957 <= ln (1 / 0.05) <= 2.9958.
Proof.
  split.
  - exp_lower (-29957)%Z 10000%Z 25%nat H.
    eapply (ln_lower _ _ 29957 10000); [lra | lra | exact H | lra].
  - exp_lower 29958%Z 10000%Z 25%nat H.
    eapply (ln_upper _ _ 29958 10000); [lra | lra | exact H | lra].
Qed.

Lemma ln_0015_bounds : -4.1998 <= ln 0.015 <= -4.1997.
Proof.
  split.
  - exp_lower 41998%Z 10000%Z 25%nat H.
    eapply (ln_lower _ _ (-41998) 10000); [lra | lra | exact H | lra].
  - exp_lower (-41997)%Z 10000%Z 25%nat H.
    eapply (ln_upper _ _ (-41997) 10000); [lra | lra | exact H | lra].
Qed.

Lemma ln_0001_bounds : -6.9078 <= ln 0.001 <= -6.9077.
Proof.
  split.
  - exp_lower 69078%Z 10000%Z 25%nat H.
    eapply (ln_lower _ _ (-69078) 10000); [lra | lra | exact H | lra].
  - exp_lower (-69077)%Z 10000%Z 25%nat H.
    eapply (ln_upper _ _ (-69077) 10000); [lra | lra | exact H | lra].
Qed.

Lemma mul_bounds (a1 a2 b1 b2 x y : R) :
  0 <= a1 <= x -> x <= a2 -> 0 <= b1 <= y -> y <= b2 ->
  a1 * b1 <= x * y <= a2 * b2.
Proof. intros. split; nra. Qed.

Lemma scn_injVisc_bounds :
  0.001137 <= exp ((10 * ln 0.015 + 200 * ln 0.001) / 210) <= 0.001138.
Proof.
  pose proof ln_0015_bounds as [Ha1 Ha2].
  pose proof ln_0001_bounds as [Hb1 Hb2].
  set (t := (10 * ln 0.015 + 200 * ln 0.001) / 210).
  assert (Ht : -6.7789 <= t <= -6.7787) by (unfold t; lra).
  split.
  - exp_lower (-67790)%Z 10000%Z 25%nat H.
    apply Rle_trans with (exp (IZR (-67790) / IZR 10000)); [lra |].
    left. apply exp_increasing. lra.
  - exp_lower 67786%Z 10000%Z 25%nat H.
    apply Rle_trans with (exp (Ropp (IZR 67786 / IZR 10000))).
    + left. apply exp_increasing. lra.
    + rewrite exp_Ropp.
      apply Rle_trans with (/ 878.8).
      * apply Rinv_le_contravar; lra.
      * lra.
Qed.

Lemma scn_headlossM_bounds :
  0.008755 <=
  0.02 * 10 * (1500 / 3600 / (PI * 0.16) * (1500 / 3600 / (PI * 0.16)))
  / (2 * 9.81 * 0.8) <= 0.008756.
Proof.
  pose proof scn_velocity_bounds as [Hv1 Hv2].
  set (v := 1500 / 3600 / (PI * 0.16)) in *.
  split; [apply div_lower | apply div_upper]; nra.
Qed.

Lemma scn_distance_bounds :
  32.59 <= 10 + ln (1 / 0.05) / (0.75 * sqrt 0.02) * 0.8 <= 32.60.
Proof.
  pose proof ln_20_bounds as [Hl1 Hl2].
  pose proof sqrt_002_bounds as [Hs1 Hs2].
  set (l := ln (1 / 0.05)) in *. set (s := sqrt 0.02) in *.
  assert (H : 28.24 <= l / (0.75 * s) <= 28.25).
  { split; [apply div_lower | apply div_upper]; nra. }
  lra.
Qed.

Lemma scn_time_bounds :
  39.31 <=
  (10 + ln (1 / 0.05) / (0.75 * sqrt 0.02) * 0.8) / (1500 / 3600 / (PI * 0.16))
  <= 39.33.
Proof.
  pose proof scn_distance_bounds as [Hd1 Hd2].
  pose proof scn_velocity_bounds as [Hv1 Hv2].
  set (dist := 10 + ln (1 / 0.05) / (0.75 * sqrt 0.02) * 0.8) in *.
  set (v := 1500 / 3600 / (PI * 0.16)) in *.
  split; [apply div_lower | apply div_upper]; nra.
Qed.

Lemma scn_momentumRatio_bounds :
  0.004527 <=
  sqrt (214500 / 210 / 1000)
  * (210 / 3600000 / 1 / (PI * (0.0125 * 0.0125)) * 0.025
     / (1500 / 3600 / (PI * 0.16) * 0.8)) <= 0.004529.
Proof.
  pose proof PI_bounds as [Hp1 Hp2].
  pose proof scn_velocity_bounds as [Hv1 Hv2].
  set (v := 1500 / 3600 / (PI * 0.16)) in *.
  assert (Hq : 1.01065 <= sqrt (214500 / 210 / 1000) <= 1.01066).
  { split; [apply sqrt_lower | apply sqrt_upper]; lra. }
  set (q := sqrt (214500 / 210 / 1000)) in *.
  assert (Hu : 0.118835 <= 210 / 3600000 / 1 / (PI * (0.0125 * 0.0125))
               <= 0.118836).
  { split; [apply div_lower | apply div_upper]; lra. }
  set (u := 210 / 3600000 / 1 / (PI * (0.0125 * 0.0125))) in *.
  assert (Hr : 0.0044799 <= u * 0.025 / (v * 0.8) <= 0.0044801).
  { split; [apply div_lower | apply div_upper]; nra. }
  set (r := u * 0.025 / (v * 0.8)) in *.
  split; nra.
Qed.

(** C1, as the code has it.  On the end-to-end record (whatever the element
    count, which natural mixing does not read) the engine returns a wetted
    area of 0.50265 m2, a hydraulic diameter of exactly 0.8 m, a velocity
    of 0.8289 m/s, a Reynolds number of 663,146, an injected density of
    1021.4 kg/m3, an injected viscosity of 0.00114 Pa s, a mixerCoV of
    exactly 1, a headloss of 0.00876 m and 0.0859 kPa, a mixing distance of
    32.6 m, a mixing time of 39.3 s, both compliance flags false, and a
    momentum ratio of 0.0045 with the regime 'Low'; each approximate value
    is within half a unit of its last digit. *)
Theorem end_to_end_scenario (n : num) :
  let res := calculateMixing (scenario n) in
  approx_to (wettedArea res) 0.50265 0.000005
  /\ hydraulicDiameter res = Fin 0.8
  /\ approx_to (velocity res) 0.8289 0.00005
  /\ approx_to (reynoldsNumber res) 663146 0.5
  /\ approx_to (injectedDensity res) 1021.4 0.05
  /\ approx_to (injectedViscosity res) 0.00114 0.000005
  /\ mixerCoV res = Fin 1
  /\ approx_to (headlossMeters res) 0.00876 0.000005
  /\ approx_to (headloss res) 0.0859 0.00005
  /\ approx_to (mixingDistanceNeeded res) 32.6 0.05
  /\ approx_to (mixingTimeNeeded res) 39.3 0.05
  /\ isCompliant res = false
  /\ isTimeCompliant res = false
  /\ approx_to (momentumRatio res) 0.0045 0.00005
  /\ momentumRegime res = "Low"%string.
Proof.
  pose proof PI_bounds as [Hp1 Hp2].
  pose proof scn_velocity_bounds as [Hv1 Hv2].
  pose proof scn_injVisc_bounds as [Hi1 Hi2].
  pose proof scn_headlossM_bounds as [Hh1 Hh2].
  pose proof scn_distance_bounds as [Hd1 Hd2].
  pose proof scn_time_bounds as [Ht1 Ht2].
  pose proof scn_momentumRatio_bounds as [Hm1 Hm2].
  cbn zeta.
  cbn [wettedArea hydraulicDiameter velocity reynoldsNumber injectedDensity
       injectedViscosity mixerCoV headlossMeters headloss mixingDistanceNeeded
       mixingTimeNeeded isCompliant isTimeCompliant momentumRatio
       momentumRegime calculateMixing].
  rewrite scn_area, scn_Dh, scn_velocity, scn_Re, scn_injDensity, scn_injVisc,
    scn_mixerCoV, scn_headlossM, scn_headlossKpa, scn_mixingDistanceNeeded,
    scn_tCoV, scn_momentumRatio.
  cbn [targetMixingTime scenario].
  rewrite num_div_Fin by lra.
  repeat split;
    try (eapply approx_to_intro; [reflexivity | lra]).
  - apply num_leb_Fin_false. lra.
  - apply num_leb_Fin_false. lra.
  - apply regime_of_low. lra.
Qed.

(** C1, as stated, fails on two values: the velocity of the scenario is
    below 0.8290 m/s, more than 0.0001 away from 0.8291, and its Reynolds
    number is below 663,146, more than 100 away from 663,256. *)
Lemma end_to_end_velocity_reynolds :
  ~ approx_to (velocity (calculateMixing (scenario (Fin 4)))) 0.8291 0.0001
  /\ ~ approx_to (reynoldsNumber (calculateMixing (scenario (Fin 4))))
         663256 100.
Proof.
  pose proof scn_velocity_bounds as [Hv1 Hv2].
  cbn [velocity reynoldsNumber calculateMixing].
  rewrite scn_velocity, scn_Re.
  split; intros H; apply approx_to_elim in H; lra.
Qed.

Lemma momentumRegime_thresholds_witness :
  momentumRegime (calculateMixing (scenario (Fin 4)))
  = regime_of (momentumRatio (calculateMixing (scenario (Fin 4))))
  /\ regime_of (Fin 0.16) = "Intermediate"%string
  /\ regime_of (Fin 0.24) = "Intermediate"%string.
Proof.
  pose proof (momentumRegime_thresholds (scenario (Fin 4))) as H.
  cbn zeta in H. repeat split; apply H.
Defined.

(** * Further properties of the engine *)

(** ** The required mixing distance *)

Lemma ln_pos_ratio (c t : R) : 0 < t -> t < c -> 0 < ln (c / t).
Proof.
  intros Ht Hc. rewrite <- ln_1. apply ln_increasing; [lra |].
  apply Rmult_lt_reg_r with t; [assumption |].
  unfold Rdiv. rewrite Rmult_assoc, Rinv_l by lra. lra.
Qed.

(** X1. On a record whose numeric fields are each zero or a finite number
    between 1e-9 and 1e9, the required mixing distance is a finite number
    that is never shorter than the effective mixing length Lm (the
    available length for natural mixing, the length of the elements for a
    static mixer), and it is Lm itself when the CoV target is met. *)
Theorem mixingDistanceNeeded_at_least_Lm (i : MixingInputs) :
  moderate_inputs i ->
  exists l m,
    Body.Lm i = Fin l
    /\ mixingDistanceNeeded (calculateMixing i) = Fin m
    /\ 0 <= l <= m
    /\ (isCompliant (calculateMixing i) = true -> m = l).
Proof.
  intros Hmod. pose proof (moderate_inputs_valid i Hmod) as Hvalid.
  destruct (valid_Lm i Hvalid) as (l & El & Hl).
  destruct (valid_mixerCoV i Hvalid) as (c & Ec & Hc).
  destruct (valid_tCoV i Hvalid) as (t & Et & Ht).
  destruct (valid_decay i) as (k & Ek & Hk).
  destruct (valid_Dh i Hvalid) as (dh & Edh & Hdh).
  cbn [mixingDistanceNeeded isCompliant calculateMixing].
  unfold Body.mixingDistanceNeeded. rewrite El, Ec, Et, Ek, Edh.
  destruct (Rle_dec c t) as [Hle | Hgt].
  - rewrite (proj2 (num_leb_Fin c t) Hle).
    exists l, l. repeat split; try lra; try discriminate.
  - apply Rnot_le_lt in Hgt.
    rewrite (proj2 (num_leb_Fin_false c t) Hgt).
    rewrite (num_div_Fin c t) by lra.
    rewrite Math_log_Fin by (apply Rdiv_lt_0_compat; lra).
    rewrite num_div_Fin by lra. cbn [num_mul num_add].
    pose proof (ln_pos_ratio c t Ht Hgt) as Hln.
    assert (Hterm : 0 < ln (c / t) / k * dh).
    { apply Rmult_lt_0_compat; [now apply Rdiv_lt_0_compat | assumption]. }
    exists l, (l + ln (c / t) / k * dh).
    repeat split; try lra; try discriminate.
Qed.

Lemma mixingDistanceNeeded_at_least_Lm_witness :
  exists l m,
    Body.Lm (scenario (Fin 4)) = Fin l
    /\ mixingDistanceNeeded (calculateMixing (scenario (Fin 4))) = Fin m
    /\ 0 <= l <= m
    /\ (isCompliant (calculateMixing (scenario (Fin 4))) = true -> m = l).
Proof.
  apply (mixingDistanceNeeded_at_least_Lm (scenario (Fin 4))).
  unfold moderate_inputs, moderate_hydraulics, scenario; cbn.
  repeat split; moderate_field.
Defined.

(** ** The element count of a static mixer *)

Lemma assign_numElements_valid (i : MixingInputs) (n : R) :
  valid_inputs i -> 0 <= n -> valid_inputs (assign (U_numElements (Fin n)) i).
Proof.
  intros Hv Hn. unfold valid_inputs in *. cbn.
  repeat split; try apply Hv. now apply nonneg_Fin.
Qed.

Lemma Rpower_decreasing_base (x y e : R) :
  0 < x -> x <= y -> e < 0 -> Rpower y e <= Rpower x e.
Proof.
  intros Hx Hxy He. unfold Rpower.
  destruct (Req_dec_T x y) as [-> | Hne]; [lra |].
  left. apply exp_increasing.
  assert (ln x < ln y) by (apply ln_increasing; lra). nra.
Qed.

Lemma clamp_PInf : Math_min (Fin 1.0) (Math_max (Fin 0.0001) PInf) = Fin 1.0.
Proof. reflexivity. Qed.

(** The clamped value of [A n^e], for a negative exponent, does not
    increase with [n]. *)
Lemma clamp_pow_monotone (A : num) (e n1 n2 : R) :
  pos_or_inf A -> e < 0 -> 0 <= n1 <= n2 ->
  (Math_min (Fin 1.0) (Math_max (Fin 0.0001) (A * Math_pow (Fin n2) (Fin e)))
   <=? Math_min (Fin 1.0)
         (Math_max (Fin 0.0001) (A * Math_pow (Fin n1) (Fin e))))%num = true.
Proof.
  intros HA He [H1 H12].
  destruct (Req_dec_T n1 0) as [-> | Hnz].
  - rewrite (Math_pow_zero_neg e He).
    assert (E : (A * PInf)%num = PInf).
    { destruct HA as [-> | (a & -> & Ha)]; [reflexivity |].
      simpl. now rewrite Rsign_pos. }
    rewrite E, clamp_PInf.
    assert (HP : pos_or_inf (A * Math_pow (Fin n2) (Fin e))%num).
    { apply pos_or_inf_mul; [assumption |].
      apply pos_or_inf_pow_neg; [apply nonneg_Fin; lra | assumption]. }
    destruct (clamp_range _ (pos_or_inf_not_NaN _ HP)) as (c & -> & Hc).
    apply num_leb_Fin. lra.
  - rewrite !Math_pow_Fin by lra.
    assert (Hp : Rpower n2 e <= Rpower n1 e)
      by (apply Rpower_decreasing_base; lra).
    destruct HA as [-> | (a & -> & Ha)].
    + cbn [num_mul]. rewrite !Rsign_pos by apply exp_pos.
      cbn [signed_inf]. rewrite clamp_PInf. apply num_leb_Fin. lra.
    + cbn [num_mul]. rewrite !clamp_Fin. apply num_leb_Fin, clamp_mono.
      apply Rmult_le_compat_l; lra.
Qed.

Lemma static_coefficient (i : MixingInputs) :
  valid_inputs i ->
  pos_or_inf
    ((if InjectionType_eqb (injectionType i) SINGLE then Fin 0.96 else Fin 0.38)
     * Math_pow (Body.Re i) (Fin (-0.1)))%num
  /\ pos_or_inf (Fin 31.5 * Math_pow (Body.Re i) (Fin (-0.2)))%num
  /\ pos_or_inf (Fin 0.29 * Math_pow (Body.Re i) (Fin (-0.2)))%num.
Proof.
  intros Hv. pose proof (valid_Re i Hv) as HRe.
  repeat split; apply pos_or_inf_mul;
    try (apply pos_or_inf_pow_neg; [assumption | lra]);
    try destruct (InjectionType_eqb (injectionType i) SINGLE);
    apply pos_or_inf_positive, positive_Fin; lra.
Qed.

Lemma numElements_velocity (i : MixingInputs) (x : num) :
  Body.velocity (assign (U_numElements x) i) = Body.velocity i.
Proof. reflexivity. Qed.

Lemma numElements_Dh (i : MixingInputs) (x : num) :
  Body.Dh (assign (U_numElements x) i) = Body.Dh i.
Proof. reflexivity. Qed.

Lemma numElements_Re (i : MixingInputs) (x : num) :
  Body.Re (assign (U_numElements x) i) = Body.Re i.
Proof. reflexivity. Qed.

Lemma static_headlossM (i : MixingInputs) (n : R) :
  valid_inputs i -> mixerModel i <> NONE -> 0 <= n ->
  exists c, 0 <= c
    /\ forall m, Body.headlossM (assign (U_numElements (Fin m)) i) = Fin (c * m).
Proof.
  intros Hv HM Hn.
  destruct (valid_velocity i Hv) as (v & Ev & Hvpos).
  destruct (valid_Dh i Hv) as (dh & Edh & Hdh).
  assert (Hsq : 0 < Rpower v 2) by apply exp_pos.
  assert (Hgen : forall fd k, 0 < fd -> 0 < k ->
            0 <= fd * k * dh * Rpower v 2 / (2 * 9.81 * dh)).
  { intros fd k Hfd Hk. apply Rmult_le_pos.
    - repeat apply Rmult_le_pos; lra.
    - left. apply Rinv_0_lt_compat. lra. }
  destruct (mixerModel i) eqn:EM; [contradiction | | |].
  - exists (1.8 * 1.5 * dh * Rpower v 2 / (2 * 9.81 * dh)).
    split; [apply Hgen; lra |]. intros m.
    unfold Body.headlossM, Body.g.
    rewrite numElements_velocity, numElements_Dh, Ev, Edh.
    unfold Body.FD, Body.Lm, Body.mixer. rewrite numElements_Dh, Edh.
    cbn [mixerModel assign]. rewrite EM. cbn [fst snd numElements].
    rewrite Math_pow_Fin by lra. cbn [num_mul].
    rewrite num_div_Fin by lra. f_equal. field. lra.
  - exists (0.6 * 1 * dh * Rpower v 2 / (2 * 9.81 * dh)).
    split; [apply Hgen; lra |]. intros m.
    unfold Body.headlossM, Body.g.
    rewrite numElements_velocity, numElements_Dh, Ev, Edh.
    unfold Body.FD, Body.Lm, Body.mixer. rewrite numElements_Dh, Edh.
    cbn [mixerModel assign]. rewrite EM. cbn [fst snd numElements].
    rewrite Math_pow_Fin by lra. cbn [num_mul].
    rewrite num_div_Fin by lra. f_equal. field. lra.
  - exists (4.15 * 0.8 * dh * Rpower v 2 / (2 * 9.81 * dh)).
    split; [apply Hgen; lra |]. intros m.
    unfold Body.headlossM, Body.g.
    rewrite numElements_velocity, numElements_Dh, Ev, Edh.
    unfold Body.FD, Body.Lm, Body.mixer. rewrite numElements_Dh, Edh.
    cbn [mixerModel assign]. rewrite EM. cbn [fst snd numElements].
    rewrite Math_pow_Fin by lra. cbn [num_mul].
    rewrite num_div_Fin by lra. f_equal. field. lra.
Qed.

(** X2. With a static mixer (Kenics KM, HEV or STM) on a record whose
    numeric fields are each zero or a finite number between 1e-9 and 1e9,
    adding elements never increases the returned mixerCoV and never
    decreases the returned headloss: for element counts
    1e-9 <= n1 <= n2 <= 1e9, all other fields fixed, mixerCoV at n2 is at
    most mixerCoV at n1 and headlossMeters at n1 is at most headlossMeters
    at n2. *)
Theorem more_elements_trade_off (i : MixingInputs) (n1 n2 : R) :
  moderate_inputs i -> mixerModel i <> NONE ->
  1e-9 <= n1 -> n1 <= n2 -> n2 <= 1e9 ->
  (mixerCoV (calculateMixing (assign (U_numElements (Fin n2)) i))
   <=? mixerCoV (calculateMixing (assign (U_numElements (Fin n1)) i)))%num
  = true
  /\ (headlossMeters (calculateMixing (assign (U_numElements (Fin n1)) i))
      <=? headlossMeters (calculateMixing (assign (U_numElements (Fin n2)) i)))%num
     = true.
Proof.
  intros Hmod HM H1 H12 H2.
  pose proof (moderate_inputs_valid i Hmod) as Hv.
  assert (Hn : 0 <= n1 <= n2) by lra.
  destruct (static_coefficient i Hv) as (HK & HH & HS).
  destruct (static_headlossM i n1 Hv HM (proj1 Hn)) as (c & Hc & Hhl).
  cbn [mixerCoV headlossMeters calculateMixing].
  split.
  - unfold Body.mixerCoV, Body.mixerCoV0, Body.mixer.
    rewrite !numElements_Re. cbn [mixerModel assign].
    destruct (mixerModel i) eqn:EM; [contradiction | | |];
      cbn [fst snd numElements injectionType];
      apply clamp_pow_monotone; (assumption || lra).
  - rewrite !Hhl. apply num_leb_Fin. nra.
Qed.

Lemma more_elements_trade_off_witness :
  (mixerCoV (calculateMixing
     (assign (U_numElements (Fin 6)) (assign (U_mixerModel HEV) (scenario (Fin 4)))))
   <=? mixerCoV (calculateMixing
         (assign (U_numElements (Fin 2))
            (assign (U_mixerModel HEV) (scenario (Fin 4))))))%num = true.
Proof.
  apply (more_elements_trade_off (assign (U_mixerModel HEV) (scenario (Fin 4))) 2 6).
  - unfold moderate_inputs, moderate_hydraulics, scenario; cbn.
    repeat split; moderate_field.
  - discriminate.
  - lra.
  - lra.
  - lra.
Defined.

Lemma is_int_false (e : R) : (forall z : Z, IZR z <> e) -> is_int e = false.
Proof.
  intros H. unfold is_int.
  destruct (Req_dec_T (IZR (Int_part e)) e) as [E | _]; [| reflexivity].
  now apply H in E.
Qed.

Lemma tenths_not_int (k : Z) :
  (k mod 10 <> 0)%Z -> forall z : Z, IZR z <> IZR k / 10.
Proof.
  intros Hk z E.
  assert (E' : IZR (10 * z) = IZR k) by (rewrite mult_IZR, E; field).
  apply eq_IZR in E'. subst k.
  rewrite Z.mul_comm, Z.mod_mul in Hk by lia. contradiction.
Qed.

Lemma Math_pow_negative_base (n e : R) :
  n < 0 -> e <> 0 -> is_int e = false -> Math_pow (Fin n) (Fin e) = NaN.
Proof.
  intros Hn He Hi. simpl. rewrite (Rsign_neg n Hn), Hi.
  destruct (Rsign e) eqn:E; trivial.
  apply Rsign_Eq_inv in E. contradiction.
Qed.

Lemma num_mul_NaN_r (a : num) : (a * NaN)%num = NaN.
Proof. now destruct a. Qed.

(** X3. With a static mixer and a negative element count (which the
    element field of the application accepts), the correlation raises a
    negative number to a fractional power: the returned mixerCoV is NaN,
    not a value of [0.0001, 1.0], and the record is reported as not
    compliant, whatever the other fields. *)
Theorem negative_elements_NaN (i : MixingInputs) (n : R) :
  mixerModel i <> NONE -> numElements i = Fin n -> n < 0 ->
  mixerCoV (calculateMixing i) = NaN
  /\ isCompliant (calculateMixing i) = false.
Proof.
  intros HM En Hn.
  assert (E : Body.mixerCoV i = NaN).
  { unfold Body.mixerCoV, Body.mixerCoV0, Body.mixer. rewrite En.
    destruct (mixerModel i); [contradiction | | |]; cbn [fst snd];
      rewrite Math_pow_negative_base, num_mul_NaN_r; trivial; try lra;
      apply is_int_false.
    - replace (-1.9) with (IZR (-19) / 10) by lra.
      apply tenths_not_int. discriminate.
    - replace (-1.7) with (IZR (-17) / 10) by lra.
      apply tenths_not_int. discriminate.
    - replace (-0.6) with (IZR (-6) / 10) by lra.
      apply tenths_not_int. discriminate. }
  cbn [mixerCoV isCompliant calculateMixing]. rewrite E. now split.
Qed.

Lemma negative_elements_NaN_witness :
  mixerCoV (calculateMixing
              (assign (U_numElements (Fin (-1)))
                 (assign (U_mixerModel KENICS_KM) initial_inputs))) = NaN.
Proof.
  apply (negative_elements_NaN
           (assign (U_numElements (Fin (-1)))
              (assign (U_mixerModel KENICS_KM) initial_inputs)) (-1)).
  - discriminate.
  - reflexivity.
  - lra.
Defined.

(** X4. With a static mixer and an element count of zero, on a record
    whose other numeric fields are each zero or a finite number between
    1e-9 and 1e9, the mixer does nothing: the returned mixerCoV is exactly
    1 and the returned headloss is exactly 0 m. *)
Theorem zero_elements_no_mixing (i : MixingInputs) :
  moderate_inputs i -> mixerModel i <> NONE ->
  mixerCoV (calculateMixing (assign (U_numElements (Fin 0)) i)) = Fin 1
  /\ headlossMeters (calculateMixing (assign (U_numElements (Fin 0)) i))
     = Fin 0.
Proof.
  intros Hmod HM. pose proof (moderate_inputs_valid i Hmod) as Hv.
  destruct (static_coefficient i Hv) as (HK & HH & HS).
  destruct (static_headlossM i 0 Hv HM (Rle_refl 0)) as (c & Hc & Hhl).
  cbn [mixerCoV headlossMeters calculateMixing]. split.
  - assert (Hinf : forall A, pos_or_inf A -> (A * PInf)%num = PInf).
    { intros A [-> | (a & -> & Ha)]; [reflexivity |].
      simpl. now rewrite Rsign_pos. }
    unfold Body.mixerCoV, Body.mixerCoV0, Body.mixer.
    rewrite !numElements_Re. cbn [mixerModel assign].
    destruct (mixerModel i); [contradiction | | |];
      cbn [fst snd numElements injectionType];
      rewrite Math_pow_zero_neg by lra;
      rewrite Hinf by assumption; rewrite clamp_PInf; f_equal; lra.
  - rewrite Hhl. f_equal. ring.
Qed.

Lemma zero_elements_no_mixing_witness :
  mixerCoV (calculateMixing
              (assign (U_numElements (Fin 0))
                 (assign (U_mixerModel STM) (scenario (Fin 4))))) = Fin 1.
Proof.
  apply (zero_elements_no_mixing (assign (U_mixerModel STM) (scenario (Fin 4)))).
  - unfold moderate_inputs, moderate_hydraulics, scenario; cbn.
    repeat split; moderate_field.
  - discriminate.
Defined.

(** ** Single and twin injection *)

Lemma injectionType_unread (i : MixingInputs) (t : InjectionType) :
  Body.injDensity (assign (U_injectionType t) i) = Body.injDensity i
  /\ Body.velocity (assign (U_injectionType t) i) = Body.velocity i
  /\ Body.Dh (assign (U_injectionType t) i) = Body.Dh i
  /\ Body.totalInjM3s (assign (U_injectionType t) i) = Body.totalInjM3s i
  /\ Body.Re (assign (U_injectionType t) i) = Body.Re i.
Proof. repeat split. Qed.

(** X5. On a record whose numeric fields are each zero or a finite number
    between 1e-9 and 1e9, with a carrier density that is not zero, twin
    injection halves the momentum ratio of single injection, all other
    fields fixed. *)
Theorem twin_halves_momentumRatio (i : MixingInputs) :
  moderate_inputs i -> positive (density i) ->
  exists m, 0 <= m
    /\ momentumRatio (calculateMixing (assign (U_injectionType SINGLE) i))
       = Fin m
    /\ momentumRatio (calculateMixing (assign (U_injectionType TWIN) i))
       = Fin (m / 2).
Proof.
  intros Hmod (rho & Erho & Hrho).
  pose proof (moderate_inputs_valid i Hmod) as Hv.
  destruct (valid_injDensity i Hv) as (dj & Edj & Hdj).
  destruct (valid_velocity i Hv) as (v & Ev & Hvel).
  destruct (valid_Dh i Hv) as (dh & Edh & Hdh).
  destruct (valid_totalInjLh i Hv) as (tot & Etot & Htot).
  assert (Hq : 0 <= dj / rho).
  { apply Rmult_le_pos; [lra | left; now apply Rinv_0_lt_compat]. }
  pose proof PI_RGT_0 as Hpi.
  assert (Hvd : 0 < v * dh) by now apply Rmult_lt_0_compat.
  assert (Hs : 0 <= sqrt (dj / rho)) by apply sqrt_pos.
  assert (Ht : 0 <= tot / 3600000) by lra.
  assert (Hgen : forall t,
    Body.momentumRatio (assign (U_injectionType t) i)
    = (Fin (sqrt (dj / rho))
       * (((Fin (tot / 3600000)
            / (if InjectionType_eqb t TWIN then Fin 2 else Fin 1))
           / Fin (PI * (0.0125 * 0.0125)))
          * Fin 0.025 / Fin (v * dh)))%num).
  { intros t. unfold Body.momentumRatio, Body.uInj, Math_PI.
    destruct (injectionType_unread i t) as (-> & -> & -> & -> & _).
    cbn [density injectionType assign].
    unfold Body.totalInjM3s. rewrite Edj, Erho, Ev, Edh, Etot.
    js_eval. rewrite Rpower_2 by lra. reflexivity. }
  exists (sqrt (dj / rho)
          * (tot / 3600000 / 1 / (PI * (0.0125 * 0.0125)) * 0.025 / (v * dh))).
  cbn [momentumRatio calculateMixing].
  rewrite !Hgen. cbn [InjectionType_eqb]. js_eval.
  repeat split.
  - apply Rmult_le_pos; [assumption |].
    apply Rmult_le_pos; [| left; now apply Rinv_0_lt_compat].
    apply Rmult_le_pos; [| lra].
    apply Rmult_le_pos; [lra |]. left. apply Rinv_0_lt_compat. nra.
  - f_equal. field. lra.
Qed.

Lemma twin_halves_momentumRatio_witness :
  exists m, 0 <= m
    /\ momentumRatio
         (calculateMixing (assign (U_injectionType SINGLE) (scenario (Fin 4))))
       = Fin m
    /\ momentumRatio
         (calculateMixing (assign (U_injectionType TWIN) (scenario (Fin 4))))
       = Fin (m / 2).
Proof.
  apply (twin_halves_momentumRatio (scenario (Fin 4))).
  - unfold moderate_inputs, moderate_hydraulics, scenario; cbn.
    repeat split; moderate_field.
  - exists 1000. split; [reflexivity | lra].
Defined.

(** X6. With a Kenics KM mixer on a record whose numeric fields are each
    zero or a finite number between 1e-9 and 1e9, twin injection never
    gives a larger mixerCoV than single injection, all other fields
    fixed. *)
Theorem kenics_twin_at_most_single (i : MixingInputs) :
  moderate_inputs i -> mixerModel i = KENICS_KM ->
  (mixerCoV (calculateMixing (assign (U_injectionType TWIN) i))
   <=? mixerCoV (calculateMixing (assign (U_injectionType SINGLE) i)))%num
  = true.
Proof.
  intros Hmod HM. pose proof (moderate_inputs_valid i Hmod) as Hv.
  assert (HP : pos_or_inf (Math_pow (Body.Re i) (Fin (-0.1)))).
  { apply pos_or_inf_pow_neg; [now apply valid_Re | lra]. }
  assert (HQ : pos_or_inf (Math_pow (numElements i) (Fin (-1.9)))).
  { apply pos_or_inf_pow_neg; [valid_field | lra]. }
  cbn [mixerCoV calculateMixing].
  unfold Body.mixerCoV, Body.mixerCoV0, Body.mixer.
  destruct (injectionType_unread i TWIN) as (_ & _ & _ & _ & ->).
  destruct (injectionType_unread i SINGLE) as (_ & _ & _ & _ & ->).
  cbn [mixerModel assign]. rewrite HM.
  cbn [fst snd numElements injectionType InjectionType_eqb].
  destruct HP as [-> | (p & -> & Hp)], HQ as [-> | (q & -> & Hq)];
    cbn [num_mul];
    repeat first [ rewrite Rsign_pos by nra
                 | progress cbn [signed_inf num_mul] ];
    rewrite ?clamp_PInf, ?clamp_Fin; apply num_leb_Fin;
    try lra.
  apply clamp_mono. nra.
Qed.

Lemma kenics_twin_at_most_single_witness :
  (mixerCoV (calculateMixing
     (assign (U_injectionType TWIN)
        (assign (U_mixerModel KENICS_KM) (scenario (Fin 4)))))
   <=? mixerCoV (calculateMixing
         (assign (U_injectionType SINGLE)
            (assign (U_mixerModel KENICS_KM) (scenario (Fin 4))))))%num
  = true.
Proof.
  apply (kenics_twin_at_most_single
           (assign (U_mixerModel KENICS_KM) (scenario (Fin 4)))).
  - unfold moderate_inputs, moderate_hydraulics, scenario; cbn.
    repeat split; moderate_field.
  - reflexivity.
Defined.

(** ** The floor of the flow rate *)

Lemma Q_m3h_floor (i : MixingInputs) (v : num) :
  (v = NaN \/ v = NInf \/ exists q, v = Fin q /\ q <= 1) ->
  Body.Q_m3h (assign (U_flowRate v) i) = Fin 1.
Proof.
  assert (H11 : Rmax 1 1 = 1) by (apply Rmax_left; lra).
  unfold Body.Q_m3h. cbn [flowRate assign].
  intros [-> | [-> | (q & -> & Hq)]].
  - rewrite or_else_NaN. simpl. now rewrite H11.
  - reflexivity.
  - destruct (Req_dec_T q 0) as [-> | Hnz].
    + rewrite or_else_zero. simpl. now rewrite H11.
    + rewrite or_else_Fin by assumption. simpl. now rewrite Rmax_right.
Qed.

(** The flow rate is read through [Q_m3h] only. *)
Lemma flowRate_through_Q_m3h (i : MixingInputs) (v1 v2 : num) :
  Body.Q_m3h (assign (U_flowRate v1) i) = Body.Q_m3h (assign (U_flowRate v2) i) ->
  calculateMixing (assign (U_flowRate v1) i)
  = calculateMixing (assign (U_flowRate v2) i).
Proof.
  intros EQ.
  set (i1 := assign (U_flowRate v1) i) in *.
  set (i2 := assign (U_flowRate v2) i) in *.
  assert (Ev : Body.velocity i1 = Body.velocity i2)
    by (unfold Body.velocity; now rewrite EQ).
  assert (ERe : Body.Re i1 = Body.Re i2)
    by (unfold Body.Re; now rewrite Ev).
  assert (Ea : Body.alpha i1 = Body.alpha i2)
    by (unfold Body.alpha; now rewrite EQ).
  assert (Em : Body.mixer i1 = Body.mixer i2)
    by (unfold Body.mixer; now rewrite ERe, Ea).
  assert (Ec : Body.mixerCoV i1 = Body.mixerCoV i2)
    by (unfold Body.mixerCoV, Body.mixerCoV0; now rewrite Em).
  assert (EFD : Body.FD i1 = Body.FD i2) by (unfold Body.FD; now rewrite Em).
  assert (ELm : Body.Lm i1 = Body.Lm i2) by (unfold Body.Lm; now rewrite Em).
  assert (Eh : Body.headlossM i1 = Body.headlossM i2)
    by (unfold Body.headlossM; now rewrite EFD, ELm, Ev).
  assert (Ek : Body.headlossKpa i1 = Body.headlossKpa i2)
    by (unfold Body.headlossKpa; now rewrite Eh).
  assert (Eg : Body.gValue i1 = Body.gValue i2)
    by (unfold Body.gValue; now rewrite Ek, EQ, ELm).
  assert (Ed : Body.mixingDistanceNeeded i1 = Body.mixingDistanceNeeded i2)
    by (unfold Body.mixingDistanceNeeded; now rewrite Ec, ELm).
  assert (Er : Body.momentumRatio i1 = Body.momentumRatio i2)
    by (unfold Body.momentumRatio; now rewrite Ev).
  unfold calculateMixing. rewrite Ev, ERe, Er, Ec, Ed, Ek, Eh, Eg.
  reflexivity.
Qed.

(** X7. The flow rate is floored at 1 m3/h before anything reads it: a
    flow rate of at most 1 (zero, negative, -Infinity) or an absent one
    gives exactly the result of a flow rate of 1, all other fields
    fixed. *)
Theorem flowRate_floored_at_one (i : MixingInputs) (v : num) :
  (v = NaN \/ v = NInf \/ exists q, v = Fin q /\ q <= 1) ->
  calculateMixing (assign (U_flowRate v) i)
  = calculateMixing (assign (U_flowRate (Fin 1)) i).
Proof.
  intros H. apply flowRate_through_Q_m3h.
  rewrite (Q_m3h_floor i v H). symmetry. apply Q_m3h_floor.
  right. right. exists 1. split; [reflexivity | lra].
Qed.

Lemma flowRate_floored_at_one_witness :
  calculateMixing (assign (U_flowRate (Fin 0)) initial_inputs)
  = calculateMixing (assign (U_flowRate (Fin 1)) initial_inputs).
Proof.
  apply (flowRate_floored_at_one initial_inputs (Fin 0)).
  right. right. exists 0. split; [reflexivity | lra].
Defined.

Lemma close_to_eq (x y : R) : x = y -> close_to x y.
Proof.
  intros ->. unfold close_to. replace (y - y) with 0 by ring.
  rewrite Rabs_R0. pose proof (Rabs_pos y). lra.
Qed.

(** X8. Continuity: on a record whose numeric fields are each zero or a
    finite number between 1e-9 and 1e9, the returned velocity times the
    returned wetted area is, to within one part in 1e12, the flow rate,
    floored at 1 m3/h, in m3/s. *)
Theorem velocity_times_area (i : MixingInputs) :
  moderate_inputs i ->
  exists q v a,
    flowRate i = Fin q
    /\ velocity (calculateMixing i) = Fin v
    /\ wettedArea (calculateMixing i) = Fin a
    /\ close_to (v * a) (Rmax q 1 / 3600).
Proof.
  intros Hmod. pose proof (moderate_inputs_valid i Hmod) as Hv.
  assert (Hq : nonneg (flowRate i)) by valid_field.
  destruct Hq as (q & Eflow & Hq).
  destruct (valid_area i Hv) as (a & Ea & Ha).
  exists q, (Rmax q 1 / 3600 / a), a.
  cbn [velocity wettedArea calculateMixing].
  unfold Body.velocity, Body.Q_m3h. rewrite Eflow. rewrite !Ea.
  split; [reflexivity |].
  split; [| split; [reflexivity | apply close_to_eq; field; lra]].
  rewrite (or_else_Fin a) by lra.
  destruct (Req_dec_T q 0) as [-> | Hnz].
  - rewrite or_else_zero. cbn [Math_max]. rewrite !num_div_Fin by lra.
    rewrite (Rmax_left 1 1), (Rmax_right 0 1) by lra. reflexivity.
  - rewrite or_else_Fin by assumption. cbn [Math_max].
    now rewrite !num_div_Fin by lra.
Qed.

Lemma velocity_times_area_witness :
  exists q v a,
    flowRate (scenario (Fin 4)) = Fin q
    /\ velocity (calculateMixing (scenario (Fin 4))) = Fin v
    /\ wettedArea (calculateMixing (scenario (Fin 4))) = Fin a
    /\ close_to (v * a) (Rmax q 1 / 3600).
Proof.
  apply (velocity_times_area (scenario (Fin 4))).
  unfold moderate_inputs, moderate_hydraulics, scenario; cbn.
  repeat split; moderate_field.
Defined.

(** ** Inputs that a configuration does not read *)

(** X9. Which inputs count depends on the configuration: with a static
    mixer the available length has no effect on the result; with natural
    mixing the element count has none; for a circular pipe the depth has
    none. *)
Theorem inputs_not_read (i : MixingInputs) :
  (mixerModel i <> NONE ->
   forall L, calculateMixing (set_availableLength i L) = calculateMixing i)
  /\ (mixerModel i = NONE ->
      forall n, calculateMixing (assign (U_numElements n) i)
                = calculateMixing i)
  /\ (conduitType i = PIPE -> conduitShape i = CIRCULAR ->
      forall h, calculateMixing (assign (U_depth h) i) = calculateMixing i).
Proof.
  destruct i as [ct cs mm ne fr dm dp al vi de cf cd cv dw tc tt it].
  cbn [mixerModel conduitType conduitShape]. repeat split.
  - intros HM L. destruct mm; [contradiction | reflexivity ..].
  - intros -> n. reflexivity.
  - intros -> -> h. reflexivity.
Qed.

Lemma inputs_not_read_witness :
  calculateMixing (assign (U_depth (Some (Fin 3))) initial_inputs)
  = calculateMixing initial_inputs.
Proof.
  apply (inputs_not_read initial_inputs); reflexivity.
Defined.

(** ** The hydraulic diameter *)

(** X10. For a finite dimension and depth of at most 1e9 m, the returned
    hydraulic diameter is, to within one part in 1e12, four times the
    returned wetted area over the wetted perimeter: the circumference for
    a circular pipe, the four sides for a rectangular duct, the bottom and
    the two sides for an open channel (dimension and depth floored at
    0.001 m). *)
Theorem hydraulicDiameter_is_4A_over_P (i : MixingInputs) (x y : R) :
  dimension i = Fin x -> depth i = Some (Fin y) ->
  x <= 1e9 -> y <= 1e9 ->
  exists D A P,
    hydraulicDiameter (calculateMixing i) = Fin D
    /\ wettedArea (calculateMixing i) = Fin A
    /\ P = wetted_perimeter (conduitType i) (conduitShape i)
             (Rmax x 0.001) (Rmax y 0.001)
    /\ 0 < P
    /\ close_to D (4 * A / P).
Proof.
  intros Hx Hy _ _. pose proof (geometry_finite i x y Hx Hy) as H.
  cbn zeta in H. cbn [hydraulicDiameter wettedArea calculateMixing] in H |- *.
  assert (Hd : 0.001 <= Rmax x 0.001) by apply Rmax_r.
  assert (Hh : 0.001 <= Rmax y 0.001) by apply Rmax_r.
  pose proof PI_RGT_0 as Hpi.
  set (d := Rmax x 0.001) in *. set (h := Rmax y 0.001) in *.
  unfold wetted_perimeter.
  destruct (conduitType i), (conduitShape i);
    injection H as -> ->;
    do 3 eexists; (split; [reflexivity |]); (split; [reflexivity |]);
    (split; [reflexivity |]); (split; [nra |]); apply close_to_eq; field; nra.
Qed.

Lemma hydraulicDiameter_is_4A_over_P_witness :
  exists D A P,
    hydraulicDiameter (calculateMixing (scenario (Fin 4))) = Fin D
    /\ wettedArea (calculateMixing (scenario (Fin 4))) = Fin A
    /\ P = wetted_perimeter PIPE CIRCULAR (Rmax 0.8 0.001) (Rmax 0.6 0.001)
    /\ 0 < P
    /\ close_to D (4 * A / P).
Proof.
  apply (hydraulicDiameter_is_4A_over_P (scenario (Fin 4)) 0.8 0.6);
    try reflexivity; lra.
Defined.

(** ** The injected stream *)

Lemma falsy_flow (v : num) (b : num) :
  v = Fin 0 \/ v = NaN -> (v || b)%num = b.
Proof. intros [-> | ->]; [apply or_else_zero | reflexivity]. Qed.

(** X11. A single stream is returned unchanged, to within one part in
    1e12.  When only the chemical flows (a chemical flow, density and
    viscosity between 1e-9 and 1e9, dilution water zero or absent) the
    injected density and viscosity are the chemical's; when only dilution
    water flows (a dilution water flow between 1e-9 and 1e9, chemical flow
    zero or absent, a finite chemical density and a finite non-negative
    chemical viscosity) they are those of water, 1000 kg/m3 and
    0.001 Pa s. *)
Theorem single_stream_properties (i : MixingInputs) :
  (forall cf cd cv,
     chemicalFlow i = Fin cf -> 1e-9 <= cf <= 1e9 ->
     dilutionWaterFlow i = Fin 0 \/ dilutionWaterFlow i = NaN ->
     chemicalDensity i = Fin cd -> 1e-9 <= cd <= 1e9 ->
     chemicalViscosity i = Fin cv -> 1e-9 <= cv <= 1e9 ->
     exists rho mu,
       injectedDensity (calculateMixing i) = Fin rho
       /\ injectedViscosity (calculateMixing i) = Fin mu
       /\ close_to rho cd /\ close_to mu cv)
  /\ (forall dw cd cv,
        dilutionWaterFlow i = Fin dw -> 1e-9 <= dw <= 1e9 ->
        chemicalFlow i = Fin 0 \/ chemicalFlow i = NaN ->
        chemicalDensity i = Fin cd ->
        chemicalViscosity i = Fin cv -> 0 <= cv ->
        exists rho mu,
          injectedDensity (calculateMixing i) = Fin rho
          /\ injectedViscosity (calculateMixing i) = Fin mu
          /\ close_to rho 1000 /\ close_to mu 0.001).
Proof.
  split.
  - intros cf cd cv Ecf Hcf Edw Ecd Hcd Ecv Hcv.
    cbn [injectedDensity injectedViscosity calculateMixing].
    unfold Body.injDensity, Body.injVisc, Body.totalInjLh, Body.waterDensity,
      Body.waterViscosity.
    rewrite (falsy_flow _ _ Edw), Ecf, Ecd, Ecv. js_eval.
    do 2 eexists. split; [reflexivity |]. split; [reflexivity |].
    split; apply close_to_eq.
    + field. lra.
    + replace ((cf * ln cv + 0 * ln 0.001) / (cf + 0)) with (ln cv)
        by (field; lra).
      apply exp_ln. lra.
  - intros dw cd cv Edw Hdw Ecf Ecd Ecv Hcv.
    cbn [injectedDensity injectedViscosity calculateMixing].
    unfold Body.injDensity, Body.injVisc, Body.totalInjLh, Body.waterDensity,
      Body.waterViscosity.
    rewrite (falsy_flow _ _ Ecf), Edw, Ecd, Ecv.
    assert (Hlog : exists l, Math_log (Fin cv || Fin 1e-6)%num = Fin l).
    { destruct (Req_dec_T cv 0) as [-> | Hnz].
      - rewrite or_else_zero, Math_log_Fin by lra. now eexists.
      - rewrite or_else_Fin, Math_log_Fin by lra. now eexists. }
    destruct Hlog as (l & ->).
    assert (Hden : exists c, (Fin cd || Fin 1000)%num = Fin c).
    { destruct (Req_dec_T cd 0) as [-> | Hnz].
      - rewrite or_else_zero. now eexists.
      - rewrite or_else_Fin by assumption. now eexists. }
    destruct Hden as (c & ->).
    js_eval.
    do 2 eexists. split; [reflexivity |]. split; [reflexivity |].
    split; apply close_to_eq.
    + field. lra.
    + replace ((0 * l + dw * ln 0.001) / (0 + dw)) with (ln 0.001)
        by (field; lra).
      apply exp_ln. lra.
Qed.

Lemma single_stream_properties_witness :
  exists rho mu,
    injectedDensity
      (calculateMixing (assign (U_dilutionWaterFlow (Fin 0)) initial_inputs))
    = Fin rho
    /\ injectedViscosity
         (calculateMixing (assign (U_dilutionWaterFlow (Fin 0)) initial_inputs))
       = Fin mu
    /\ close_to rho 1450 /\ close_to mu 0.015.
Proof.
  apply (proj1 (single_stream_properties
                  (assign (U_dilutionWaterFlow (Fin 0)) initial_inputs))
           10 1450 0.015); try reflexivity; try lra.
  now left.
Defined.

(** X12. With no injection at all (both flows zero or absent, a finite
    chemical density and a finite non-negative chemical viscosity) the
    blend degenerates: the total injection flow and the injected density
    are 0 and the injected viscosity is 1 Pa s. *)
Theorem no_injection_blend (i : MixingInputs) (cd cv : R) :
  chemicalFlow i = Fin 0 \/ chemicalFlow i = NaN ->
  dilutionWaterFlow i = Fin 0 \/ dilutionWaterFlow i = NaN ->
  chemicalDensity i = Fin cd ->
  chemicalViscosity i = Fin cv -> 0 <= cv ->
  totalInjectionFlow (calculateMixing i) = Fin 0
  /\ injectedDensity (calculateMixing i) = Fin 0
  /\ injectedViscosity (calculateMixing i) = Fin 1.
Proof.
  intros Ecf Edw Ecd Ecv Hcv.
  cbn [totalInjectionFlow injectedDensity injectedViscosity calculateMixing].
  unfold Body.injDensity, Body.injVisc, Body.totalInjLh, Body.waterDensity,
    Body.waterViscosity.
  rewrite (falsy_flow _ _ Ecf), (falsy_flow _ _ Edw), Ecd, Ecv.
  assert (Hlog : exists l, Math_log (Fin cv || Fin 1e-6)%num = Fin l).
  { destruct (Req_dec_T cv 0) as [-> | Hnz].
    - rewrite or_else_zero, Math_log_Fin by lra. now eexists.
    - rewrite or_else_Fin, Math_log_Fin by lra. now eexists. }
  destruct Hlog as (l & ->).
  assert (Hden : exists c, (Fin cd || Fin 1000)%num = Fin c).
  { destruct (Req_dec_T cd 0) as [-> | Hnz].
    - rewrite or_else_zero. now eexists.
    - rewrite or_else_Fin by assumption. now eexists. }
  destruct Hden as (c & ->).
  cbn [num_add num_mul].
  replace (0 + 0) with 0 by ring. rewrite or_else_zero.
  rewrite (or_else_Fin 0.001) by lra. rewrite Math_log_Fin by lra.
  cbn [num_add num_mul]. rewrite !num_div_Fin by lra. cbn [Math_exp].
  repeat split; f_equal.
  - field.
  - replace ((0 * l + 0 * ln 0.001) / 1) with 0 by field. apply exp_0.
Qed.

Lemma no_injection_blend_witness :
  totalInjectionFlow (calculateMixing (degenerate (Fin 4))) = Fin 0
  /\ injectedDensity (calculateMixing (degenerate (Fin 4))) = Fin 0
  /\ injectedViscosity (calculateMixing (degenerate (Fin 4))) = Fin 1.
Proof.
  apply (no_injection_blend (degenerate (Fin 4)) 1450 0.015);
    try reflexivity; try (now left); lra.
Defined.

Lemma slack_bounds (lo hi x : R) :
  0 < lo -> lo <= x <= hi ->
  lo * (1 - 1e-12) <= x <= hi * (1 + 1e-12).
Proof. intros Hlo [H1 H2]. split; nra. Qed.

(** X13. The blend lies between its two streams, to within one part in
    1e12: for chemical and dilution water flows, a chemical density and a
    chemical viscosity all between 1e-9 and 1e9, the injected density is
    between the chemical density and 1000 kg/m3, and the injected
    viscosity between the chemical viscosity and 0.001 Pa s. *)
Theorem blend_between_streams (i : MixingInputs) (cf dw cd cv : R) :
  chemicalFlow i = Fin cf -> 1e-9 <= cf <= 1e9 ->
  dilutionWaterFlow i = Fin dw -> 1e-9 <= dw <= 1e9 ->
  chemicalDensity i = Fin cd -> 1e-9 <= cd <= 1e9 ->
  chemicalViscosity i = Fin cv -> 1e-9 <= cv <= 1e9 ->
  exists rho mu,
    injectedDensity (calculateMixing i) = Fin rho
    /\ injectedViscosity (calculateMixing i) = Fin mu
    /\ Rmin cd 1000 * (1 - 1e-12) <= rho <= Rmax cd 1000 * (1 + 1e-12)
    /\ Rmin cv 0.001 * (1 - 1e-12) <= mu <= Rmax cv 0.001 * (1 + 1e-12).
Proof.
  intros Ecf Hcf' Edw Hdw' Ecd Hcd' Ecv Hcv'.
  assert (Hcf : 0 < cf) by lra. assert (Hdw : 0 < dw) by lra.
  assert (Hcd : 0 < cd) by lra. assert (Hcv : 0 < cv) by lra.
  cbn [injectedDensity injectedViscosity calculateMixing].
  unfold Body.injDensity, Body.injVisc, Body.totalInjLh, Body.waterDensity,
    Body.waterViscosity.
  rewrite Ecf, Edw, Ecd, Ecv. js_eval.
  do 2 eexists. split; [reflexivity |]. split; [reflexivity |].
  assert (Ht : 0 < cf + dw) by lra.
  assert (Hw : forall a b m M : R, m <= a <= M -> m <= b <= M ->
             m <= (cf * a + dw * b) / (cf + dw) <= M).
  { intros a b m M Ha Hb.
    split; [apply div_lower | apply div_upper]; nra. }
  split.
  - apply slack_bounds; [apply Rmin_glb_lt; lra |].
    apply Hw.
    + split; [apply Rmin_l | apply Rmax_l].
    + split; [apply Rmin_r | apply Rmax_r].
  - assert (Hmin : 0 < Rmin cv 0.001) by (apply Rmin_glb_lt; lra).
    assert (Hmax : 0 < Rmax cv 0.001).
    { apply Rlt_le_trans with cv; [assumption | apply Rmax_l]. }
    assert (Hln : forall a b, 0 < a -> a <= b -> ln a <= ln b).
    { intros a b Ha [Hab | ->]; [left; apply ln_increasing; lra | lra]. }
    assert (Hexp : forall a b, a <= b -> exp a <= exp b).
    { intros a b [Hab | ->]; [left; now apply exp_increasing | lra]. }
    apply slack_bounds; [assumption |].
    destruct (Hw (ln cv) (ln 0.001) (ln (Rmin cv 0.001)) (ln (Rmax cv 0.001)))
      as [Hlo Hhi].
    + split; apply Hln; trivial; [apply Rmin_l | apply Rmax_l].
    + split; apply Hln; trivial; [apply Rmin_r | lra | apply Rmax_r].
    + split.
      * rewrite <- (exp_ln (Rmin cv 0.001)) at 1 by assumption.
        now apply Hexp.
      * rewrite <- (exp_ln (Rmax cv 0.001)) at 1 by assumption.
        now apply Hexp.
Qed.

Lemma blend_between_streams_witness :
  exists rho mu,
    injectedDensity (calculateMixing (scenario (Fin 4))) = Fin rho
    /\ injectedViscosity (calculateMixing (scenario (Fin 4))) = Fin mu
    /\ Rmin 1450 1000 * (1 - 1e-12) <= rho <= Rmax 1450 1000 * (1 + 1e-12)
    /\ Rmin 0.015 0.001 * (1 - 1e-12) <= mu <= Rmax 0.015 0.001 * (1 + 1e-12).
Proof.
  apply (blend_between_streams (scenario (Fin 4)) 10 200 1450 0.015);
    try reflexivity; lra.
Defined.

(** * The application state *)

Lemma handleInputChange_invariant (u : field_update) (s : MixingInputs) :
  controls_invariant s -> from_controls u = true ->
  controls_invariant (handleInputChange u s).
Proof.
  intros (Hs & Hf & Hd & Hn & Hdp & Hrest) Hu.
  destruct u as [t | | m | v | v | v | [v |] | | | | | | | | | | |];
    try discriminate; cbn in Hu;
    unfold controls_invariant, handleInputChange;
    cbn [assign conduitShape conduitType flowRate dimension numElements depth
         availableLength viscosity density chemicalFlow chemicalDensity
         chemicalViscosity dilutionWaterFlow targetCoV targetMixingTime
         injectionType mixerModel];
    repeat split; try assumption; try apply Hrest;
    try (now apply negb_true_iff in Hu).
  exists v. split; [reflexivity | now apply negb_true_iff in Hu].
Qed.

(** X14. Whatever the user does with the rendered controls (the conduit
    buttons, the mixer select, the flow rate, dimension, depth and element
    fields), the state keeps an invariant: the conduit shape is CIRCULAR
    for a pipe and RECTANGULAR for a channel, so the rectangular-pipe
    geometry is never computed; the four typed fields are never NaN and the
    depth is never absent; and every other input keeps its initial
    value. *)
Theorem controls_keep_invariant (us : list field_update) :
  forallb from_controls us = true ->
  controls_invariant (run_updates us initial_inputs).
Proof.
  assert (Hinit : controls_invariant initial_inputs).
  { unfold controls_invariant, initial_inputs, scenario; cbn.
    repeat split. now exists (Fin 0.6). }
  unfold run_updates. revert Hinit. generalize initial_inputs as s.
  induction us as [| u us IH]; intros s Hs Hall; [exact Hs |].
  cbn [forallb] in Hall. apply andb_true_iff in Hall as [Hu Hall].
  cbn [fold_left]. apply IH; [| assumption].
  now apply handleInputChange_invariant.
Qed.

Lemma controls_keep_invariant_witness :
  controls_invariant
    (run_updates [U_conduitType CHANNEL; U_mixerModel HEV; U_flowRate (Fin 3)]
       initial_inputs).
Proof.
  apply (controls_keep_invariant
           [U_conduitType CHANNEL; U_mixerModel HEV; U_flowRate (Fin 3)]).
  reflexivity.
Defined.

(** * The chart *)

Lemma mixingDistanceNeeded_bounds (i : MixingInputs) :
  valid_inputs i ->
  exists m, mixingDistanceNeeded (calculateMixing i) = Fin m /\ 0 <= m.
Proof.
  intros Hvalid.
  destruct (valid_Lm i Hvalid) as (l & El & Hl).
  destruct (valid_mixerCoV i Hvalid) as (c & Ec & Hc).
  destruct (valid_tCoV i Hvalid) as (t & Et & Ht).
  destruct (valid_decay i) as (k & Ek & Hk).
  destruct (valid_Dh i Hvalid) as (dh & Edh & Hdh).
  cbn [mixingDistanceNeeded calculateMixing].
  unfold Body.mixingDistanceNeeded. rewrite El, Ec, Et, Ek, Edh.
  destruct (Rle_dec c t) as [Hle | Hgt].
  - rewrite (proj2 (num_leb_Fin c t) Hle). now exists l.
  - apply Rnot_le_lt in Hgt.
    rewrite (proj2 (num_leb_Fin_false c t) Hgt).
    rewrite (num_div_Fin c t) by lra.
    rewrite Math_log_Fin by (apply Rdiv_lt_0_compat; lra).
    rewrite num_div_Fin by lra. cbn [num_mul num_add].
    pose proof (ln_pos_ratio c t Ht Hgt) as Hln.
    assert (Hterm : 0 < ln (c / t) / k * dh).
    { apply Rmult_lt_0_compat; [now apply Rdiv_lt_0_compat | assumption]. }
    eexists. split; [reflexivity | lra].
Qed.

(** X15. For the result of a record whose numeric fields are each zero or
    a finite number between 1e-9 and 1e9, the chart has 21 points whose CoV
    values start at 1, never increase from one point to the next, and all
    lie between the achieved mixerCoV and 1. *)
Theorem chartData_shape (toFixed1 : num -> string) (i : MixingInputs) :
  moderate_inputs i ->
  exists (c : R) (y : nat -> R),
    mixerCoV (calculateMixing i) = Fin c
    /\ map cov (chartData toFixed1 (calculateMixing i))
       = map (fun k => Fin (y k)) (seq 0 21)
    /\ y 0%nat = 1
    /\ (forall k, c <= y k <= 1)
    /\ (forall j k, (j <= k)%nat -> y k <= y j).
Proof.
  intros Hmod. pose proof (moderate_inputs_valid i Hmod) as Hv.
  destruct (mixingDistanceNeeded_bounds i Hv) as (m & Em & Hm).
  cbn [mixingDistanceNeeded calculateMixing] in Em.
  destruct (valid_mixerCoV i Hv) as (c & Ec & Hc).
  destruct (valid_Dh i Hv) as (dh & Edh & Hdh).
  set (e := fun k : nat => 1.0 * exp (-0.1 * (INR k / 20 * (m * 1.5) / dh))).
  assert (He1 : forall k, 0 < e k <= 1).
  { intros k. unfold e. pose proof (pos_INR k) as Hk.
    assert (Hx : 0 <= INR k / 20 * (m * 1.5) / dh).
    { apply Rmult_le_pos; [nra | left; now apply Rinv_0_lt_compat]. }
    split; [pose proof (exp_pos (-0.1 * (INR k / 20 * (m * 1.5) / dh))); lra |].
    destruct (Req_dec_T (INR k / 20 * (m * 1.5) / dh) 0) as [-> | Hnz].
    - rewrite Rmult_0_r, exp_0. lra.
    - assert (exp (-0.1 * (INR k / 20 * (m * 1.5) / dh)) < exp 0)
        by (apply exp_increasing; lra).
      rewrite exp_0 in *. lra. }
  assert (Hmono : forall j k, (j <= k)%nat -> e k <= e j).
  { intros j k Hjk. unfold e. apply le_INR in Hjk.
    assert (Hx : INR j / 20 * (m * 1.5) / dh <= INR k / 20 * (m * 1.5) / dh).
    { apply Rmult_le_compat_r; [left; now apply Rinv_0_lt_compat | nra]. }
    destruct Hx as [Hx | ->]; [| lra].
    assert (exp (-0.1 * (INR k / 20 * (m * 1.5) / dh))
            < exp (-0.1 * (INR j / 20 * (m * 1.5) / dh)))
      by (apply exp_increasing; lra).
    lra. }
  exists c, (fun k => Rmax c (e k)).
  cbn [mixerCoV calculateMixing]. split; [exact Ec |]. split; [| split; [| split]].
  - unfold chartData. rewrite map_map. apply map_ext. intros k.
    unfold chartPoint. cbn [cov mixingDistanceNeeded hydraulicDiameter mixerCoV
                            calculateMixing].
    rewrite Em, Ec, Edh. rewrite (or_else_Fin dh) by lra.
    rewrite (num_div_Fin (INR k) 20) by lra.
    change (Fin (INR k / 20) * (Fin m * Fin 1.5))%num
      with (Fin (INR k / 20 * (m * 1.5))).
    rewrite num_div_Fin by lra. reflexivity.
  - unfold e. cbn [INR].
    replace (-0.1 * (0 / 20 * (m * 1.5) / dh)) with 0 by (field; lra).
    rewrite exp_0. rewrite Rmax_right by lra. lra.
  - intros k. destruct (He1 k). split; [apply Rmax_l | apply Rmax_lub; lra].
  - intros j k Hjk. apply Rle_max_compat_l. now apply Hmono.
Qed.

Lemma chartData_shape_witness :
  exists (c : R) (y : nat -> R),
    mixerCoV (calculateMixing (narrow_pipe (Fin 1))) = Fin c
    /\ map cov (chartData (fun _ => EmptyString)
                  (calculateMixing (narrow_pipe (Fin 1))))
       = map (fun k => Fin (y k)) (seq 0 21)
    /\ y 0%nat = 1
    /\ (forall k, c <= y k <= 1)
    /\ (forall j k, (j <= k)%nat -> y k <= y j).
Proof.
  apply (chartData_shape (fun _ => EmptyString) (narrow_pipe (Fin 1))).
  unfold moderate_inputs, moderate_hydraulics, narrow_pipe; cbn.
  repeat split; moderate_field.
Defined.

(** * Runs of the retry wrapper *)

Lemma nth_outcome_S {T W : Type} (fn : W -> outcome T * W) (w : W) (k : nat) :
  nth_outcome fn w (S k) = nth_outcome fn (snd (fn w)) k.
Proof. reflexivity. Qed.

Lemma retry_loop_run {T W : Type} (fn : W -> outcome T * W)
  (n rem i : nat) (e : JsError) (w : W) :
  (i + rem = n)%nat ->
  let r := retry_loop fn n rem i e w in
  let m := calls (snd r) in
  (m <= rem)%nat
  /\ call_outcomes (snd r) = map (nth_outcome fn w) (seq 0 m)
  /\ sleeps (snd r) = map backoff (seq i (pred m))
  /\ snd (fst r) = world_after fn w m
  /\ (rem = 0%nat -> fst (fst r) = Rejected e)
  /\ (0 < rem -> 0 < m /\ fst (fst r) = nth_outcome fn w (pred m))%nat
  /\ (forall k, (S k < m)%nat -> rate_limited (nth_outcome fn w k) = true)
  /\ ((m < rem)%nat -> rate_limited (fst (fst r)) = false).
Proof.
  revert i e w. induction rem as [| k IH]; intros i e w Hn; cbn zeta.
  - cbn. repeat split; intros; try lia; reflexivity.
  - cbn [retry_loop].
    destruct (fn w) as [o w1] eqn:Efn.
    assert (H0 : nth_outcome fn w 0 = o)
      by (unfold nth_outcome; cbn [world_after]; now rewrite Efn).
    assert (HS : forall j, nth_outcome fn w (S j) = nth_outcome fn w1 j)
      by (intros j; rewrite nth_outcome_S; now rewrite Efn).
    assert (HW : forall j, world_after fn w (S j) = world_after fn w1 j)
      by (intros j; cbn [world_after]; now rewrite Efn).
    assert (Hone :
      forall o', o' = o -> (k = 0%nat \/ rate_limited o = false) ->
      (1 <= S k)%nat
      /\ [o'] = map (nth_outcome fn w) (seq 0 1)
      /\ @nil Z = map backoff (seq i (pred 1))
      /\ w1 = world_after fn w 1
      /\ (S k = 0%nat -> o' = Rejected e)
      /\ (0 < S k -> 0 < 1 /\ o' = nth_outcome fn w (pred 1))%nat
      /\ (forall j, (S j < 1)%nat -> rate_limited (nth_outcome fn w j) = true)
      /\ ((1 < S k)%nat -> rate_limited o' = false)).
    { intros o' -> Hstop. cbn [seq map pred]. rewrite H0, (HW 0%nat).
      cbn [world_after].
      repeat split; intros; try lia; try discriminate.
      destruct Hstop; [lia | assumption]. }
    destruct o as [v | err].
    + cbn [fst snd calls call_outcomes sleeps].
      apply Hone; [reflexivity | now right].
    + destruct (k =? 0)%nat eqn:Ek.
      * (* the last attempt *)
        apply Nat.eqb_eq in Ek.
        replace (Z.of_nat i <? Z.of_nat n - 1)%Z with false
          by (symmetry; apply Z.ltb_ge; lia).
        cbn [andb fst snd calls call_outcomes sleeps].
        apply Hone; [reflexivity | now left].
      * apply Nat.eqb_neq in Ek.
        replace (Z.of_nat i <? Z.of_nat n - 1)%Z with true
          by (symmetry; apply Z.ltb_lt; lia).
        cbn [andb]. destruct (isRateLimit err) eqn:Er.
        -- specialize (IH (S i) err w1 ltac:(lia)). cbn zeta in IH.
           destruct (retry_loop fn n k (S i) err w1) as [[res w2] log].
           cbn [fst snd] in IH.
           destruct IH as (Hle & Hco & Hsl & Hw & _ & Hlast & Hrl & Hstop).
           destruct (Hlast ltac:(lia)) as [Hpos Hres].
           cbn [fst snd calls call_outcomes sleeps].
           set (m := calls log) in *.
           repeat split.
           ++ lia.
           ++ cbn [seq map]. rewrite H0. f_equal.
              rewrite Hco, <- seq_shift, map_map. apply map_ext.
              intros j. now rewrite HS.
           ++ cbn [pred]. rewrite Hsl.
              destruct m as [| m']; [lia |]. reflexivity.
           ++ now rewrite HW.
           ++ discriminate.
           ++ lia.
           ++ cbn [pred]. rewrite Hres.
              destruct m as [| m']; [lia |]. cbn [pred]. now rewrite HS.
           ++ intros [| j] Hj.
              ** rewrite H0. exact Er.
              ** rewrite HS. apply Hrl. lia.
           ++ intros Hlt. apply Hstop. lia.
        -- cbn [fst snd calls call_outcomes sleeps].
           apply Hone; [reflexivity | now right].
Qed.

(** X16. The run of callWithRetry for any maxRetries: it makes between 1
    and maxRetries calls of fn (none when maxRetries is 0, and then
    rejects with undefined), one after the other on the same world; every
    call before the last was rejected with a rate-limit error; the run
    stops before maxRetries calls only on an answer or on a rejection
    that is not a rate-limit error; its result is how the last call
    settled; and the delay awaited after the failed attempt of index k is
    2^k seconds. *)
Theorem callWithRetry_run {T W : Type} (fn : W -> outcome T * W)
  (maxRetries : nat) (w : W) :
  let r := callWithRetry fn maxRetries w in
  let m := calls (snd r) in
  (m <= maxRetries)%nat
  /\ call_outcomes (snd r) = map (nth_outcome fn w) (seq 0 m)
  /\ sleeps (snd r) = map backoff (seq 0 (pred m))
  /\ snd (fst r) = world_after fn w m
  /\ (maxRetries = 0%nat -> fst (fst r) = Rejected undefined)
  /\ (0 < maxRetries -> 0 < m /\ fst (fst r) = nth_outcome fn w (pred m))%nat
  /\ (forall k, (S k < m)%nat -> rate_limited (nth_outcome fn w k) = true)
  /\ ((m < maxRetries)%nat -> rate_limited (fst (fst r)) = false).
Proof.
  unfold callWithRetry. apply retry_loop_run. reflexivity.
Qed.

Lemma backoff_sum (m : nat) :
  fold_right Z.add 0%Z (map backoff (seq 0 m)) = ((2 ^ Z.of_nat m - 1) * 1000)%Z.
Proof.
  induction m as [| m IH]; [reflexivity |].
  rewrite seq_S, map_app, fold_right_app. cbn [map fold_right Nat.add].
  assert (Hsplit : forall l a,
            fold_right Z.add a l = (fold_right Z.add 0 l + a)%Z).
  { induction l as [| x l IHl]; intros a; cbn [fold_right]; [lia |].
    rewrite IHl. lia. }
  rewrite Hsplit, IH. unfold backoff.
  rewrite Nat2Z.inj_succ, Z.pow_succ_r by lia. lia.
Qed.

(** X17. The time a run of callWithRetry spends waiting: after m calls it
    has waited (2^(m-1) - 1) seconds in all, hence at most
    (2^(maxRetries-1) - 1) seconds (3 s for the default of three
    attempts), and nothing when the first call settles the run. *)
Theorem callWithRetry_total_delay {T W : Type} (fn : W -> outcome T * W)
  (maxRetries : nat) (w : W) :
  let log := snd (callWithRetry fn maxRetries w) in
  let total := fold_right Z.add 0%Z (sleeps log) in
  total = ((2 ^ Z.of_nat (pred (calls log)) - 1) * 1000)%Z
  /\ (total <= (2 ^ Z.of_nat (pred maxRetries) - 1) * 1000)%Z
  /\ (rate_limited (nth_outcome fn w 0) = false -> total = 0%Z).
Proof.
  cbn zeta.
  destruct (retry_loop_run fn maxRetries maxRetries 0 undefined w eq_refl)
    as (Hle & _ & Hsl & _ & _ & _ & Hrl & _).
  fold (callWithRetry fn maxRetries w) in Hle, Hsl, Hrl.
  cbn zeta in *. rewrite Hsl, backoff_sum.
  set (m := calls (snd (callWithRetry fn maxRetries w))) in *.
  split; [reflexivity |]. split.
  - assert (2 ^ Z.of_nat (pred m) <= 2 ^ Z.of_nat (pred maxRetries))%Z
      by (apply Z.pow_le_mono_r; lia).
    lia.
  - intros H0. destruct m as [| [| m']]; try reflexivity.
    rewrite (Hrl 0%nat) in H0 by lia. discriminate.
Qed.

(** ** The messages of the collaborators *)

Lemma text_or_nonempty (t : option string) (dflt : string) :
  dflt <> EmptyString -> text_or t dflt <> EmptyString.
Proof.
  intros H. destruct t as [[| a s] |]; cbn; trivial. discriminate.
Qed.

(** X18. extractGuideData and getAIRecommendations never hand the caller
    an empty string: an answer with an empty or absent text is replaced by
    the fixed default, and a failed run by the fixed fallback. *)
Theorem collaborators_message_nonempty (W Request : Type)
  (generateContent : Request -> W -> outcome GenerateContentResponse * W)
  (guide_request : string -> Request)
  (audit_request : MixingInputs -> CalculationResults -> Request) :
  (forall pdfBase64 w,
     fst (fst (extractGuideData W Request generateContent guide_request
                 pdfBase64 w)) <> EmptyString)
  /\ (forall inputs results w,
        fst (fst (getAIRecommendations W Request generateContent audit_request
                    inputs results w)) <> EmptyString).
Proof.
  split; intros.
  - unfold extractGuideData.
    destruct (callWithRetry _ 3 w) as [[[r | e] w1] log]; cbn [fst];
      [apply text_or_nonempty |]; discriminate.
  - unfold getAIRecommendations.
    destruct (callWithRetry _ 3 w) as [[[r | e] w1] log]; cbn [fst];
      [apply text_or_nonempty |]; discriminate.
Qed.

(** ** The rate-limit test *)

Lemma prefix_iff (a b : string) :
  String.prefix a b = true <-> exists post, b = (a ++ post)%string.
Proof.
  revert b. induction a as [| x a IH]; intros [| y b]; cbn.
  - split; [intros _; now exists EmptyString | reflexivity].
  - split; [intros _; now exists (String y b) | reflexivity].
  - split; [discriminate | intros (post & H); discriminate].
  - destruct (Ascii.ascii_dec x y) as [-> | Hne].
    + rewrite IH. split; intros (post & H); exists post.
      * now rewrite H.
      * now injection H.
    + split; [discriminate |].
      intros (post & H). injection H as H1 _. congruence.
Qed.

Lemma includes_iff (needle hay : string) :
  includes needle hay = true
  <-> exists pre post, hay = (pre ++ needle ++ post)%string.
Proof.
  induction hay as [| c hay IH]; cbn [includes].
  - destruct (String.prefix needle "") eqn:E.
    + split; [intros _ | reflexivity].
      apply prefix_iff in E as (post & E). now exists EmptyString, post.
    + split; [discriminate |].
      intros ([| x pre] & post & H); [| discriminate].
      cbn in H. assert (String.prefix needle "" = true)
        by (apply prefix_iff; now exists post).
      congruence.
  - destruct (String.prefix needle (String c hay)) eqn:E.
    + split; [intros _ | reflexivity].
      apply prefix_iff in E as (post & E). now exists EmptyString, post.
    + rewrite IH. split.
      * intros (pre & post & H). exists (String c pre), post. cbn. now rewrite H.
      * intros ([| x pre] & post & H).
        -- cbn in H. assert (String.prefix needle (String c hay) = true)
             by (apply prefix_iff; now exists post).
           congruence.
        -- cbn in H. injection H as _ H. now exists pre, post.
Qed.

(** X19. A rejection counts as a rate-limit signal exactly when its
    message contains the characters 429 anywhere, or its status is the
    number 429; a rejection with neither a message nor a status never
    does. *)
Theorem isRateLimit_iff (error : JsError) :
  isRateLimit error = true
  <-> (exists m pre post,
         message error = Some m /\ m = (pre ++ "429" ++ post)%string)
      \/ status error = Some 429%Z.
Proof.
  unfold isRateLimit. rewrite orb_true_iff. split.
  - intros [H | H].
    + left. destruct (message error) as [m |]; [| discriminate].
      apply includes_iff in H as (pre & post & H). now exists m, pre, post.
    + right. destruct (status error) as [s |]; [| discriminate].
      apply Z.eqb_eq in H. now subst.
  - intros [(m & pre & post & Hm & H) | H].
    + left. rewrite Hm. apply includes_iff. now exists pre, post.
    + right. rewrite H. reflexivity.
Qed.

(** * MarkdownDisplay *)

Lemma split_nonempty (sep : N) (s : jsstring) : split sep s <> [].
Proof.
  destruct s as [| c rest]; cbn; [discriminate |].
  destruct (c =? sep)%N; [discriminate |].
  destruct (split sep rest); discriminate.
Qed.

Lemma split_length (sep : N) (s : jsstring) :
  length (split sep s) = S (count_occ N.eq_dec s sep).
Proof.
  induction s as [| c rest IH]; [reflexivity |].
  cbn [split count_occ].
  destruct (N.eqb_spec c sep) as [-> | Hne].
  - destruct (N.eq_dec sep sep); [| contradiction]. cbn. now rewrite IH.
  - destruct (N.eq_dec c sep); [contradiction |].
    pose proof (split_nonempty sep rest).
    destruct (split sep rest); [contradiction | exact IH].
Qed.

Lemma split_no_separator (sep : N) (s : jsstring) :
  Forall (fun line => ~ In sep line) (split sep s).
Proof.
  induction s as [| c rest IH]; cbn [split].
  - constructor; [intros [] | constructor].
  - destruct (N.eqb_spec c sep) as [-> | Hne].
    + constructor; [intros [] | exact IH].
    + destruct (split sep rest) as [| line lines].
      * constructor; [| constructor]. intros [H | []]. congruence.
      * inversion IH as [| ? ? Hl Hls]; subst.
        constructor; [| assumption]. intros [H | H]; [congruence | contradiction].
Qed.

Lemma drop_while_suffix (p : N -> bool) (s : jsstring) :
  exists pre, s = pre ++ drop_while p s /\ forallb p pre = true.
Proof.
  induction s as [| c rest (pre & E & Hp)]; cbn [drop_while].
  - now exists [].
  - destruct (p c) eqn:Ec.
    + exists (c :: pre). cbn. rewrite Ec, Hp. split; [now f_equal | reflexivity].
    + now exists [].
Qed.

Lemma drop_while_head (p : N -> bool) (s : jsstring) :
  match drop_while p s with
  | c :: _ => p c = false
  | [] => True
  end.
Proof.
  induction s as [| c rest IH]; cbn [drop_while]; [trivial |].
  destruct (p c) eqn:Ec; assumption.
Qed.

Lemma drop_while_all (p : N -> bool) (s : jsstring) :
  drop_while p s = [] <-> forallb p s = true.
Proof.
  induction s as [| c rest IH]; cbn; [tauto |].
  destruct (p c); cbn; [exact IH | split; discriminate].
Qed.

Lemma last_suffix (pre t : jsstring) (d1 d2 : N) :
  t <> [] -> last (pre ++ t) d1 = last t d2.
Proof.
  intros Ht. induction pre as [| x pre IH]; cbn [app].
  - destruct t as [| y t]; [contradiction |].
    clear Ht. revert y. induction t as [| z t IHt]; intros y; [reflexivity |].
    cbn [last] in *. apply IHt.
  - cbn [last]. destruct (pre ++ t) eqn:E; [| exact IH].
    destruct pre; cbn in E; [contradiction | discriminate].
Qed.

Lemma last_rev_head (s : jsstring) (c d : N) : last (rev (c :: s)) d = c.
Proof. cbn [rev]. apply last_last. Qed.

(** A suffix of a trimmed string that does not start with white space is
    trimmed. *)
Lemma trimmed_suffix (pre s t : jsstring) :
  trimmed_string s -> s = pre ++ t ->
  match t with c :: _ => is_space c = false | [] => True end ->
  trimmed_string t.
Proof.
  intros Hs E Ht. destruct t as [| c t']; [exact I |].
  split; [assumption |].
  destruct s as [| x s']; [destruct pre; discriminate |].
  destruct Hs as [_ Hlast].
  rewrite E in Hlast. rewrite (last_suffix pre (c :: t') x c) in Hlast
    by discriminate.
  exact Hlast.
Qed.

Lemma trim_trimmed (s : jsstring) : trimmed_string (trim s).
Proof.
  unfold trim.
  pose proof (drop_while_head is_space s) as Hh.
  set (t := drop_while is_space s) in *.
  pose proof (drop_while_head is_space (rev t)) as Hu.
  destruct (drop_while_suffix is_space (rev t)) as (pre & E & _).
  set (u := drop_while is_space (rev t)) in *.
  destruct u as [| c u']; [exact I |].
  (* rev u is non-empty: its last is c, its first is the first of t *)
  assert (Erev : t = rev (c :: u') ++ rev pre).
  { rewrite <- rev_app_distr, <- E. now rewrite rev_involutive. }
  unfold trimmed_string.
  destruct (rev (c :: u')) as [| x r] eqn:Er.
  { apply (f_equal (@length N)) in Er. rewrite length_rev in Er. discriminate. }
  split.
  - rewrite Erev in Hh. exact Hh.
  - rewrite <- Er. now rewrite last_rev_head.
Qed.

Lemma trim_empty_iff (s : jsstring) :
  trim s = [] <-> forallb is_space s = true.
Proof.
  unfold trim. split.
  - intros H. apply (f_equal (@rev N)) in H. rewrite rev_involutive in H.
    cbn in H. apply drop_while_all in H. rewrite forallb_forall in H.
    apply drop_while_all.
    destruct (drop_while is_space s) as [| c t] eqn:E; [reflexivity |].
    pose proof (drop_while_head is_space s) as Hh. rewrite E in Hh.
    rewrite (H c) in Hh; [discriminate |].
    apply -> in_rev. now left.
  - intros H. apply drop_while_all in H. now rewrite H.
Qed.

Lemma In_drop_while (p : N -> bool) (s : jsstring) (c : N) :
  In c (drop_while p s) -> In c s.
Proof.
  destruct (drop_while_suffix p s) as (pre & E & _).
  intros H. rewrite E. apply in_or_app. now right.
Qed.

Lemma In_trim (s : jsstring) (c : N) : In c (trim s) -> In c s.
Proof.
  unfold trim. intros H. apply in_rev in H.
  apply In_drop_while in H. apply in_rev in H.
  now apply In_drop_while in H.
Qed.

Lemma In_shown_text (line : jsstring) (c : N) :
  In c (shown_text (render_line line)) -> In c line.
Proof.
  unfold render_line. intros H. apply In_trim.
  destruct (trim line) as [| x t] eqn:E; [contradiction |].
  destruct (startsWith hash (x :: t)) eqn:Eh.
  - cbn [shown_text] in H. unfold strip_heading in H. rewrite Eh in H.
    now do 2 apply In_drop_while in H.
  - destruct (startsWith dash (x :: t) || startsWith star (x :: t)) eqn:Eb.
    + cbn [shown_text strip_bullet startsWith] in *. rewrite Eb in H.
      right. now apply In_drop_while in H.
    + exact H.
Qed.

Lemma strip_heading_suffix (s : jsstring) :
  exists pre, s = pre ++ strip_heading s.
Proof.
  unfold strip_heading. destruct (startsWith hash s); [| now exists []].
  destruct (drop_while_suffix (N.eqb hash) s) as (p1 & E1 & _).
  destruct (drop_while_suffix is_space (drop_while (N.eqb hash) s))
    as (p2 & E2 & _).
  exists (p1 ++ p2). rewrite <- app_assoc, <- E2. exact E1.
Qed.

Lemma strip_bullet_suffix (s : jsstring) :
  exists pre, s = pre ++ strip_bullet s.
Proof.
  unfold strip_bullet. destruct s as [| c rest]; [now exists [] |].
  destruct ((c =? dash)%N || (c =? star)%N); [| now exists []].
  destruct (drop_while_suffix is_space rest) as (p & E & _).
  exists (c :: p). cbn. now f_equal.
Qed.

Lemma render_line_trimmed (line : jsstring) :
  trimmed_string (shown_text (render_line line)).
Proof.
  pose proof (trim_trimmed line) as Ht.
  unfold render_line. cbn zeta.
  destruct (trim line) as [| x t] eqn:E; [exact I |].
  destruct (startsWith hash (x :: t)) eqn:Eh.
  - cbn [shown_text].
    destruct (strip_heading_suffix (x :: t)) as (pre & Es).
    apply (trimmed_suffix pre (x :: t)); [assumption | assumption |].
    unfold strip_heading. rewrite Eh. apply drop_while_head.
  - destruct (startsWith dash (x :: t) || startsWith star (x :: t)) eqn:Eb.
    + cbn [shown_text].
      destruct (strip_bullet_suffix (x :: t)) as (pre & Es).
      apply (trimmed_suffix pre (x :: t)); [assumption | assumption |].
      cbn [strip_bullet startsWith] in *. rewrite Eb.
      apply drop_while_head.
    + exact Ht.
Qed.

(** X20. How MarkdownDisplay renders one line.  The line is a spacer
    exactly when it holds nothing but white space; it is a heading when
    its first visible character is '#', a bullet when it is '-' or '*',
    and a paragraph otherwise.  The text shown is the end of the trimmed
    line (all of it for a paragraph, the part after the marker for a
    heading or a bullet) and has no white space at either end. *)
Theorem render_line_text (line : jsstring) :
  (render_line line = Spacer <-> forallb is_space line = true)
  /\ trimmed_string (shown_text (render_line line))
  /\ (exists pre, trim line = pre ++ shown_text (render_line line))
  /\ match render_line line with
     | Spacer => trim line = []
     | Heading _ => startsWith hash (trim line) = true
     | Bullet _ =>
         startsWith hash (trim line) = false
         /\ (startsWith dash (trim line) = true
             \/ startsWith star (trim line) = true)
     | Paragraph s =>
         s = trim line /\ s <> []
         /\ startsWith hash s = false /\ startsWith dash s = false
         /\ startsWith star s = false
     end.
Proof.
  pose proof (render_line_trimmed line) as Htr.
  pose proof (trim_empty_iff line) as He.
  unfold render_line in *. cbn zeta in *.
  destruct (trim line) as [| x t] eqn:E.
  - repeat split; try tauto. now exists [].
  - assert (Hne : forallb is_space line = true -> False).
    { intros H. apply He in H. discriminate. }
    destruct (startsWith hash (x :: t)) eqn:Eh.
    + split; [split; [discriminate | tauto] |].
      split; [exact Htr |]. split; [apply strip_heading_suffix | reflexivity].
    + destruct (startsWith dash (x :: t) || startsWith star (x :: t)) eqn:Eb.
      * split; [split; [discriminate | tauto] |].
        split; [exact Htr |]. split; [apply strip_bullet_suffix |].
        split; [reflexivity | now apply orb_true_iff in Eb].
      * apply orb_false_iff in Eb as [Ed Es].
        split; [split; [discriminate | tauto] |].
        split; [exact Htr |]. split; [now exists [] |].
        repeat split; try assumption. discriminate.
Qed.

(** X21. MarkdownDisplay renders exactly one element per line of the
    content, in order: one more than the number of line feeds, so at
    least one, even for an empty content; no text shown contains a line
    feed, and each is free of white space at both ends. *)
Theorem MarkdownDisplay_one_block_per_line (content : jsstring) :
  length (MarkdownDisplay content)
  = S (count_occ N.eq_dec content newline)
  /\ MarkdownDisplay content <> []
  /\ Forall (fun b => ~ In newline (shown_text b)
                      /\ trimmed_string (shown_text b))
       (MarkdownDisplay content).
Proof.
  unfold MarkdownDisplay. rewrite length_map, split_length.
  split; [reflexivity |]. split.
  - intros H. apply map_eq_nil in H. now apply split_nonempty in H.
  - apply Forall_map.
    eapply Forall_impl; [| apply split_no_separator].
    intros line Hline. split.
    + intros H. apply Hline. now apply In_shown_text.
    + apply render_line_trimmed.
Qed.
